(** * pdf-to-jpg: the compression pipeline and the AI edit step of [src/App.tsx]

    A shallow embedding of the pure helpers ([formatFileSize],
    [dataURLToBlob], [getQuality]) and of the two event handlers
    ([handleCompress], [handleApplyEdit]) of the React component [App].

    Conventions of the embedding.
    - JS strings are [string]s (sequences of 8-bit code units); the string
      operations used by the source ([replace], [split], [join], regular
      expression matches) are written out as functions on them.
    - Byte counts and sizes are natural numbers ([N]); page numbers and
      array indices are [nat].
    - A handler is a function from the state captured by its closure and
      from the answers of the outside world (file reader, pdf.js, canvas,
      jsPDF, the AI service) to the trace of state setter calls and
      requests it performs, together with the way it completes. The state
      after the handler is the trace replayed on the state before it, when
      no other handler runs while this one awaits. *)

From Stdlib Require Import String Ascii List NArith QArith Lia Bool DecimalString
  DecimalN.
From stdpp Require Import base list.
Import ListNotations.

Local Open Scope string_scope.
Local Open Scope N_scope.

(** ** JavaScript string primitives *)

Module JS.

(** The line feed, written [\n] in the source. *)
Definition LF : string := String (ascii_of_nat 10) "".
Definition CR : ascii := ascii_of_nat 13.

(** Template interpolation of a non-negative integer: its decimal digits. *)
Definition showN (n : N) : string := NilEmpty.string_of_uint (N.to_uint n).
Definition show (n : nat) : string := showN (N.of_nat n).

(** [s.startsWith(p)]. *)
Fixpoint startsWith (p s : string) : bool :=
  match p, s with
  | EmptyString, _ => true
  | String a p', String b s' => if Ascii.eqb a b then startsWith p' s' else false
  | String _ _, EmptyString => false
  end.

(** [s.substring(n)]: [s] without its first [n] code units. *)
Fixpoint drop (n : nat) (s : string) : string :=
  match n, s with
  | O, _ => s
  | S n', String _ s' => drop n' s'
  | S _, EmptyString => EmptyString
  end.

(** [s.replace(pat, rep)] with a string pattern: only the leftmost
    occurrence of [pat] is replaced ([rep] holds no [$] pattern in the
    source). *)
Fixpoint replace (pat rep s : string) : string :=
  if startsWith pat s then rep ++ drop (String.length pat) s
  else match s with
       | EmptyString => EmptyString
       | String c s' => String c (replace pat rep s')
       end.

(** [s.includes(p)]. *)
Fixpoint includes (p s : string) : bool :=
  startsWith p s ||
  match s with
  | EmptyString => false
  | String _ s' => includes p s'
  end.

(** [s.split(',')]: the segments between commas; never empty. *)
Fixpoint split_comma (s : string) : list string :=
  match s with
  | EmptyString => [EmptyString]
  | String c s' =>
      if Ascii.eqb c ","%char then EmptyString :: split_comma s'
      else match split_comma s' with
           | seg :: segs => String c seg :: segs
           | [] => [String c EmptyString]
           end
  end.

(** [items.join(sep)]. *)
Definition join (sep : string) (items : list string) : string :=
  String.concat sep items.

(** [.] of a regular expression: any code unit but a line terminator. *)
Definition is_line_terminator (c : ascii) : bool :=
  Ascii.eqb c (ascii_of_nat 10) || Ascii.eqb c CR.

(** The lazy group of [/:(.*?);/] tried right after a colon: the text up
    to the first semicolon, unless a line terminator or the end of the
    string comes first. *)
Fixpoint upto_semicolon (s : string) : option string :=
  match s with
  | EmptyString => None
  | String c s' =>
      if Ascii.eqb c ";"%char then Some EmptyString
      else if is_line_terminator c then None
      else match upto_semicolon s' with
           | Some g => Some (String c g)
           | None => None
           end
  end.

(** [s.match(/:(.*?);/)]: group 1 of the leftmost match, [None] for no
    match. The matcher tries each start position from the left. *)
Fixpoint match_mime (s : string) : option string :=
  match s with
  | EmptyString => None
  | String c s' =>
      if Ascii.eqb c ":"%char then
        match upto_semicolon s' with
        | Some g => Some g
        | None => match_mime s'
        end
      else match_mime s'
  end.

(** A member of the class [[\w\d_-]] (the [i] flag adds nothing to it). *)
Definition is_word_char (c : ascii) : bool :=
  let n := N_of_ascii c in
  ((65 <=? n) && (n <=? 90)) || ((97 <=? n) && (n <=? 122))
  || ((48 <=? n) && (n <=? 57)) || (n =? 95) || (n =? 45).

Fixpoint all_word_chars (s : string) : bool :=
  match s with
  | EmptyString => true
  | String c s' => is_word_char c && all_word_chars s'
  end.

(** [/(\.[\w\d_-]+)$/i] matched at the start of [s]: a dot followed by
    one or more class members up to the end of the string. *)
Definition extension_here (s : string) : bool :=
  match s with
  | String c rest =>
      Ascii.eqb c "."%char
      && negb (String.eqb rest EmptyString) && all_word_chars rest
  | EmptyString => false
  end.

(** [name.replace(/(\.[\w\d_-]+)$/i, '_edited$1')]: at the leftmost match
    the text [_edited] is put before the matched extension; a name with
    no match is returned as it is. *)
Fixpoint replace_extension_edited (name : string) : string :=
  if extension_here name then "_edited" ++ name
  else match name with
       | EmptyString => EmptyString
       | String c s' => String c (replace_extension_edited s')
       end.

(** The [type] a [Blob] gets from [new Blob(parts, { type })]: the text
    in ASCII lower case, or the empty text when it holds a code unit
    outside U+0020 .. U+007E. *)
Definition is_printable (c : ascii) : bool :=
  let n := N_of_ascii c in (32 <=? n) && (n <=? 126).

Definition lowercase (c : ascii) : ascii :=
  let n := N_of_ascii c in
  if (65 <=? n) && (n <=? 90) then ascii_of_N (n + 32) else c.

Fixpoint all_printable (s : string) : bool :=
  match s with
  | EmptyString => true
  | String c s' => is_printable c && all_printable s'
  end.

Fixpoint to_lowercase (s : string) : string :=
  match s with
  | EmptyString => EmptyString
  | String c s' => String (lowercase c) (to_lowercase s')
  end.

Definition blob_type_of (type : string) : string :=
  if all_printable type then to_lowercase type else EmptyString.

(** [a || b] on strings where [a] may be [undefined]. *)
Definition or_else (a : option string) (b : string) : string :=
  match a with
  | Some (String c s) => String c s
  | _ => b
  end.

End JS.

(** ** The size formatter *)

Definition k : N := 1024.
Definition sizes : list string := ["Bytes"; "KB"; "MB"; "GB"].

(** [Math.floor(Math.log(bytes) / Math.log(k))] for [bytes >= 1]: the
    exponent of the largest power of [k = 2^10] not above [bytes] (see
    [unit_index_spec]). Numbers are taken as exact reals here; computed in
    double precision the quotient has this floor at [1024^i] and at
    [1024^i - 1] for [i] up to 4, the places where the unit changes, and
    is at least 4 beyond; the two first differ at [2^50 - 3], where the
    double quotient already rounds to 5. For [bytes = 0] the source
    returns before this line. *)
Definition unit_index (bytes : N) : N := N.log2 bytes / 10.

(** [(bytes / Math.pow(k, i)).toFixed(2)] as a number of hundredths:
    the integer nearest to [100 * bytes / k^i], the larger one on a tie. *)
Definition toFixed2 (bytes i : N) : N :=
  (200 * bytes + k ^ i) / (2 * k ^ i).

(** [parseFloat(h / 100) + ''] for [h] hundredths: the shortest decimal,
    without trailing zeros and without a bare decimal point. *)
Definition show_hundredths (h : N) : string :=
  let whole := h / 100 in
  let frac := h mod 100 in
  if frac =? 0 then JS.showN whole
  else if frac mod 10 =? 0 then JS.showN whole ++ "." ++ JS.showN (frac / 10)
  else JS.showN whole ++ "." ++ JS.showN (frac / 10) ++ JS.showN (frac mod 10).

(** [sizes[i]] inside a string concatenation: an index outside the array
    reads [undefined], which concatenates as the text "undefined". *)
Definition sizes_at (i : N) : string :=
  match sizes !! N.to_nat i with
  | Some u => u
  | None => "undefined"
  end.

Definition formatFileSize (bytes : N) : string :=
  if bytes =? 0 then "0 Bytes"
  else
    let i := unit_index bytes in
    show_hundredths (toFixed2 bytes i) ++ " " ++ sizes_at i.

(** ** Data model ([types.ts] and the component state) *)

Inductive OutputFormat := jpeg | png | pdf.
Inductive CompressionLevel := low | medium | high.

Record CompressionOptions := {
  format : OutputFormat;
  level : CompressionLevel
}.

Record ProcessedFile := {
  name : string;
  dataUrl : string;
  previewUrl : option string;
  originalSize : N;
  compressedSize : N
}.

Inductive AppStatus := idle | processing | success | error.

(** The selected [File]: what the handlers read of it. *)
Record File := {
  file_name : string;
  file_size : N;
  file_type : string
}.

(** [editingState]: [{ index, prompt, isLoading }]. *)
Record EditingState := {
  index : nat;
  prompt : string;
  isLoading : bool
}.

(** The [useState] cells of [App]. *)
Record AppState := {
  st_file : option File;
  st_options : CompressionOptions;
  st_status : AppStatus;
  st_statusMessage : string;
  st_results : list ProcessedFile;
  st_error : option string;
  st_editingState : option EditingState
}.

(** The text of a format inside a template string. *)
Definition format_text (f : OutputFormat) : string :=
  match f with jpeg => "jpeg" | png => "png" | pdf => "pdf" end.

(** A thrown value, read only through [err.message]: an object, with or
    without a message. A thrown [null] or [undefined], on which reading
    [message] itself throws, is not a value of this type. *)
Record JsError := { message : option string }.

Definition Error (msg : string) : JsError := {| message := Some msg |}.

Record Blob := {
  blob_bytes : list Byte.byte;
  blob_type : string
}.

Definition blob_size (b : Blob) : N := N.of_nat (length (blob_bytes b)).

(** ** The outside world *)

(** A page of a decoded document, with the canvas created for it. *)
Record Page := {
  (** [page.getTextContent()]: the [str] of each item, or a rejection. *)
  getTextContent : JsError + list string;
  (** whether [canvas.getContext('2d')] is non-null. *)
  getContext2d : bool;
  (** [page.render(...).promise]: [Some e] when it rejects with [e]. *)
  render : option JsError;
  (** [canvas.toDataURL(mimeType, quality)] after the render. *)
  toDataURL : string -> option Q -> string
}.

Record PDFDocument := {
  numPages : nat;
  getPage : nat -> JsError + Page
}.

(** What the [FileReader] does with the file. *)
Inductive ReadOutcome :=
| ReadThrows (e : JsError)                 (* [readAsArrayBuffer] throws *)
| Loaded (result : option (list Byte.byte)) (* [onload], [e.target?.result] *)
| ReadFailed.                              (* [onerror] *)

Record World := {
  readAsArrayBuffer : File -> ReadOutcome;
  (** [pdfjsLib.getDocument(typedarray).promise]. *)
  getDocument : list Byte.byte -> JsError + PDFDocument;
  (** [summarizePdfText] of [services/geminiService]. *)
  summarizePdfText : string -> JsError + string;
  (** [new jsPDF()], [splitTextToSize(text, 180)], [text(.., 15, 20)] and
      [output('blob')], as one step from the summary to the blob. *)
  jsPDF_output : string -> JsError + Blob;
  createObjectURL : Blob -> string;
  (** [editImageWithText(base64Data, mimeType, prompt)]. *)
  editImageWithText : string -> string -> string -> JsError + string;
  (** [atob]: the binary string, or an [InvalidCharacterError]. *)
  atob : string -> JsError + string
}.

(** ** Traces of a handler *)

Inductive Request :=
| Summarize (fullText : string)
| EditImage (base64Data mimeType instruction : string)
| EncodeCanvas (mimeType : string) (quality : option Q).

Inductive Event :=
| SetStatus (s : AppStatus)
| SetStatusMessage (m : string)
| SetResults (rs : list ProcessedFile)
| SetResultsWith (f : list ProcessedFile -> list ProcessedFile)
| SetError (e : option string)
| SetEditingState (es : option EditingState)
| Called (r : Request).

Definition Trace := list Event.

Definition apply_event (s : AppState) (e : Event) : AppState :=
  match e with
  | SetStatus x =>
      {| st_file := st_file s; st_options := st_options s; st_status := x;
         st_statusMessage := st_statusMessage s; st_results := st_results s;
         st_error := st_error s; st_editingState := st_editingState s |}
  | SetStatusMessage m =>
      {| st_file := st_file s; st_options := st_options s;
         st_status := st_status s; st_statusMessage := m;
         st_results := st_results s; st_error := st_error s;
         st_editingState := st_editingState s |}
  | SetResults rs =>
      {| st_file := st_file s; st_options := st_options s;
         st_status := st_status s; st_statusMessage := st_statusMessage s;
         st_results := rs; st_error := st_error s;
         st_editingState := st_editingState s |}
  | SetResultsWith f =>
      {| st_file := st_file s; st_options := st_options s;
         st_status := st_status s; st_statusMessage := st_statusMessage s;
         st_results := f (st_results s); st_error := st_error s;
         st_editingState := st_editingState s |}
  | SetError e =>
      {| st_file := st_file s; st_options := st_options s;
         st_status := st_status s; st_statusMessage := st_statusMessage s;
         st_results := st_results s; st_error := e;
         st_editingState := st_editingState s |}
  | SetEditingState es =>
      {| st_file := st_file s; st_options := st_options s;
         st_status := st_status s; st_statusMessage := st_statusMessage s;
         st_results := st_results s; st_error := st_error s;
         st_editingState := es |}
  | Called _ => s
  end.

(** The state once every setter call of the trace has taken effect. *)
Definition replay (t : Trace) (s : AppState) : AppState :=
  fold_left apply_event t s.

(** The arguments of the [setResults] calls of a trace, in order
    (an updater function is applied to the list it will receive). *)
Fixpoint results_assignments (t : Trace) (cur : list ProcessedFile)
  : list (list ProcessedFile) :=
  match t with
  | [] => []
  | SetResults rs :: t' => rs :: results_assignments t' rs
  | SetResultsWith f :: t' => f cur :: results_assignments t' (f cur)
  | _ :: t' => results_assignments t' cur
  end.

Fixpoint requests (t : Trace) : list Request :=
  match t with
  | [] => []
  | Called r :: t' => r :: requests t'
  | _ :: t' => requests t'
  end.

Definition is_edit_request (r : Request) : bool :=
  match r with EditImage _ _ _ => true | _ => false end.

(** ** The effect monad of the handlers: a trace and a possible throw *)

Definition Eff (A : Type) : Type := (Trace * (JsError + A))%type.

Definition ret {A} (a : A) : Eff A := ([], inr a).

Definition bind {A B} (m : Eff A) (f : A -> Eff B) : Eff B :=
  match m with
  | (t, inl e) => (t, inl e)
  | (t, inr a) => let '(t', r) := f a in ((t ++ t')%list, r)
  end.

Definition throw {A} (e : JsError) : Eff A := ([], inl e).

Definition emit (ev : Event) : Eff unit := ([ev], inr tt).

(** [await p] for a promise of the world that is already settled. *)
Definition await {A} (p : JsError + A) : Eff A := ([], p).

(** [try { body } catch (err) { handler(err) }]. *)
Definition try_catch (body : Eff unit) (handler : JsError -> Eff unit)
  : Eff unit :=
  match body with
  | (t, inl e) => let '(t', r) := handler e in ((t ++ t')%list, r)
  | (t, inr a) => (t, inr a)
  end.

Notation "x <- m ;; f" := (bind m (fun x => f))
  (at level 100, m at next level, right associativity).
Notation "m ;;; f" := (bind m (fun _ => f))
  (at level 100, right associativity).

(** How a handler ends: normally, or by a rejection nobody handles
    (the state then stays as the trace left it). *)
Inductive Completion := Returned | Unhandled (e : JsError).

Definition complete (m : Eff unit) : Trace * Completion :=
  match m with
  | (t, inl e) => (t, Unhandled e)
  | (t, inr _) => (t, Returned)
  end.

(** ** Helpers of [App.tsx] *)

(** [getQuality]: a [switch] on [options.level]; its [default] branch is
    excluded by the type [CompressionLevel]. *)
Definition getQuality (options : CompressionOptions) : Q :=
  match level options with
  | low => 0.5
  | medium => 0.75
  | high => 0.92
  end.

(** [dataURLToBlob]: the bytes are the char codes of [atob(arr[1])], the
    type is what the [Blob] constructor makes of group 1 of the MIME match
    on [arr[0]]. *)
Definition dataURLToBlob (w : World) (dataUrl : string) : Eff Blob :=
  match JS.split_comma dataUrl with
  | arr0 :: arr1 :: _ =>
      match JS.match_mime arr0 with
      | None => throw (Error "Could not parse MIME type from data URL")
      | Some mime =>
          bstr <- await (atob w arr1) ;;
          ret {| blob_bytes := map byte_of_ascii (list_ascii_of_string bstr);
                 blob_type := JS.blob_type_of mime |}
      end
  | _ => throw (Error "Invalid data URL")
  end.

(** [await page.render(...).promise]. *)
Definition await_render (p : Page) : Eff unit :=
  match render p with
  | Some e => throw e
  | None => ret tt
  end.

(** [generatePdfPreview]: page 1 of the blob, as a PNG data URL. *)
Definition generatePdfPreview (w : World) (pdfBlob : Blob) : Eff string :=
  pdf <- await (getDocument w (blob_bytes pdfBlob)) ;;
  page <- await (getPage pdf 1) ;;
  if getContext2d page then
    await_render page ;;;
    emit (Called (EncodeCanvas "image/png" None)) ;;;
    ret (toDataURL page "image/png" None)
  else throw (Error "Could not get canvas context for preview").

(** [Math.round(a / b)] on byte and page counts: the nearest integer, the
    larger one on a tie. The double-precision quotient rounds to the same
    integer as the exact one for every [a] below [2^52]: an inexact
    quotient is at least [1 / (2 * b)] away from the nearest half-integer.
    With [b = 0] the source gets [Infinity] or [NaN] and never uses it
    (there is no page to attach it to); here it is 0. *)
Definition Math_round_div (a b : N) : N := (2 * a + b) / (2 * b).

(** [file.name.replace('.pdf', '')]. *)
Definition originalBaseName (file : File) : string :=
  JS.replace ".pdf" "" (file_name file).

(** ** [handleCompress] *)

Section Pipeline.

Variable w : World.
Variable file : File.
Variable options : CompressionOptions.

Section Document.

Variable pdf_doc : PDFDocument.

(** The text loop, [for (let i = 1; i <= pdf.numPages; i++)], run on the
    page numbers still to visit. *)
Fixpoint extractText (pages : list nat) (fullText : string) : Eff string :=
  match pages with
  | [] => ret fullText
  | i :: rest =>
      page <- await (getPage pdf_doc i) ;;
      items <- await (getTextContent page) ;;
      let pageText := JS.join " " items in
      extractText rest (fullText ++ pageText ++ JS.LF ++ JS.LF)
  end.

Definition summaryBranch : Eff unit :=
  emit (SetStatusMessage "Extracting text from PDF...") ;;;
  fullText <- extractText (seq 1 (numPages pdf_doc)) "" ;;
  emit (SetStatusMessage "AI is summarizing the content...") ;;;
  emit (Called (Summarize fullText)) ;;;
  summarizedText <- await (summarizePdfText w fullText) ;;
  emit (SetStatusMessage "Generating new PDF...") ;;;
  compressedBlob <- await (jsPDF_output w summarizedText) ;;
  let dataUrl := createObjectURL w compressedBlob in
  emit (SetStatusMessage "Generating preview...") ;;;
  previewUrl <- generatePdfPreview w compressedBlob ;;
  emit (SetResults
          [ {| name := originalBaseName file ++ "_summary.pdf";
               dataUrl := dataUrl;
               previewUrl := Some previewUrl;
               originalSize := file_size file;
               compressedSize := blob_size compressedBlob |} ]).

Definition originalSizePerPage : N :=
  Math_round_div (file_size file) (N.of_nat (numPages pdf_doc)).

(** The artifact pushed for page [i]. *)
Definition pageArtifact (i : nat) (dataUrl : string) (compressedBlob : Blob)
  : ProcessedFile :=
  {| name := originalBaseName file ++ "_page_" ++ JS.show i ++ "."
             ++ format_text (format options);
     dataUrl := dataUrl;
     previewUrl := Some dataUrl;
     originalSize := originalSizePerPage;
     compressedSize := blob_size compressedBlob |}.

(** The image loop, with [processed] as the array built so far. *)
Fixpoint convertPages (pages : list nat) (processed : list ProcessedFile)
  : Eff (list ProcessedFile) :=
  match pages with
  | [] => ret processed
  | i :: rest =>
      emit (SetStatusMessage ("Converting page " ++ JS.show i ++ " of "
                              ++ JS.show (numPages pdf_doc) ++ "...")) ;;;
      page <- await (getPage pdf_doc i) ;;
      if getContext2d page then
        await_render page ;;;
        let mimeType := "image/" ++ format_text (format options) in
        emit (Called (EncodeCanvas mimeType (Some (getQuality options)))) ;;;
        let dataUrl := toDataURL page mimeType (Some (getQuality options)) in
        compressedBlob <- dataURLToBlob w dataUrl ;;
        convertPages rest (processed ++ [pageArtifact i dataUrl compressedBlob])
      else convertPages rest processed
  end.

Definition imageBranch : Eff unit :=
  processed <- convertPages (seq 1 (numPages pdf_doc)) [] ;;
  emit (SetResults processed).

End Document.

(** [fileReader.onload]. *)
Definition onload (result : option (list Byte.byte)) : Eff unit :=
  match result with
  | None =>
      emit (SetError (Some "Failed to read file.")) ;;;
      emit (SetStatus error)
  | Some typedarray =>
      pdf_doc <- await (getDocument w typedarray) ;;
      match format options with
      | pdf => summaryBranch pdf_doc
      | _ => imageBranch pdf_doc
      end ;;;
      emit (SetStatus success)
  end.

(** [fileReader.onerror]. *)
Definition onerror : Eff unit :=
  emit (SetError (Some "Error reading file.")) ;;;
  emit (SetStatus error).

(** The body of the [try] block: the reader is started and the two
    callbacks are attached; nothing is awaited in it. *)
Definition startReader : Eff unit :=
  match readAsArrayBuffer w file with
  | ReadThrows e => throw e
  | _ => ret tt
  end.

(** The callback the reader fires afterwards, outside the [try] block. *)
Definition readerCallback : Eff unit :=
  match readAsArrayBuffer w file with
  | ReadThrows _ => ret tt
  | Loaded result => onload result
  | ReadFailed => onerror
  end.

Definition compressRun : Eff unit :=
  emit (SetStatus processing) ;;;
  emit (SetResults []) ;;;
  emit (SetError None) ;;;
  emit (SetEditingState None) ;;;
  try_catch startReader
    (fun err =>
       emit (SetError (Some (JS.or_else (message err)
               "An unknown error occurred during compression."))) ;;;
       emit (SetStatus error)) ;;;
  readerCallback.

End Pipeline.

Definition handleCompress (w : World) (s : AppState) : Trace * Completion :=
  match st_file s with
  | None => ([], Returned)
  | Some file => complete (compressRun w file (st_options s))
  end.

(** ** [handleApplyEdit] *)

Definition with_isLoading (es : EditingState) (b : bool) : EditingState :=
  {| index := index es; prompt := prompt es; isLoading := b |}.

(** Reading [.dataUrl] of [undefined]. *)
Definition TypeError_dataUrl : JsError :=
  Error "Cannot read properties of undefined (reading 'dataUrl')".

(** The [try] block. [results] is the array of the render the handler
    closes over. The updater of [setResults] overwrites slot [index] of a
    copy of the current array. When the current array is the closed-over
    one, the read of [results[index]] above has succeeded, so the slot
    exists and the update is stdpp's list insert (see
    [applyEdit_update_in_range]). On a shorter current array, which only
    another update made while the service is awaited can bring about, the
    JS write would extend the copy with holes; the list insert leaves it
    as it is, and nothing below is stated about that case. *)
Definition applyEditBody (w : World) (results : list ProcessedFile)
    (editingState : EditingState) : Eff unit :=
  let index := index editingState in
  let prompt := prompt editingState in
  if String.eqb prompt "" then throw (Error "Please enter an edit description.")
  else
    match results !! index with
    | None => throw TypeError_dataUrl
    | Some originalFile =>
        match JS.split_comma (dataUrl originalFile) with
        | [parts0; base64Data] =>
            match JS.match_mime parts0 with
            | None => throw (Error "Could not determine MIME type")
            | Some mimeType =>
                emit (Called (EditImage base64Data mimeType prompt)) ;;;
                newBase64Data <-
                  await (editImageWithText w base64Data mimeType prompt) ;;
                let newDataUrl :=
                  "data:" ++ mimeType ++ ";base64," ++ newBase64Data in
                newBlob <- dataURLToBlob w newDataUrl ;;
                let updatedFile :=
                  {| name := JS.replace_extension_edited (name originalFile);
                     dataUrl := newDataUrl;
                     previewUrl := Some newDataUrl;
                     originalSize := originalSize originalFile;
                     compressedSize := blob_size newBlob |} in
                emit (SetResultsWith
                        (fun currentResults =>
                           <[index := updatedFile]> currentResults)) ;;;
                emit (SetEditingState None)
            end
        | _ => throw (Error "Invalid Data URL")
        end
    end.

Definition applyEditRun (w : World) (results : list ProcessedFile)
    (editingState : EditingState) : Eff unit :=
  emit (SetEditingState (Some (with_isLoading editingState true))) ;;;
  emit (SetError None) ;;;
  try_catch (applyEditBody w results editingState)
    (fun err =>
       emit (SetError (Some (JS.or_else (message err)
               "An error occurred during AI editing."))) ;;;
       emit (SetEditingState (Some (with_isLoading editingState false)))).

Definition handleApplyEdit (w : World) (s : AppState) : Trace * Completion :=
  match st_editingState s with
  | None => ([], Returned)
  | Some editingState => complete (applyEditRun w (st_results s) editingState)
  end.

(** ** Vocabulary of the statements *)

(** The unit shown by a formatted size: the text after its first space. *)
Fixpoint after_space (s : string) : string :=
  match s with
  | EmptyString => EmptyString
  | String c s' => if Ascii.eqb c " "%char then s' else after_space s'
  end.

Definition displayed_unit (bytes : N) : string :=
  after_space (formatFileSize bytes).



Fixpoint forall_chars (P : ascii -> bool) (s : string) : bool :=
  match s with
  | EmptyString => true
  | String c s' => P c && forall_chars P s'
  end.

Definition is_digit (c : ascii) : bool :=
  let n := N_of_ascii c in (48 <=? n) && (n <=? 57).

(** The code units of a number text: digits and the decimal point. *)
Definition is_numeric (c : ascii) : bool :=
  is_digit c || Ascii.eqb c "."%char.

(** Digits, point, space and lower-case letters: no upper-case letter. *)
Definition no_capital (c : ascii) : bool :=
  let n := N_of_ascii c in
  is_numeric c || Ascii.eqb c " "%char || ((97 <=? n) && (n <=? 122)).


(** Events that change neither the results, the status, the error nor the
    edit session. *)
Definition silent (e : Event) : bool :=
  match e with
  | SetStatusMessage _ | Called _ => true
  | _ => false
  end.

(** Page [i] has a canvas with a 2D context. *)
Definition has_context (pdf_doc : PDFDocument) (i : nat) : bool :=
  match getPage pdf_doc i with
  | inr page => getContext2d page
  | inl _ => false
  end.

(** Page [i] is fetched, gets a 2D context, renders, and its data URL
    decodes to a blob. *)
Definition page_converts (w : World) (options : CompressionOptions)
    (pdf_doc : PDFDocument) (i : nat) : bool :=
  match getPage pdf_doc i with
  | inr page =>
      getContext2d page
      && match render page with None => true | Some _ => false end
      && match snd (dataURLToBlob w
                      (toDataURL page ("image/" ++ format_text (format options))
                         (Some (getQuality options)))) with
         | inr _ => true
         | inl _ => false
         end
  | inl _ => false
  end.

(** The artifact name of page [i]. *)
Definition pageName (file : File) (options : CompressionOptions) (i : nat)
  : string :=
  originalBaseName file ++ "_page_" ++ JS.show i ++ "."
  ++ format_text (format options).

(** The text of page [i], [None] when the page or its text is not
    obtained. *)
Definition pageText (pdf_doc : PDFDocument) (i : nat) : option string :=
  match getPage pdf_doc i with
  | inr page =>
      match getTextContent page with
      | inr items => Some (JS.join " " items)
      | inl _ => None
      end
  | inl _ => None
  end.

(** The full-document text in the words of the specification: the page
    texts joined by a blank-line separator between consecutive pages. *)
Definition spec_fullText (texts : list string) : string :=
  String.concat (JS.LF ++ JS.LF) texts.

(** The quality of a level in the words of the specification. *)
Definition spec_quality (l : CompressionLevel) : Q :=
  match l with
  | low => 0.5
  | medium => 0.75
  | high => 0.92
  end.

(** The base name in the words of the specification: the file name with
    its [.pdf] extension removed. *)
Fixpoint strip_pdf_extension (fileName : string) : string :=
  if String.eqb fileName ".pdf" then EmptyString
  else match fileName with
       | EmptyString => EmptyString
       | String c s' => String c (strip_pdf_extension s')
       end.

(** The full-document text the text loop builds from the page texts:
    every page text is followed by a blank-line separator. *)
Fixpoint loop_fullText (texts : list string) : string :=
  match texts with
  | [] => EmptyString
  | t :: rest => t ++ JS.LF ++ JS.LF ++ loop_fullText rest
  end.

(** The four setter calls every run starts with. *)
Definition run_start : Trace :=
  [SetStatus processing; SetResults []; SetError None; SetEditingState None].

(** The three ways a run of [handleCompress] on a selected file goes:
    a rejection inside the reader callback, which nothing catches; a read
    failure, which is reported; or a complete run, which publishes. *)
Inductive run_shape : Trace * Completion -> Prop :=
| run_rejected (quiet : Trace) (e : JsError) :
    forallb silent quiet = true ->
    run_shape ((run_start ++ quiet)%list, Unhandled e)
| run_reported (msg : string) :
    run_shape ((run_start ++ [SetError (Some msg); SetStatus error])%list,
               Returned)
| run_succeeded (quiet : Trace) (final : list ProcessedFile) :
    forallb silent quiet = true ->
    run_shape ((run_start ++ quiet
                ++ [SetResults final; SetStatus success])%list, Returned).

(** ** The other handlers of [App] and its view *)

(** The setter calls of the synchronous handlers: those of a trace, and
    the two cells the asynchronous handlers never write. *)
Inductive Update :=
| Core (e : Event)
| SetFile (f : option File)
| SetOptionsWith (f : CompressionOptions -> CompressionOptions).

Definition apply_update (s : AppState) (u : Update) : AppState :=
  match u with
  | Core e => apply_event s e
  | SetFile f =>
      {| st_file := f; st_options := st_options s; st_status := st_status s;
         st_statusMessage := st_statusMessage s; st_results := st_results s;
         st_error := st_error s; st_editingState := st_editingState s |}
  | SetOptionsWith f =>
      {| st_file := st_file s; st_options := f (st_options s);
         st_status := st_status s; st_statusMessage := st_statusMessage s;
         st_results := st_results s; st_error := st_error s;
         st_editingState := st_editingState s |}
  end.

Definition commit (us : list Update) (s : AppState) : AppState :=
  fold_left apply_update us s.

(** [onDrop]: the first accepted file is taken; anything but a PDF only
    sets the error. *)
Definition onDrop (acceptedFiles : list File) : list Update :=
  match acceptedFiles with
  | [] => []
  | selectedFile :: _ =>
      if String.eqb (file_type selectedFile) "application/pdf"
      then [SetFile (Some selectedFile); Core (SetStatus idle);
            Core (SetResults []); Core (SetError None)]
      else [Core (SetError (Some "Invalid file type. Please upload a PDF."))]
  end.

(** [handleReset]. *)
Definition handleReset : list Update :=
  [SetFile None; Core (SetResults []); Core (SetStatus idle);
   Core (SetError None); Core (SetStatusMessage "");
   Core (SetEditingState None)].

(** The [onClick] and [onChange] handlers written inline in the view. *)
Definition pickFormat (f : OutputFormat) : list Update :=
  [SetOptionsWith (fun o => {| format := f; level := level o |})].

Definition pickLevel (l : CompressionLevel) : list Update :=
  [SetOptionsWith (fun o => {| format := format o; level := l |})].

Definition openEdit (i : nat) : list Update :=
  [Core (SetEditingState
           (Some {| index := i; prompt := ""; isLoading := false |}))].

Definition typePrompt (editingState : EditingState) (value : string)
  : list Update :=
  [Core (SetEditingState
           (Some {| index := index editingState; prompt := value;
                    isLoading := isLoading editingState |}))].

Definition cancelEdit : list Update := [Core (SetEditingState None)].

(** The state of the first render. *)
Definition initialState : AppState :=
  {| st_file := None;
     st_options := {| format := jpeg; level := medium |};
     st_status := idle; st_statusMessage := ""; st_results := [];
     st_error := None; st_editingState := None |}.

(** [s.endsWith(p)]: [p] is one of the tails of [s]. *)
Fixpoint endsWith (p s : string) : bool :=
  String.eqb p s
  || match s with
     | EmptyString => false
     | String _ s' => endsWith p s'
     end.

(** [isImage] of the results list. *)
Definition isImage (res : ProcessedFile) : bool :=
  endsWith ".jpeg" (name res) || endsWith ".png" (name res).

(** [totalOriginalSize]: [file?.size || 0]. *)
Definition totalOriginalSize (s : AppState) : N :=
  match st_file s with
  | Some f => file_size f
  | None => 0
  end.

(** [totalCompressedSize]: [results.reduce((sum, r) => sum + r.compressedSize, 0)]. *)
Definition totalCompressedSize (s : AppState) : N :=
  fold_left (fun sum r => sum + compressedSize r) (st_results s) 0.

(** The results list is rendered. *)
Definition resultsShown (s : AppState) : bool :=
  match st_status s with
  | success => negb (Nat.eqb (length (st_results s)) 0)
  | _ => false
  end.

(** The edit form is rendered: some row of the list has the index of the
    edit session. *)
Definition editRow (s : AppState) : option EditingState :=
  match st_editingState s with
  | Some es =>
      if resultsShown s && Nat.ltb (index es) (length (st_results s))
      then Some es else None
  | None => None
  end.

(** What the user can do. [Compress] and [Apply] carry the answers the
    world gives during that run. *)
Inductive Action :=
| Drop (acceptedFiles : list File)
| ChangeFile
| PickFormat (f : OutputFormat)
| PickLevel (l : CompressionLevel)
| Compress (w : World)
| OpenEdit (i : nat)
| TypePrompt (value : string)
| Apply (w : World)
| Cancel.

(** The control of an action is rendered and not disabled. *)
Definition offered (s : AppState) (a : Action) : bool :=
  match a with
  | Drop _ => match st_file s with None => true | Some _ => false end
  | ChangeFile | PickFormat _ =>
      match st_file s with Some _ => true | None => false end
  | PickLevel _ =>
      match st_file s, format (st_options s) with
      | Some _, (jpeg | png) => true
      | _, _ => false
      end
  | Compress _ =>
      match st_file s, st_status s with
      | Some _, (idle | success | error) => true
      | _, _ => false
      end
  | OpenEdit i =>
      resultsShown s
      && match st_results s !! i with
         | Some res => isImage res
         | None => false
         end
      && match st_editingState s with None => true | Some _ => false end
  | TypePrompt _ | Cancel =>
      match editRow s with
      | Some es => negb (isLoading es)
      | None => false
      end
  | Apply _ =>
      match editRow s with
      | Some es => negb (isLoading es || String.eqb (prompt es) "")
      | None => false
      end
  end.

(** The state after an action whose handler has run to its end; a second
    action during an asynchronous handler is not part of this model. *)
Definition perform (s : AppState) (a : Action) : AppState :=
  match a with
  | Drop acceptedFiles => commit (onDrop acceptedFiles) s
  | ChangeFile => commit handleReset s
  | PickFormat f => commit (pickFormat f) s
  | PickLevel l => commit (pickLevel l) s
  | Compress w => replay (fst (handleCompress w s)) s
  | OpenEdit i => commit (openEdit i) s
  | TypePrompt value =>
      match st_editingState s with
      | Some es => commit (typePrompt es value) s
      | None => s
      end
  | Apply w => replay (fst (handleApplyEdit w s)) s
  | Cancel => commit cancelEdit s
  end.

(** The states the user can bring the application to. *)
Inductive reachable : AppState -> Prop :=
| reachable_initial : reachable initialState
| reachable_step (s : AppState) (a : Action) :
    reachable s -> offered s a = true -> reachable (perform s a).

(** A compression run during which the user clicks "Change file". The
    handler has set its first four cells and started the file reader; the
    click is handled while the read is pending (the button is rendered
    whenever a file is selected and is never disabled); the reader
    callback, which closes over the file and the options of the render the
    run started in, delivers the rest of the trace afterwards. Meant for
    runs whose reader was started and has answered. *)
Definition change_file_during_run (w : World) (s : AppState) : AppState :=
  let t := fst (handleCompress w s) in
  replay (skipn (length run_start) t)
    (commit handleReset (replay (firstn (length run_start) t) s)).

(** The progress messages of a trace, in order. *)
Fixpoint status_messages (t : Trace) : list string :=
  match t with
  | [] => []
  | SetStatusMessage m :: t' => m :: status_messages t'
  | _ :: t' => status_messages t'
  end.

(** The progress message of page [i] of [n]. *)
Definition convertingMessage (i n : nat) : string :=
  "Converting page " ++ JS.show i ++ " of " ++ JS.show n ++ "...".

(** Code units a segment of [split(',')] is made of. *)
Definition not_comma (c : ascii) : bool := negb (Ascii.eqb c ","%char).

(** Code units of a MIME type as [/:(.*?);/] captures it out of a
    comma-free header: no comma, no semicolon, no line terminator. *)
Definition mime_char (c : ascii) : bool :=
  not_comma c && negb (Ascii.eqb c ";"%char)
  && negb (JS.is_line_terminator c).

(** An artifact previews itself and is sized by its own data URL. *)
Definition self_described (w : World) (pf : ProcessedFile) : Prop :=
  previewUrl pf = Some (dataUrl pf)
  /\ exists blob,
       snd (dataURLToBlob w (dataUrl pf)) = inr blob
       /\ compressedSize pf = N.of_nat (length (blob_bytes blob)).

(** What holds of every state the user can reach. *)
Definition invariant (s : AppState) : Prop :=
  (st_file s = None -> st_status s = idle)
  /\ (st_status s <> success -> st_results s = [] /\ st_editingState s = None)
  /\ (st_status s = error -> st_error s <> None)
  /\ (st_status s = processing -> st_error s = None)
  /\ (forall es,
        st_editingState s = Some es ->
        isLoading es = false
        /\ exists res, st_results s !! index es = Some res
                       /\ isImage res = true).

(** ** A concrete browser, used to run the handlers *)

Module Demo.

(** [atob] as browsers implement it (forgiving base64): white space is
    dropped, up to two padding signs are removed when the length is a
    multiple of four, and every group of sextets gives its full bytes. *)
Definition sextet (c : ascii) : option N :=
  let n := N_of_ascii c in
  if (65 <=? n) && (n <=? 90) then Some (n - 65)
  else if (97 <=? n) && (n <=? 122) then Some (n - 71)
  else if (48 <=? n) && (n <=? 57) then Some (n + 4)
  else if n =? 43 then Some 62
  else if n =? 47 then Some 63
  else None.

Definition is_whitespace (c : ascii) : bool :=
  let n := N_of_ascii c in
  (n =? 9) || (n =? 10) || (n =? 12) || (n =? 13) || (n =? 32).

Definition strip_padding (cs : list ascii) : list ascii :=
  if (length cs mod 4 =? 0)%nat then
    match rev cs with
    | a :: b :: r =>
        if Ascii.eqb a "="%char then
          if Ascii.eqb b "="%char then rev r else rev (b :: r)
        else cs
    | _ => cs
    end
  else cs.

Fixpoint sextets (cs : list ascii) : option (list N) :=
  match cs with
  | [] => Some []
  | c :: cs' =>
      match sextet c, sextets cs' with
      | Some v, Some vs => Some (v :: vs)
      | _, _ => None
      end
  end.

Fixpoint octets (vs : list N) : list N :=
  match vs with
  | a :: b :: c :: d :: rest =>
      (a * 4 + b / 16) :: ((b mod 16) * 16 + c / 4) :: ((c mod 4) * 64 + d)
      :: octets rest
  | [a; b; c] => [a * 4 + b / 16; (b mod 16) * 16 + c / 4]
  | [a; b] => [a * 4 + b / 16]
  | _ => []
  end.

Definition base64_decode (s : string) : JsError + string :=
  let cs :=
    strip_padding
      (List.filter (fun c => negb (is_whitespace c)) (list_ascii_of_string s)) in
  if (length cs mod 4 =? 1)%nat
  then inl (Error "The string to be decoded is not correctly encoded.")
  else match sextets cs with
       | Some vs => inr (string_of_list_ascii (map ascii_of_N (octets vs)))
       | None => inl (Error "The string to be decoded is not correctly encoded.")
       end.

(** A page that renders, with the base64 payload its canvas encodes to. *)
Definition page (items : list string) (payload : string) : Page :=
  {| getTextContent := inr items;
     getContext2d := true;
     render := None;
     toDataURL := fun mimeType _ => "data:" ++ mimeType ++ ";base64," ++ payload |}.

(** The same page on a canvas that gives no 2D context. *)
Definition page_without_context (items : list string) : Page :=
  {| getTextContent := inr items;
     getContext2d := false;
     render := None;
     toDataURL := fun _ _ => "data:," |}.

Definition document (pages : list Page) : PDFDocument :=
  {| numPages := length pages;
     getPage := fun i =>
       match i with
       | O => inl (Error "Invalid page request.")
       | S j => match pages !! j with
                | Some p => inr p
                | None => inl (Error "Invalid page request.")
                end
       end |}.

Definition three_pages : list Page :=
  [ page ["Hello"; "world"] "/9j/4AAQSkZJRg==";
    page ["Second"; "page"] "/9j/4AAQ";
    page [] "/9j/2w==" ].

Definition source_text : string := "%PDF-1.7 doc".
Definition summary_text : string := "%PDF-1.3 short text".
Definition source_bytes : list Byte.byte := list_byte_of_string source_text.
Definition summary_bytes : list Byte.byte := list_byte_of_string summary_text.

Definition bytes_are (bytes : list Byte.byte) (text : string) : bool :=
  String.eqb (string_of_list_byte bytes) text.

(** A browser in which [source] is what pdf.js decodes the uploaded bytes
    to; any other bytes but those written by jsPDF are no PDF. *)
Definition world_of (source : list Page)
    (edit : string -> string -> string -> JsError + string) : World :=
  {| readAsArrayBuffer := fun _ => Loaded (Some source_bytes);
     getDocument := fun bytes =>
       if bytes_are bytes source_text then inr (document source)
       else if bytes_are bytes summary_text
            then inr (document [page ["short"; "text"] "iVBORw0KGgo="])
            else inl (Error "Invalid PDF structure.");
     summarizePdfText := fun _ => inr "short text";
     jsPDF_output := fun _ =>
       inr {| blob_bytes := summary_bytes; blob_type := "application/pdf" |};
     createObjectURL := fun _ => "blob:http://localhost/3f0c";
     editImageWithText := edit;
     atob := base64_decode |}.

Definition world : World :=
  world_of three_pages (fun _ _ _ => inr "R0lGODlhAQABAAAAACw=").

(** The AI service cannot be reached. *)
Definition offline : World :=
  world_of three_pages (fun _ _ _ => inl (Error "Failed to fetch")).

(** The uploaded bytes are not a PDF. *)
Definition corrupt : World :=
  {| readAsArrayBuffer := fun _ => Loaded (Some (list_byte_of_string "not a pdf"));
     getDocument := getDocument world;
     summarizePdfText := summarizePdfText world;
     jsPDF_output := jsPDF_output world;
     createObjectURL := createObjectURL world;
     editImageWithText := editImageWithText world;
     atob := base64_decode |}.

Definition doc_pdf : File :=
  {| file_name := "doc.pdf"; file_size := 50000; file_type := "application/pdf" |}.

Definition selected (f : File) (o : CompressionOptions) : AppState :=
  {| st_file := Some f; st_options := o; st_status := idle;
     st_statusMessage := ""; st_results := []; st_error := None;
     st_editingState := None |}.

Definition jpeg_high : CompressionOptions := {| format := jpeg; level := high |}.
Definition pdf_medium : CompressionOptions := {| format := pdf; level := medium |}.

(** The state after a run of [handleCompress]. *)
Definition compressed (w : World) (s : AppState) : AppState :=
  replay (fst (handleCompress w s)) s.

(** The edit form opened on artifact [i] with an instruction typed in. *)
Definition editing (s : AppState) (i : nat) (instruction : string) : AppState :=
  replay [SetEditingState
            (Some {| index := i; prompt := instruction; isLoading := false |})] s.

(** The canvas of page 2 gives no 2D context. *)
Definition two_pages_one_context : list Page :=
  [ page ["Hello"; "world"] "/9j/4AAQSkZJRg==";
    page_without_context ["Second"; "page"] ].

Definition lost_context : World :=
  world_of two_pages_one_context (fun _ _ _ => inr "R0lGODlhAQABAAAAACw=").

Definition notes_pdf : File :=
  {| file_name := "my.pdf-notes.pdf"; file_size := 50000;
     file_type := "application/pdf" |}.

(** The three page images of [doc.pdf], with the edit form opened on the
    second one. *)
Definition converted : AppState :=
  compressed world (selected doc_pdf jpeg_high).

Definition editing_page_2 (instruction : string) : AppState :=
  editing converted 1 instruction.

(** The reader fails on the file. *)
Definition unreadable : World :=
  {| readAsArrayBuffer := fun _ => ReadFailed;
     getDocument := getDocument world;
     summarizePdfText := summarizePdfText world;
     jsPDF_output := jsPDF_output world;
     createObjectURL := createObjectURL world;
     editImageWithText := editImageWithText world;
     atob := base64_decode |}.

(** The summary PDF is written, but the canvas of its preview gives no
    2D context. *)
Definition preview_without_context : World :=
  {| readAsArrayBuffer := readAsArrayBuffer world;
     getDocument := fun bytes =>
       if bytes_are bytes source_text then inr (document three_pages)
       else inr (document [page_without_context ["short"; "text"]]);
     summarizePdfText := summarizePdfText world;
     jsPDF_output := jsPDF_output world;
     createObjectURL := createObjectURL world;
     editImageWithText := editImageWithText world;
     atob := base64_decode |}.

(** The one-artifact state after a summary run. *)
Definition summarized : AppState :=
  compressed world (selected doc_pdf pdf_medium).

End Demo.

(** * Properties *)

(** ** The size formatter *)

Lemma unit_index_spec (bytes : N) :
  1 <= bytes ->
  k ^ unit_index bytes <= bytes < k ^ (unit_index bytes + 1).
Proof.
  intros Hb. unfold unit_index, k.
  change 1024 with (2 ^ 10).
  rewrite <- !N.pow_mul_r.
  destruct (N.log2_spec bytes ltac:(lia)) as [Hlo Hhi].
  pose proof (N.Div0.mul_div_le (N.log2 bytes) 10) as Hd.
  pose proof (N.mul_succ_div_gt (N.log2 bytes) 10 ltac:(lia)) as Hu.
  split.
  - eapply N.le_trans; [|exact Hlo].
    apply N.pow_le_mono_r; lia.
  - eapply N.lt_le_trans; [exact Hhi|].
    apply N.pow_le_mono_r; lia.
Qed.

Lemma unit_index_times_k (bytes : N) :
  1 <= bytes -> unit_index (k * bytes) = unit_index bytes + 1.
Proof.
  intros Hb. unfold unit_index, k.
  change 1024 with (2 ^ 10). rewrite N.mul_comm.
  rewrite N.log2_mul_pow2 by lia.
  replace (10 + N.log2 bytes) with (N.log2 bytes + 1 * 10) by lia.
  rewrite N.div_add by lia. reflexivity.
Qed.

Lemma unit_index_lt_4 (bytes : N) :
  unit_index bytes < 4 <-> bytes < k ^ 4.
Proof.
  unfold unit_index, k. change (1024 ^ 4) with (2 ^ 40).
  destruct (N.eq_dec bytes 0) as [->|Hnz]; [split; intros _; reflexivity|].
  rewrite N.log2_lt_pow2 by lia.
  pose proof (N.Div0.mul_div_le (N.log2 bytes) 10).
  pose proof (N.mul_succ_div_gt (N.log2 bytes) 10 ltac:(lia)).
  lia.
Qed.

Lemma forall_chars_app P (s t : string) :
  forall_chars P (s ++ t) = forall_chars P s && forall_chars P t.
Proof.
  induction s as [|c s IH]; cbn; [reflexivity|].
  rewrite IH. apply andb_assoc.
Qed.

Lemma forall_chars_weaken (P Q : ascii -> bool) (s : string) :
  (forall c, P c = true -> Q c = true) ->
  forall_chars P s = true -> forall_chars Q s = true.
Proof.
  intros HPQ. induction s as [|c s IH]; cbn; [reflexivity|].
  rewrite !andb_true_iff. intros [Hc Hs]. auto.
Qed.

Lemma string_of_uint_digits (d : Decimal.uint) :
  forall_chars is_digit (NilEmpty.string_of_uint d) = true.
Proof. induction d; cbn; auto. Qed.

Lemma showN_digits (n : N) : forall_chars is_digit (JS.showN n) = true.
Proof. apply string_of_uint_digits. Qed.

Lemma showN_numeric (n : N) : forall_chars is_numeric (JS.showN n) = true.
Proof.
  apply forall_chars_weaken with (P := is_digit); [|apply showN_digits].
  intros c Hc. unfold is_numeric. rewrite Hc. reflexivity.
Qed.

Lemma show_hundredths_numeric (h : N) :
  forall_chars is_numeric (show_hundredths h) = true.
Proof.
  unfold show_hundredths.
  destruct (h mod 100 =? 0); [apply showN_numeric|].
  destruct ((h mod 100) mod 10 =? 0);
    rewrite ?forall_chars_app, ?showN_numeric; reflexivity.
Qed.

Lemma after_space_numeric (s u : string) :
  forall_chars is_numeric s = true -> after_space (s ++ " " ++ u) = u.
Proof.
  induction s as [|c s IH]; cbn; [reflexivity|].
  rewrite andb_true_iff. intros [Hc Hs].
  destruct (Ascii.eqb_spec c " "%char) as [->|_]; [discriminate Hc|].
  apply IH, Hs.
Qed.

Lemma displayed_unit_eq (bytes : N) :
  displayed_unit bytes = sizes_at (unit_index bytes).
Proof.
  unfold displayed_unit, formatFileSize.
  destruct (N.eqb_spec bytes 0) as [->|Hnz]; [reflexivity|].
  apply after_space_numeric, show_hundredths_numeric.
Qed.

(** A text without capital letters contains no text that starts with one. *)
Lemma includes_capital (c : ascii) (u s : string) :
  no_capital c = false ->
  forall_chars no_capital s = true ->
  JS.includes (String c u) s = false.
Proof.
  intros Hc. induction s as [|a s IH]; cbn; [reflexivity|].
  rewrite andb_true_iff. intros [Ha Hs].
  destruct (Ascii.eqb_spec c a) as [->|_]; [congruence|].
  cbn. apply IH, Hs.
Qed.

Lemma numeric_no_capital (c : ascii) :
  is_numeric c = true -> no_capital c = true.
Proof. intros H. unfold no_capital. rewrite H. reflexivity. Qed.





(** C10. The unit index of a positive byte count is the floor of its
    logarithm to base 1024. Below [1024^4] bytes the index is inside the
    four-element array and the unit shown is one of its names; from
    [1024^4] on the index is outside, the text shown as unit is
    "undefined", and the returned string contains none of the four
    names. *)
Theorem formatFileSize_unit_lookup_bounds (b : N) :
  (b = 0 \/ k ^ unit_index b <= b < k ^ (unit_index b + 1))
  /\
  if b <? k ^ 4
  then (N.to_nat (unit_index b) < length sizes)%nat
       /\ sizes !! N.to_nat (unit_index b) = Some (displayed_unit b)
       /\ In (displayed_unit b) sizes
  else (length sizes <= N.to_nat (unit_index b))%nat
       /\ sizes !! N.to_nat (unit_index b) = None
       /\ displayed_unit b = "undefined"
       /\ forallb (fun u => negb (JS.includes u (formatFileSize b))) sizes
          = true.
Proof.
  split.
  { destruct (N.eq_dec b 0); [left; assumption|].
    right. apply unit_index_spec. lia. }
  destruct (N.ltb_spec b (k ^ 4)) as [Hlt|Hge].
  - apply unit_index_lt_4 in Hlt.
    rewrite displayed_unit_eq. unfold sizes_at.
    assert (Hi : unit_index b = 0 \/ unit_index b = 1 \/ unit_index b = 2
                 \/ unit_index b = 3) by lia.
    destruct Hi as [-> | [-> | [-> | ->]]]; cbn; intuition lia.
  - assert (Hi : ~ unit_index b < 4) by (rewrite unit_index_lt_4; lia).
    unfold k in Hge.
    assert (Hn : (4 <= N.to_nat (unit_index b))%nat) by lia.
    assert (Hnone : sizes !! N.to_nat (unit_index b) = None)
      by (apply lookup_ge_None; exact Hn).
    assert (Hfmt : formatFileSize b
                   = show_hundredths (toFixed2 b (unit_index b))
                     ++ " " ++ "undefined").
    { unfold formatFileSize, sizes_at. rewrite Hnone.
      destruct (N.eqb_spec b 0) as [->|_]; [vm_compute in Hge; congruence|reflexivity]. }
    repeat split; [exact Hn | exact Hnone | |].
    + rewrite displayed_unit_eq. unfold sizes_at. rewrite Hnone. reflexivity.
    + assert (Hall : forall_chars no_capital (formatFileSize b) = true).
      { rewrite Hfmt, forall_chars_app.
        rewrite (forall_chars_weaken is_numeric no_capital _
                   numeric_no_capital (show_hundredths_numeric _)).
        reflexivity. }
      cbn [forallb sizes].
      rewrite !includes_capital by (reflexivity || exact Hall).
      reflexivity.
Qed.

(** ** Traces and the effect monad *)

Lemma replay_app (t1 t2 : Trace) (s : AppState) :
  replay (t1 ++ t2)%list s = replay t2 (replay t1 s).
Proof. apply fold_left_app. Qed.

Lemma replay_silent (t : Trace) (s : AppState) :
  forallb silent t = true ->
  st_file (replay t s) = st_file s
  /\ st_options (replay t s) = st_options s
  /\ st_status (replay t s) = st_status s
  /\ st_results (replay t s) = st_results s
  /\ st_error (replay t s) = st_error s
  /\ st_editingState (replay t s) = st_editingState s.
Proof.
  revert s.
  induction t as [|e t IH]; intros s H; [cbn; tauto|].
  cbn in H. apply andb_true_iff in H as [He Ht].
  cbn [replay fold_left]. specialize (IH (apply_event s e) Ht).
  unfold replay in IH.
  destruct e; try discriminate He; cbn in IH |- *; exact IH.
Qed.

Lemma requests_app (t1 t2 : Trace) :
  requests (t1 ++ t2)%list = (requests t1 ++ requests t2)%list.
Proof.
  induction t1 as [|e t1 IH]; [reflexivity|].
  destruct e; cbn; rewrite ?IH; reflexivity.
Qed.

Lemma results_assignments_silent (t t' : Trace) (cur : list ProcessedFile) :
  forallb silent t = true ->
  results_assignments (t ++ t')%list cur = results_assignments t' cur.
Proof.
  induction t as [|e t IH]; intros H; [reflexivity|].
  cbn in H. apply andb_true_iff in H as [He Ht].
  destruct e; try discriminate He; cbn; auto.
Qed.

Lemma fst_bind {A B} (m : Eff A) (f : A -> Eff B) :
  fst (bind m f)
  = (fst m ++ match snd m with inl _ => [] | inr a => fst (f a) end)%list.
Proof.
  destruct m as [t [e|a]]; cbn; [symmetry; apply app_nil_r|].
  destruct (f a); reflexivity.
Qed.

Lemma snd_bind {A B} (m : Eff A) (f : A -> Eff B) :
  snd (bind m f)
  = match snd m with inl e => inl e | inr a => snd (f a) end.
Proof.
  destruct m as [t [e|a]]; cbn; [reflexivity|].
  destruct (f a); reflexivity.
Qed.

Lemma fst_complete (m : Eff unit) : fst (complete m) = fst m.
Proof. destruct m as [t [e|u]]; reflexivity. Qed.

Lemma snd_complete (m : Eff unit) :
  snd (complete m)
  = match snd m with inl e => Unhandled e | inr _ => Returned end.
Proof. destruct m as [t [e|u]]; reflexivity. Qed.

(** Closes a goal whose premise says that a run left in another status
    ended in the success status. *)
Ltac wrong_status :=
  let H := fresh in cbn; intros H; discriminate H.

Ltac eff :=
  repeat (rewrite ?fst_bind, ?snd_bind;
          cbn [emit await ret throw try_catch fst snd app]).

Lemma dataURLToBlob_trace (w : World) (u : string) :
  fst (dataURLToBlob w u) = [].
Proof.
  unfold dataURLToBlob.
  destruct (JS.split_comma u) as [|a0 [|a1 l]]; try reflexivity.
  destruct (JS.match_mime a0); [|reflexivity].
  rewrite fst_bind. cbn. destruct (atob w a1); reflexivity.
Qed.

Lemma extractText_trace (pdf_doc : PDFDocument) (pages : list nat)
    (fullText : string) :
  fst (extractText pdf_doc pages fullText) = [].
Proof.
  revert fullText.
  induction pages as [|i pages IH]; intros fullText; [reflexivity|].
  cbn [extractText]. rewrite fst_bind. cbn [await fst snd app].
  destruct (getPage pdf_doc i) as [e|page]; [reflexivity|].
  rewrite fst_bind. cbn [await fst snd app].
  destruct (getTextContent page); [reflexivity|]. apply IH.
Qed.

Lemma await_render_trace (p : Page) : fst (await_render p) = [].
Proof. unfold await_render. destruct (render p); reflexivity. Qed.

Lemma convertPages_silent (w : World) (file : File)
    (options : CompressionOptions) (pdf_doc : PDFDocument)
    (pages : list nat) (processed : list ProcessedFile) :
  forallb silent (fst (convertPages w file options pdf_doc pages processed))
  = true.
Proof.
  revert processed.
  induction pages as [|i pages IH]; intros processed; [reflexivity|].
  cbn [convertPages]. rewrite fst_bind. cbn [emit fst snd].
  rewrite fst_bind. cbn [await fst snd app forallb silent andb].
  destruct (getPage pdf_doc i) as [e|page]; [reflexivity|].
  destruct (getContext2d page); [|apply IH].
  rewrite fst_bind, await_render_trace. cbn [app].
  destruct (snd (await_render page)); [reflexivity|].
  rewrite fst_bind. cbn [emit fst snd app forallb silent andb].
  rewrite fst_bind, dataURLToBlob_trace. cbn [app].
  destruct (snd (dataURLToBlob _ _)); [reflexivity|]. apply IH.
Qed.

(** ** The image loop *)

Section ImageLoop.

Variable w : World.
Variable file : File.
Variable options : CompressionOptions.
Variable pdf_doc : PDFDocument.

Lemma convertPages_result (pages : list nat) :
  forall (processed out : list ProcessedFile),
  snd (convertPages w file options pdf_doc pages processed) = inr out ->
  exists added,
    out = (processed ++ added)%list
    /\ map name added
       = map (pageName file options) (List.filter (has_context pdf_doc) pages)
    /\ Forall (fun pf => originalSize pf = originalSizePerPage file pdf_doc)
         added.
Proof.
  induction pages as [|i pages IH]; intros processed out H.
  - cbn in H. injection H as <-. exists []. rewrite app_nil_r. auto.
  - cbn [convertPages] in H. rewrite snd_bind in H. cbn [emit snd] in H.
    rewrite snd_bind in H. cbn [await snd] in H.
    cbn [List.filter]. unfold has_context at 1.
    destruct (getPage pdf_doc i) as [e|page]; [discriminate H|].
    destruct (getContext2d page).
    + rewrite snd_bind in H.
      destruct (snd (await_render page)); [discriminate H|].
      rewrite snd_bind in H. cbn [emit snd] in H.
      rewrite snd_bind in H.
      destruct (snd (dataURLToBlob _ _)) as [e|blob]; [discriminate H|].
      apply IH in H as (added & -> & Hnames & Hsizes).
      eexists (_ :: added). rewrite <- app_assoc. split; [reflexivity|].
      split; [cbn; rewrite Hnames; reflexivity|].
      constructor; [reflexivity|exact Hsizes].
    + apply IH in H as (added & -> & Hnames & Hsizes). eauto.
Qed.

Lemma page_converts_has_context (i : nat) :
  page_converts w options pdf_doc i = true -> has_context pdf_doc i = true.
Proof.
  unfold page_converts, has_context.
  destruct (getPage pdf_doc i); [discriminate|].
  destruct (getContext2d p); [reflexivity|discriminate].
Qed.

Lemma filter_has_context_all (pages : list nat) :
  forallb (page_converts w options pdf_doc) pages = true ->
  List.filter (has_context pdf_doc) pages = pages.
Proof.
  induction pages as [|i pages IH]; [reflexivity|].
  cbn. rewrite andb_true_iff. intros [Hi Hp].
  rewrite (page_converts_has_context i Hi), IH; auto.
Qed.

Lemma convertPages_returns (pages : list nat) :
  forall processed : list ProcessedFile,
  forallb (page_converts w options pdf_doc) pages = true ->
  exists out, snd (convertPages w file options pdf_doc pages processed) = inr out.
Proof.
  induction pages as [|i pages IH]; intros processed H.
  - eexists. reflexivity.
  - cbn in H. apply andb_true_iff in H as [Hi Hp].
    cbn [convertPages]. rewrite snd_bind. cbn [emit snd].
    rewrite snd_bind. cbn [await snd].
    unfold page_converts in Hi.
    destruct (getPage pdf_doc i) as [e|page]; [discriminate Hi|].
    destruct (getContext2d page); [|discriminate Hi].
    rewrite snd_bind. unfold await_render.
    destruct (render page); [discriminate Hi|]. cbn [ret snd].
    rewrite snd_bind. cbn [emit snd]. rewrite snd_bind.
    destruct (snd (dataURLToBlob _ _)) as [e|blob]; [discriminate Hi|].
    apply IH, Hp.
Qed.

End ImageLoop.

(** The trace and the outcome of a run whose file is read and decoded, in
    image mode. *)
Lemma compressRun_image (w : World) (file : File)
    (options : CompressionOptions) (typedarray : list Byte.byte)
    (pdf_doc : PDFDocument) :
  format options <> pdf ->
  readAsArrayBuffer w file = Loaded (Some typedarray) ->
  getDocument w typedarray = inr pdf_doc ->
  let loop := convertPages w file options pdf_doc (seq 1 (numPages pdf_doc)) [] in
  compressRun w file options
  = match snd loop with
    | inr processed =>
        (([SetStatus processing; SetResults []; SetError None;
           SetEditingState None] ++ fst loop
           ++ [SetResults processed; SetStatus success])%list, inr tt)
    | inl e =>
        (([SetStatus processing; SetResults []; SetError None;
           SetEditingState None] ++ fst loop)%list, inl e)
    end.
Proof.
  intros Hfmt Hread Hdoc. cbv zeta.
  unfold compressRun, startReader, readerCallback, onload.
  rewrite Hread, Hdoc.
  destruct (format options); try congruence;
    unfold imageBranch; cbn [bind await emit ret try_catch app];
    destruct (convertPages w file options pdf_doc _ _) as [t [e|processed]];
    cbn; rewrite ?app_nil_r, <- ?app_assoc; reflexivity.
Qed.

(** ** Base names *)

Lemma startsWith_pdf_app (c : ascii) (s : string) :
  JS.startsWith ".pdf" (String c s ++ ".pdf") = JS.startsWith ".pdf" (String c s).
Proof.
  destruct s as [|c1 [|c2 [|c3 s3]]]; cbn [JS.startsWith append];
    repeat match goal with
           | |- context [Ascii.eqb ?a ?b] => destruct (Ascii.eqb a b) eqn:?
           end;
    try reflexivity; try discriminate.
Qed.

Lemma replace_pdf_suffix (stem : string) :
  JS.includes ".pdf" stem = false ->
  JS.replace ".pdf" "" (stem ++ ".pdf") = stem.
Proof.
  induction stem as [|c s IH]; [reflexivity|].
  cbn [JS.includes]. rewrite orb_false_iff. intros [Hhere Hlater].
  change (String c s ++ ".pdf") with (String c (s ++ ".pdf")).
  cbn [JS.replace].
  change (String c (s ++ ".pdf")) with (String c s ++ ".pdf") at 1.
  rewrite startsWith_pdf_app, Hhere, IH by exact Hlater. reflexivity.
Qed.

(** ** Image mode *)

Lemma replay_results_then_status (t : Trace) (rs : list ProcessedFile)
    (st : AppStatus) (s : AppState) :
  st_results (replay (t ++ [SetResults rs; SetStatus st])%list s) = rs
  /\ st_status (replay (t ++ [SetResults rs; SetStatus st])%list s) = st.
Proof. rewrite replay_app. split; reflexivity. Qed.

(** C1, as amended. In image mode, when the file is read and decoded and
    every page is fetched, gets a 2D context, renders and encodes, the run
    returns in the success status with exactly one artifact per page, in
    page order, the i-th named [<base>_page_<i>.<ext>]; for a file named
    [<stem>.pdf] whose stem holds no [.pdf], the base is the stem. *)
Theorem image_run_artifacts (w : World) (s : AppState) (file : File)
    (typedarray : list Byte.byte) (pdf_doc : PDFDocument) :
  st_file s = Some file ->
  format (st_options s) <> pdf ->
  readAsArrayBuffer w file = Loaded (Some typedarray) ->
  getDocument w typedarray = inr pdf_doc ->
  forallb (page_converts w (st_options s) pdf_doc) (seq 1 (numPages pdf_doc))
  = true ->
  snd (handleCompress w s) = Returned
  /\ st_status (replay (fst (handleCompress w s)) s) = success
  /\ length (st_results (replay (fst (handleCompress w s)) s))
     = numPages pdf_doc
  /\ map name (st_results (replay (fst (handleCompress w s)) s))
     = map (fun i => originalBaseName file ++ "_page_" ++ JS.show i ++ "."
                     ++ format_text (format (st_options s)))
         (seq 1 (numPages pdf_doc))
  /\ forall stem,
       file_name file = stem ++ ".pdf" ->
       JS.includes ".pdf" stem = false ->
       originalBaseName file = stem.
Proof.
  intros Hfile Hfmt Hread Hdoc Hpages.
  unfold handleCompress. rewrite Hfile.
  rewrite (compressRun_image w file (st_options s) typedarray pdf_doc)
    by assumption.
  destruct (convertPages_returns w file (st_options s) pdf_doc _ [] Hpages)
    as [out Hout].
  destruct (convertPages_result _ _ _ _ _ _ _ Hout) as (added & Hadd & Hnames & _).
  cbn [app] in Hadd. subst out.
  rewrite (filter_has_context_all w (st_options s)) in Hnames by exact Hpages.
  rewrite Hout. cbn [complete fst snd].
  match goal with
  | |- context [replay (?pre ++ ?t ++ ?post)%list s] =>
      rewrite (app_assoc pre t post);
      destruct (replay_results_then_status (pre ++ t)%list added success s)
        as [-> ->]
  end.
  repeat split.
  - rewrite <- (length_map name), Hnames, length_map, length_seq. reflexivity.
  - exact Hnames.
  - intros stem Hname Hstem. unfold originalBaseName.
    rewrite Hname. apply replace_pdf_suffix, Hstem.
Qed.

(** C1, as stated, fails. With a second page whose canvas gives no 2D
    context the run succeeds with one artifact for two pages; and the
    artifacts of [my.pdf-notes.pdf] are not named after the file name
    with its extension removed. *)
Lemma image_run_counterexample :
  (let s := Demo.selected Demo.doc_pdf Demo.jpeg_high in
   getDocument Demo.lost_context Demo.source_bytes
   = inr (Demo.document Demo.two_pages_one_context)
   /\ numPages (Demo.document Demo.two_pages_one_context) = 2%nat
   /\ snd (handleCompress Demo.lost_context s) = Returned
   /\ st_status (Demo.compressed Demo.lost_context s) = success
   /\ map name (st_results (Demo.compressed Demo.lost_context s))
      = ["doc_page_1.jpeg"])
  /\ (let s := Demo.selected Demo.notes_pdf Demo.jpeg_high in
      strip_pdf_extension (file_name Demo.notes_pdf) = "my.pdf-notes"
      /\ map name (st_results (Demo.compressed Demo.world s))
         = ["my-notes.pdf_page_1.jpeg"; "my-notes.pdf_page_2.jpeg";
            "my-notes.pdf_page_3.jpeg"]
      /\ map name (st_results (Demo.compressed Demo.world s))
         <> map (fun i => strip_pdf_extension (file_name Demo.notes_pdf)
                          ++ "_page_" ++ JS.show i ++ ".jpeg") (seq 1 3)).
Proof. vm_compute. repeat split; discriminate. Qed.

Lemma image_run_artifacts_witness :
  let s := Demo.selected Demo.doc_pdf Demo.jpeg_high in
  snd (handleCompress Demo.world s) = Returned
  /\ st_status (replay (fst (handleCompress Demo.world s)) s) = success
  /\ length (st_results (replay (fst (handleCompress Demo.world s)) s))
     = 3%nat
  /\ map name (st_results (replay (fst (handleCompress Demo.world s)) s))
     = map (fun i => originalBaseName Demo.doc_pdf ++ "_page_" ++ JS.show i
                     ++ "." ++ "jpeg") (seq 1 3)
  /\ forall stem,
       "doc.pdf" = stem ++ ".pdf" ->
       JS.includes ".pdf" stem = false ->
       originalBaseName Demo.doc_pdf = stem.
Proof.
  apply (image_run_artifacts Demo.world
           (Demo.selected Demo.doc_pdf Demo.jpeg_high) Demo.doc_pdf
           Demo.source_bytes (Demo.document Demo.three_pages));
    solve [reflexivity | discriminate].
Defined.

(** Every image-mode run that ends in the success status has published
    one artifact for each page whose canvas gave a 2D context, in page
    order; the pages without one are skipped. *)
Lemma image_run_success_names (w : World) (s : AppState) (file : File) :
  st_file s = Some file ->
  format (st_options s) <> pdf ->
  st_status (replay (fst (handleCompress w s)) s) = success ->
  exists typedarray pdf_doc,
    readAsArrayBuffer w file = Loaded (Some typedarray)
    /\ getDocument w typedarray = inr pdf_doc
    /\ map name (st_results (replay (fst (handleCompress w s)) s))
       = map (pageName file (st_options s))
           (List.filter (has_context pdf_doc) (seq 1 (numPages pdf_doc))).
Proof.
  intros Hfile Hfmt. unfold handleCompress. rewrite Hfile.
  destruct (readAsArrayBuffer w file) as [e|[typedarray|]|] eqn:Hread;
    try (unfold compressRun, startReader, readerCallback, onload, onerror;
         rewrite Hread; wrong_status).
  destruct (getDocument w typedarray) as [e|pdf_doc] eqn:Hdoc;
    [unfold compressRun, startReader, readerCallback, onload;
     rewrite Hread, Hdoc; wrong_status|].
  rewrite (compressRun_image w file (st_options s) typedarray pdf_doc)
    by assumption.
  pose proof (convertPages_silent w file (st_options s) pdf_doc
                (seq 1 (numPages pdf_doc)) []) as Hsilent.
  destruct (snd (convertPages _ _ _ _ _ _)) as [e|out] eqn:Hout;
    cbn [complete fst snd].
  - rewrite replay_app.
    destruct (replay_silent _ (replay [SetStatus processing; SetResults [];
                SetError None; SetEditingState None] s) Hsilent)
      as (_ & _ & -> & _).
    intros H. discriminate H.
  - intros _. exists typedarray, pdf_doc.
    destruct (convertPages_result _ _ _ _ _ _ _ Hout)
      as (added & Hadd & Hnames & _).
    cbn [app] in Hadd. subst out.
    match goal with
    | |- context [replay (?pre ++ ?t ++ ?post)%list s] =>
        rewrite (app_assoc pre t post);
        destruct (replay_results_then_status (pre ++ t)%list added success s)
          as [-> _]
    end.
    auto.
Qed.

(** ** The per-page size estimate *)

Lemma Math_round_div_nearest (a b : N) :
  0 < b ->
  2 * b * Math_round_div a b <= 2 * a + b < 2 * b * (Math_round_div a b + 1).
Proof.
  intros Hb. unfold Math_round_div.
  pose proof (N.Div0.mul_div_le (2 * a + b) (2 * b)).
  pose proof (N.mul_succ_div_gt (2 * a + b) (2 * b) ltac:(lia)).
  lia.
Qed.

(** C8, as amended. In image mode every artifact of the run carries the
    same original size, the byte size of the file divided by the page
    count and rounded to the nearest integer (a half is rounded up). *)
Theorem image_run_original_size (w : World) (s : AppState) (file : File)
    (typedarray : list Byte.byte) (pdf_doc : PDFDocument) :
  st_file s = Some file ->
  format (st_options s) <> pdf ->
  readAsArrayBuffer w file = Loaded (Some typedarray) ->
  getDocument w typedarray = inr pdf_doc ->
  Forall (fun pf => originalSize pf
                    = Math_round_div (file_size file)
                        (N.of_nat (numPages pdf_doc)))
    (st_results (replay (fst (handleCompress w s)) s))
  /\ (0 < N.of_nat (numPages pdf_doc) ->
      let r := Math_round_div (file_size file) (N.of_nat (numPages pdf_doc)) in
      2 * N.of_nat (numPages pdf_doc) * r
      <= 2 * file_size file + N.of_nat (numPages pdf_doc)
      < 2 * N.of_nat (numPages pdf_doc) * (r + 1)).
Proof.
  intros Hfile Hfmt Hread Hdoc.
  split; [|apply Math_round_div_nearest].
  unfold handleCompress. rewrite Hfile.
  rewrite (compressRun_image w file (st_options s) typedarray pdf_doc)
    by assumption.
  pose proof (convertPages_silent w file (st_options s) pdf_doc
                (seq 1 (numPages pdf_doc)) []) as Hsilent.
  destruct (snd (convertPages _ _ _ _ _ _)) as [e|out] eqn:Hout;
    cbn [complete fst snd].
  - rewrite replay_app.
    destruct (replay_silent _ (replay [SetStatus processing; SetResults [];
                SetError None; SetEditingState None] s) Hsilent)
      as (_ & _ & _ & -> & _).
    constructor.
  - destruct (convertPages_result _ _ _ _ _ _ _ Hout)
      as (added & Hadd & _ & Hsizes).
    cbn [app] in Hadd. subst out.
    match goal with
    | |- context [replay (?pre ++ ?t ++ ?post)%list s] =>
        rewrite (app_assoc pre t post);
        destruct (replay_results_then_status (pre ++ t)%list added success s)
          as [-> _]
    end.
    exact Hsizes.
Qed.

Lemma image_run_original_size_witness :
  let s := Demo.selected Demo.doc_pdf Demo.jpeg_high in
  Forall (fun pf => originalSize pf = Math_round_div 50000 3)
    (st_results (replay (fst (handleCompress Demo.world s)) s))
  /\ (0 < 3 ->
      let r := Math_round_div 50000 3 in
      2 * 3 * r <= 2 * 50000 + 3 < 2 * 3 * (r + 1)).
Proof.
  apply (image_run_original_size Demo.world
           (Demo.selected Demo.doc_pdf Demo.jpeg_high) Demo.doc_pdf
           Demo.source_bytes (Demo.document Demo.three_pages));
    solve [reflexivity | discriminate].
Defined.

(** C8, as stated, fails: the three artifacts of a 50000-byte file carry
    16667, not floor(50000 / 3) = 16666. *)
Lemma image_run_original_size_counterexample :
  let s := Demo.selected Demo.doc_pdf Demo.jpeg_high in
  numPages (Demo.document Demo.three_pages) = 3%nat
  /\ map originalSize (st_results (Demo.compressed Demo.world s))
     = [16667; 16667; 16667]
  /\ file_size Demo.doc_pdf / 3 = 16666
  /\ ~ Forall (fun pf => originalSize pf = file_size Demo.doc_pdf / 3)
         (st_results (Demo.compressed Demo.world s)).
Proof.
  vm_compute. repeat split; try discriminate.
  intros H. inversion H as [|pf l Hpf _]. discriminate Hpf.
Qed.

(** ** Encoding quality *)

Lemma convertPages_requests (w : World) (file : File)
    (options : CompressionOptions) (pdf_doc : PDFDocument)
    (pages : list nat) :
  forall processed : list ProcessedFile,
  Forall (fun r => r = EncodeCanvas ("image/" ++ format_text (format options))
                         (Some (getQuality options)))
    (requests (fst (convertPages w file options pdf_doc pages processed))).
Proof.
  induction pages as [|i pages IH]; intros processed; [constructor|].
  cbn [convertPages]. rewrite fst_bind. cbn [emit fst snd].
  rewrite fst_bind. cbn [await fst snd app requests].
  destruct (getPage pdf_doc i) as [e|page]; [constructor|].
  destruct (getContext2d page); [|apply IH].
  rewrite fst_bind, await_render_trace. cbn [app].
  destruct (snd (await_render page)); [constructor|].
  rewrite fst_bind. cbn [emit fst snd app requests].
  constructor; [reflexivity|].
  rewrite fst_bind, dataURLToBlob_trace. cbn [app].
  destruct (snd (dataURLToBlob _ _)); [constructor|]. apply IH.
Qed.

(** C6. The quality is a function of the level alone (0.5 for low, 0.75
    for medium, 0.92 for high): changing the format does not change it,
    and every canvas encoding of the image loop is asked with it. *)
Theorem quality_by_level (options : CompressionOptions) :
  getQuality options = spec_quality (level options)
  /\ (forall f : OutputFormat,
        getQuality {| format := f; level := level options |}
        = getQuality options)
  /\ spec_quality low = 0.5%Q
  /\ spec_quality medium = 0.75%Q
  /\ spec_quality high = 0.92%Q
  /\ forall w file pdf_doc pages processed,
       Forall (fun r => exists mimeType,
                 r = EncodeCanvas mimeType
                       (Some (spec_quality (level options))))
         (requests (fst (convertPages w file options pdf_doc pages processed))).
Proof.
  repeat split; try reflexivity.
  intros w file pdf_doc pages processed.
  eapply List.Forall_impl; [|apply convertPages_requests].
  intros r ->. eexists. reflexivity.
Qed.

(** ** Summary mode *)

Lemma append_assoc (a b c : string) : (a ++ b) ++ c = a ++ b ++ c.
Proof. induction a as [|x a IH]; cbn; [|rewrite IH]; reflexivity. Qed.

Lemma append_nil_r (a : string) : a ++ "" = a.
Proof. induction a as [|x a IH]; cbn; [|rewrite IH]; reflexivity. Qed.

Lemma extractText_result (pdf_doc : PDFDocument) (pages : list nat) :
  forall (texts : list string) (fullText : string),
  map (pageText pdf_doc) pages = map Some texts ->
  snd (extractText pdf_doc pages fullText)
  = inr (fullText ++ loop_fullText texts).
Proof.
  induction pages as [|i pages IH]; intros texts fullText H.
  - destruct texts; [|discriminate H].
    cbn [extractText ret snd loop_fullText].
    rewrite (append_nil_r fullText). reflexivity.
  - destruct texts as [|t texts]; [discriminate H|].
    cbn [map] in H. injection H as Hi Hrest.
    cbn [extractText]. rewrite snd_bind. cbn [await snd].
    unfold pageText in Hi.
    destruct (getPage pdf_doc i) as [e|page]; [discriminate Hi|].
    rewrite snd_bind. cbn [await snd].
    destruct (getTextContent page) as [e|items]; [discriminate Hi|].
    injection Hi as <-.
    rewrite (IH texts _ Hrest). cbn [loop_fullText].
    rewrite !append_assoc. reflexivity.
Qed.

Lemma loop_fullText_trailing_separator (texts : list string) :
  texts <> [] ->
  loop_fullText texts = spec_fullText texts ++ JS.LF ++ JS.LF.
Proof.
  induction texts as [|t texts IH]; [congruence|]. intros _.
  destruct texts as [|t' texts].
  - reflexivity.
  - cbn [loop_fullText] in *. rewrite IH by discriminate.
    unfold spec_fullText. cbn [String.concat].
    rewrite !append_assoc. reflexivity.
Qed.

(** C7, as amended. In summary mode, when the file is read and decoded
    and the pages give the texts t_1 .. t_N, the text sent to the
    summarization service is t_1 .. t_N in page order with a blank-line
    separator after every page text, the last one included. *)
Theorem summary_run_full_text (w : World) (s : AppState) (file : File)
    (typedarray : list Byte.byte) (pdf_doc : PDFDocument)
    (texts : list string) :
  st_file s = Some file ->
  format (st_options s) = pdf ->
  readAsArrayBuffer w file = Loaded (Some typedarray) ->
  getDocument w typedarray = inr pdf_doc ->
  map (pageText pdf_doc) (seq 1 (numPages pdf_doc)) = map Some texts ->
  hd_error (requests (fst (handleCompress w s)))
  = Some (Summarize (loop_fullText texts))
  /\ length texts = numPages pdf_doc
  /\ (texts <> [] ->
      loop_fullText texts = spec_fullText texts ++ JS.LF ++ JS.LF).
Proof.
  intros Hfile Hfmt Hread Hdoc Htexts.
  split; [|split; [|apply loop_fullText_trailing_separator]].
  - unfold handleCompress. rewrite Hfile.
    unfold compressRun, startReader, readerCallback, onload.
    rewrite Hread, Hdoc, Hfmt. unfold summaryBranch.
    pose proof (extractText_result pdf_doc _ texts "" Htexts) as Hr.
    cbn [append] in Hr.
    rewrite fst_complete. eff.
    rewrite extractText_trace, Hr. eff.
    reflexivity.
  - rewrite <- (length_map Some), <- Htexts, length_map, length_seq.
    reflexivity.
Qed.

Lemma summary_run_full_text_witness :
  let s := Demo.selected Demo.doc_pdf Demo.pdf_medium in
  let texts := ["Hello world"; "Second page"; ""] in
  hd_error (requests (fst (handleCompress Demo.world s)))
  = Some (Summarize (loop_fullText texts))
  /\ length texts = 3%nat
  /\ (texts <> [] ->
      loop_fullText texts = spec_fullText texts ++ JS.LF ++ JS.LF).
Proof.
  apply (summary_run_full_text Demo.world
           (Demo.selected Demo.doc_pdf Demo.pdf_medium) Demo.doc_pdf
           Demo.source_bytes (Demo.document Demo.three_pages)
           ["Hello world"; "Second page"; ""]);
    reflexivity.
Defined.

(** C7, as stated, fails: for a one-page document with the text "Hello"
    the service is sent the text followed by a separator, not the text. *)
Lemma summary_run_full_text_counterexample :
  let w := Demo.world_of [Demo.page ["Hello"] "/9j/2w=="]
             (fun _ _ _ => inr "") in
  let s := Demo.selected Demo.doc_pdf Demo.pdf_medium in
  map (pageText (Demo.document [Demo.page ["Hello"] "/9j/2w=="])) (seq 1 1)
  = map Some ["Hello"]
  /\ spec_fullText ["Hello"] = "Hello"
  /\ hd_error (requests (fst (handleCompress w s)))
     = Some (Summarize ("Hello" ++ JS.LF ++ JS.LF))
  /\ hd_error (requests (fst (handleCompress w s)))
     <> Some (Summarize (spec_fullText ["Hello"])).
Proof. vm_compute. repeat split. discriminate. Qed.

(** Every summary-mode run that ends in the success status has returned
    and has published exactly one artifact: its name is what
    [file.name.replace('.pdf', '')] gives followed by [_summary.pdf], its
    original size is the size of the source file and its compressed size
    is the byte length of the blob jsPDF produced from the summary. *)
Lemma summary_run_artifact (w : World) (s : AppState) (file : File) :
  st_file s = Some file ->
  format (st_options s) = pdf ->
  st_status (replay (fst (handleCompress w s)) s) = success ->
  snd (handleCompress w s) = Returned
  /\ exists fullText summarizedText compressedBlob previewUrl,
       summarizePdfText w fullText = inr summarizedText
       /\ jsPDF_output w summarizedText = inr compressedBlob
       /\ st_results (replay (fst (handleCompress w s)) s)
          = [ {| name := originalBaseName file ++ "_summary.pdf";
                 dataUrl := createObjectURL w compressedBlob;
                 previewUrl := Some previewUrl;
                 originalSize := file_size file;
                 compressedSize := N.of_nat (length (blob_bytes compressedBlob))
              |} ].
Proof.
  intros Hfile Hfmt.
  unfold handleCompress. rewrite Hfile, fst_complete, snd_complete.
  unfold compressRun, startReader, readerCallback, onload, onerror.
  destruct (readAsArrayBuffer w file) as [e|[typedarray|]|]; eff;
    try (cbn; intros H; discriminate H).
  destruct (getDocument w typedarray) as [e|pdf_doc]; eff; [wrong_status|].
  rewrite Hfmt. unfold summaryBranch. eff. rewrite extractText_trace.
  destruct (snd (extractText _ _ _)) as [e|fullText]; eff; [wrong_status|].
  destruct (summarizePdfText w fullText) as [e|summarizedText] eqn:Hsum;
    eff; [wrong_status|].
  destruct (jsPDF_output w summarizedText) as [e|blob] eqn:Hpdf;
    eff; [wrong_status|].
  unfold generatePdfPreview. eff.
  destruct (getDocument w (blob_bytes blob)) as [e|preview_doc];
    eff; [wrong_status|].
  destruct (getPage preview_doc 1) as [e|page]; eff; [wrong_status|].
  destruct (getContext2d page); eff; [|wrong_status].
  unfold await_render.
  destruct (render page); eff; [wrong_status|].
  intros _. split; [reflexivity|].
  exists fullText, summarizedText, blob. eexists.
  repeat split; eauto.
Qed.

Lemma summary_run_artifact_witness :
  let s := Demo.selected Demo.doc_pdf Demo.pdf_medium in
  snd (handleCompress Demo.world s) = Returned
  /\ exists fullText summarizedText compressedBlob previewUrl,
       summarizePdfText Demo.world fullText = inr summarizedText
       /\ jsPDF_output Demo.world summarizedText = inr compressedBlob
       /\ st_results (replay (fst (handleCompress Demo.world s)) s)
          = [ {| name := originalBaseName Demo.doc_pdf ++ "_summary.pdf";
                 dataUrl := createObjectURL Demo.world compressedBlob;
                 previewUrl := Some previewUrl;
                 originalSize := file_size Demo.doc_pdf;
                 compressedSize := N.of_nat (length (blob_bytes compressedBlob))
              |} ].
Proof.
  apply (summary_run_artifact Demo.world
           (Demo.selected Demo.doc_pdf Demo.pdf_medium) Demo.doc_pdf);
    reflexivity.
Defined.

(** C3, at a source file named [my.pdf-notes.pdf]. The summary-mode run
    succeeds and publishes exactly one artifact, whose original size is
    the 50000 bytes of the source and whose compressed size is the 19
    bytes of the generated PDF; but it is named
    [my-notes.pdf_summary.pdf]. The name without its extension is
    [my.pdf-notes]: [file.name.replace('.pdf', '')] has removed the first
    [.pdf] of the name instead. *)
Theorem summary_run_name_keeps_extension :
  let s := Demo.selected Demo.notes_pdf Demo.pdf_medium in
  let after := replay (fst (handleCompress Demo.world s)) s in
  file_name Demo.notes_pdf = "my.pdf-notes.pdf"
  /\ file_size Demo.notes_pdf = 50000
  /\ strip_pdf_extension (file_name Demo.notes_pdf) = "my.pdf-notes"
  /\ snd (handleCompress Demo.world s) = Returned
  /\ st_status after = success
  /\ jsPDF_output Demo.world Demo.summary_text
     = inr {| blob_bytes := Demo.summary_bytes;
              blob_type := "application/pdf" |}
  /\ length Demo.summary_bytes = 19%nat
  /\ map (fun res => (name res, originalSize res, compressedSize res))
       (st_results after)
     = [("my-notes.pdf_summary.pdf", 50000, 19)]
  /\ map name (st_results after)
     <> [strip_pdf_extension (file_name Demo.notes_pdf) ++ "_summary.pdf"].
Proof. vm_compute. repeat split. discriminate. Qed.

(** ** Failure of a run *)

Lemma complete_pair (m : Eff unit) :
  complete m
  = (fst m, match snd m with inl e => Unhandled e | inr _ => Returned end).
Proof. destruct m as [t [e|u]]; reflexivity. Qed.

Lemma handleCompress_shape (w : World) (s : AppState) (file : File) :
  st_file s = Some file -> run_shape (handleCompress w s).
Proof.
  intros Hfile. unfold handleCompress. rewrite Hfile.
  destruct (readAsArrayBuffer w file) as [e|[typedarray|]|] eqn:Hread.
  - unfold compressRun, startReader, readerCallback. rewrite Hread.
    apply run_reported.
  - destruct (getDocument w typedarray) as [e|pdf_doc] eqn:Hdoc.
    { unfold compressRun, startReader, readerCallback, onload.
      rewrite Hread, Hdoc. apply (run_rejected [] e). reflexivity. }
    destruct (format (st_options s)) eqn:Hfmt.
    1, 2: rewrite (compressRun_image w file (st_options s) typedarray pdf_doc)
            by (assumption || congruence);
          pose proof (convertPages_silent w file (st_options s) pdf_doc
                        (seq 1 (numPages pdf_doc)) []) as Hsilent;
          destruct (snd (convertPages _ _ _ _ _ _)) as [e|out];
          [apply run_rejected | apply run_succeeded]; exact Hsilent.
    rewrite complete_pair.
    unfold compressRun, startReader, readerCallback, onload.
    rewrite Hread, Hdoc, Hfmt. unfold summaryBranch. eff.
    rewrite extractText_trace.
    destruct (snd (extractText _ _ _)) as [e|fullText]; eff;
      [apply (run_rejected [_]); reflexivity|].
    destruct (summarizePdfText w fullText) as [e|summarizedText]; eff;
      [apply (run_rejected [_; _; _]); reflexivity|].
    destruct (jsPDF_output w summarizedText) as [e|blob]; eff;
      [apply (run_rejected [_; _; _; _]); reflexivity|].
    unfold generatePdfPreview. eff.
    destruct (getDocument w (blob_bytes blob)) as [e|preview_doc]; eff;
      [apply (run_rejected [_; _; _; _; _]); reflexivity|].
    destruct (getPage preview_doc 1) as [e|page]; eff;
      [apply (run_rejected [_; _; _; _; _]); reflexivity|].
    destruct (getContext2d page); eff;
      [|apply (run_rejected [_; _; _; _; _]); reflexivity].
    unfold await_render.
    destruct (render page); eff;
      [apply (run_rejected [_; _; _; _; _]); reflexivity|].
    apply (run_succeeded [_; _; _; _; _; _]). reflexivity.
  - unfold compressRun, startReader, readerCallback, onload.
    rewrite Hread. apply run_reported.
  - unfold compressRun, startReader, readerCallback, onerror.
    rewrite Hread. apply run_reported.
Qed.

(** Whatever rejects inside the reader callback (the document does not
    decode, a page does not render or encode, the service fails), the run
    never reaches the error status: it stays in [processing] with no
    error message, and with the results it was cleared to. *)
Lemma handleCompress_rejection_not_reported (w : World) (s : AppState)
    (file : File) (e : JsError) :
  st_file s = Some file ->
  snd (handleCompress w s) = Unhandled e ->
  st_status (replay (fst (handleCompress w s)) s) = processing
  /\ st_error (replay (fst (handleCompress w s)) s) = None
  /\ st_results (replay (fst (handleCompress w s)) s) = [].
Proof.
  intros Hfile Hrej.
  destruct (handleCompress_shape w s file Hfile) as [quiet e' Hq|msg|quiet final Hq];
    cbn [fst snd] in *; try discriminate Hrej.
  rewrite replay_app.
  destruct (replay_silent quiet (replay run_start s) Hq)
    as (_ & _ & -> & -> & -> & _).
  repeat split.
Qed.

(** The results are assigned when the run starts (to the empty list) and
    at most once more, by a run that returns in the success status. *)
Lemma handleCompress_results_assignments (w : World) (s : AppState)
    (file : File) :
  st_file s = Some file ->
  results_assignments (fst (handleCompress w s)) (st_results s) = [[]]
  \/ exists final,
       results_assignments (fst (handleCompress w s)) (st_results s)
       = [[]; final]
       /\ snd (handleCompress w s) = Returned
       /\ st_status (replay (fst (handleCompress w s)) s) = success
       /\ st_results (replay (fst (handleCompress w s)) s) = final.
Proof.
  intros Hfile.
  destruct (handleCompress_shape w s file Hfile) as [quiet e' Hq|msg|quiet final Hq];
    cbn [fst snd].
  - left. cbn [run_start app results_assignments].
    rewrite <- (app_nil_r quiet), results_assignments_silent by exact Hq.
    reflexivity.
  - left. reflexivity.
  - right. exists final.
    split; [cbn [run_start app results_assignments];
            rewrite results_assignments_silent by exact Hq; reflexivity|].
    split; [reflexivity|].
    rewrite app_assoc.
    destruct (replay_results_then_status (run_start ++ quiet)%list final
                success s) as [-> ->].
    split; reflexivity.
Qed.

(** C2, at a failing input. The uploaded bytes are not a PDF: the decode
    rejects inside the reader callback, outside the [try] block, and the
    run is left in the [processing] status with no error message, where
    the claim has it end in the error status with a message. No artifact
    is published. *)
Theorem corrupt_pdf_run_never_reports :
  let s := Demo.selected Demo.doc_pdf Demo.jpeg_high in
  handleCompress Demo.corrupt s
  = (run_start, Unhandled (Error "Invalid PDF structure."))
  /\ st_status (Demo.compressed Demo.corrupt s) = processing
  /\ st_error (Demo.compressed Demo.corrupt s) = None
  /\ st_results (Demo.compressed Demo.corrupt s) = [].
Proof. repeat split. Qed.

(** ** The edit step *)

Lemma all_word_chars_dot (s t : string) :
  JS.all_word_chars (s ++ String "."%char t) = false.
Proof.
  induction s as [|c s IH]; [reflexivity|].
  cbn [append JS.all_word_chars]. rewrite IH. apply andb_false_r.
Qed.

Lemma replace_extension_edited_spec (stem ext : string) :
  ext <> "" ->
  JS.all_word_chars ext = true ->
  JS.replace_extension_edited (stem ++ "." ++ ext)
  = stem ++ "_edited." ++ ext.
Proof.
  intros Hne Hext.
  change ("." ++ ext) with (String "."%char ext).
  change ("_edited." ++ ext) with ("_edited" ++ String "."%char ext).
  induction stem as [|c s IH].
  - cbn [append JS.replace_extension_edited JS.extension_here].
    rewrite Hext. apply String.eqb_neq in Hne. rewrite Hne. reflexivity.
  - cbn [append JS.replace_extension_edited JS.extension_here].
    rewrite all_word_chars_dot, andb_false_r, IH. reflexivity.
Qed.

Lemma fst_try_catch (body : Eff unit) (handler : JsError -> Eff unit) :
  fst (try_catch body handler)
  = (fst body
     ++ match snd body with inl e => fst (handler e) | inr _ => [] end)%list.
Proof.
  destruct body as [t [e|u]]; cbn; [|symmetry; apply app_nil_r].
  destruct (handler e); reflexivity.
Qed.

Lemma snd_try_catch (body : Eff unit) (handler : JsError -> Eff unit) :
  snd (try_catch body handler)
  = match snd body with inl e => snd (handler e) | inr u => inr u end.
Proof.
  destruct body as [t [e|u]]; cbn; [|reflexivity].
  destruct (handler e); reflexivity.
Qed.

(** The body of the [try] block up to the answer of the service. *)
Lemma applyEditBody_request (w : World) (results : list ProcessedFile)
    (es : EditingState) (originalFile : ProcessedFile)
    (parts0 base64Data mimeType : string) :
  prompt es <> "" ->
  results !! index es = Some originalFile ->
  JS.split_comma (dataUrl originalFile) = [parts0; base64Data] ->
  JS.match_mime parts0 = Some mimeType ->
  applyEditBody w results es
  = (emit (Called (EditImage base64Data mimeType (prompt es))) ;;;
     newBase64Data <-
       await (editImageWithText w base64Data mimeType (prompt es)) ;;
     let newDataUrl := "data:" ++ mimeType ++ ";base64," ++ newBase64Data in
     newBlob <- dataURLToBlob w newDataUrl ;;
     let updatedFile :=
       {| name := JS.replace_extension_edited (name originalFile);
          dataUrl := newDataUrl;
          previewUrl := Some newDataUrl;
          originalSize := originalSize originalFile;
          compressedSize := blob_size newBlob |} in
     emit (SetResultsWith
             (fun currentResults =>
                <[index es := updatedFile]> currentResults)) ;;;
     emit (SetEditingState None)).
Proof.
  intros Hprompt Hfile Hsplit Hmime. unfold applyEditBody.
  apply String.eqb_neq in Hprompt.
  rewrite Hprompt, Hfile, Hsplit, Hmime. reflexivity.
Qed.

(** C4. An apply-edit with an empty instruction raises the validation
    error without any request to the image-edit service; when the service
    fails, its message is shown (the generic one if it has none), the
    results are left as they were, and the edit session stays open on the
    same artifact and instruction with its in-flight flag cleared. *)
Theorem apply_edit_failures (w : World) (s : AppState) (es : EditingState) :
  st_editingState s = Some es ->
  (prompt es = "" ->
   snd (handleApplyEdit w s) = Returned
   /\ requests (fst (handleApplyEdit w s)) = []
   /\ st_error (replay (fst (handleApplyEdit w s)) s)
      = Some "Please enter an edit description."
   /\ st_results (replay (fst (handleApplyEdit w s)) s) = st_results s
   /\ st_editingState (replay (fst (handleApplyEdit w s)) s)
      = Some {| index := index es; prompt := prompt es; isLoading := false |})
  /\ (forall originalFile parts0 base64Data mimeType e,
        prompt es <> "" ->
        st_results s !! index es = Some originalFile ->
        JS.split_comma (dataUrl originalFile) = [parts0; base64Data] ->
        JS.match_mime parts0 = Some mimeType ->
        editImageWithText w base64Data mimeType (prompt es) = inl e ->
        snd (handleApplyEdit w s) = Returned
        /\ requests (fst (handleApplyEdit w s))
           = [EditImage base64Data mimeType (prompt es)]
        /\ st_error (replay (fst (handleApplyEdit w s)) s)
           = Some (JS.or_else (message e)
                     "An error occurred during AI editing.")
        /\ st_results (replay (fst (handleApplyEdit w s)) s) = st_results s
        /\ st_results (replay (fst (handleApplyEdit w s)) s) !! index es
           = Some originalFile
        /\ st_editingState (replay (fst (handleApplyEdit w s)) s)
           = Some {| index := index es; prompt := prompt es;
                     isLoading := false |}).
Proof.
  intros Hes. unfold handleApplyEdit. rewrite Hes, complete_pair.
  unfold applyEditRun. split.
  - intros Hprompt. unfold applyEditBody.
    apply String.eqb_eq in Hprompt. rewrite Hprompt.
    repeat split.
  - intros originalFile parts0 base64Data mimeType e
      Hprompt Hfile Hsplit Hmime Hremote.
    rewrite (applyEditBody_request w _ es originalFile parts0 base64Data
               mimeType Hprompt Hfile Hsplit Hmime).
    rewrite Hremote. repeat split. exact Hfile.
Qed.

Lemma apply_edit_failures_witness :
  (let s := Demo.editing_page_2 "" in
   snd (handleApplyEdit Demo.world s) = Returned
   /\ requests (fst (handleApplyEdit Demo.world s)) = []
   /\ st_error (replay (fst (handleApplyEdit Demo.world s)) s)
      = Some "Please enter an edit description."
   /\ st_results (replay (fst (handleApplyEdit Demo.world s)) s)
      = st_results s
   /\ st_editingState (replay (fst (handleApplyEdit Demo.world s)) s)
      = Some {| index := 1; prompt := ""; isLoading := false |})
  /\ (let s := Demo.editing_page_2 "grayscale" in
      snd (handleApplyEdit Demo.offline s) = Returned
      /\ requests (fst (handleApplyEdit Demo.offline s))
         = [EditImage "/9j/4AAQ" "image/jpeg" "grayscale"]
      /\ st_error (replay (fst (handleApplyEdit Demo.offline s)) s)
         = Some "Failed to fetch"
      /\ st_results (replay (fst (handleApplyEdit Demo.offline s)) s)
         = st_results s
      /\ st_results (replay (fst (handleApplyEdit Demo.offline s)) s) !! 1%nat
         = Some {| name := "doc_page_2.jpeg";
                   dataUrl := "data:image/jpeg;base64,/9j/4AAQ";
                   previewUrl := Some "data:image/jpeg;base64,/9j/4AAQ";
                   originalSize := 16667;
                   compressedSize := 6 |}
      /\ st_editingState (replay (fst (handleApplyEdit Demo.offline s)) s)
         = Some {| index := 1; prompt := "grayscale"; isLoading := false |}).
Proof.
  split.
  - apply (proj1 (apply_edit_failures Demo.world (Demo.editing_page_2 "")
                    {| index := 1; prompt := ""; isLoading := false |}
                    eq_refl)).
    reflexivity.
  - apply (proj2 (apply_edit_failures Demo.offline
                    (Demo.editing_page_2 "grayscale")
                    {| index := 1; prompt := "grayscale"; isLoading := false |}
                    eq_refl)
             {| name := "doc_page_2.jpeg";
                dataUrl := "data:image/jpeg;base64,/9j/4AAQ";
                previewUrl := Some "data:image/jpeg;base64,/9j/4AAQ";
                originalSize := 16667;
                compressedSize := 6 |}
             "data:image/jpeg;base64" "/9j/4AAQ" "image/jpeg"
             (Error "Failed to fetch"));
      [discriminate | reflexivity | reflexivity | reflexivity | reflexivity].
Defined.

(** The updater of [setResults] is only reached for an index inside the
    results the handler closes over. *)
Lemma applyEdit_update_in_range (w : World) (s : AppState)
    (f : list ProcessedFile -> list ProcessedFile) :
  In (SetResultsWith f) (fst (handleApplyEdit w s)) ->
  exists es, st_editingState s = Some es
             /\ (index es < length (st_results s))%nat.
Proof.
  unfold handleApplyEdit.
  destruct (st_editingState s) as [es|]; [|intros []].
  intros Hin. exists es. split; [reflexivity|].
  destruct (st_results s !! index es) as [originalFile|] eqn:Hfile.
  - eapply lookup_lt_Some, Hfile.
  - exfalso. revert Hin. rewrite complete_pair. cbn [fst].
    unfold applyEditRun, applyEditBody. rewrite Hfile.
    destruct (String.eqb (prompt es) ""); cbn; intuition discriminate.
Qed.

(** C5. A successful apply-edit on the artifact at index k replaces that
    artifact and no other: the list keeps its length and every other
    index its artifact; the new name is the old one with [_edited] put
    before the extension, the compressed size is the byte length of the
    blob decoded from the new payload, and the edit session is closed. *)
Theorem apply_edit_success (w : World) (s : AppState) (es : EditingState)
    (originalFile : ProcessedFile)
    (parts0 base64Data mimeType newBase64Data : string) (newBlob : Blob) :
  st_editingState s = Some es ->
  prompt es <> "" ->
  st_results s !! index es = Some originalFile ->
  JS.split_comma (dataUrl originalFile) = [parts0; base64Data] ->
  JS.match_mime parts0 = Some mimeType ->
  editImageWithText w base64Data mimeType (prompt es) = inr newBase64Data ->
  snd (dataURLToBlob w ("data:" ++ mimeType ++ ";base64," ++ newBase64Data))
  = inr newBlob ->
  let newDataUrl := "data:" ++ mimeType ++ ";base64," ++ newBase64Data in
  let updatedFile :=
    {| name := JS.replace_extension_edited (name originalFile);
       dataUrl := newDataUrl;
       previewUrl := Some newDataUrl;
       originalSize := originalSize originalFile;
       compressedSize := N.of_nat (length (blob_bytes newBlob)) |} in
  let after := replay (fst (handleApplyEdit w s)) s in
  snd (handleApplyEdit w s) = Returned
  /\ st_results after = <[index es := updatedFile]> (st_results s)
  /\ length (st_results after) = length (st_results s)
  /\ st_results after !! index es = Some updatedFile
  /\ (forall j, j <> index es -> st_results after !! j = st_results s !! j)
  /\ (forall stem ext,
        name originalFile = stem ++ "." ++ ext ->
        ext <> "" ->
        JS.all_word_chars ext = true ->
        name updatedFile = stem ++ "_edited." ++ ext)
  /\ st_editingState after = None
  /\ st_error after = None.
Proof.
  intros Hes Hprompt Hfile Hsplit Hmime Hremote Hblob newDataUrl updatedFile
    after.
  assert (Hrun : handleApplyEdit w s
                 = ([SetEditingState (Some (with_isLoading es true));
                     SetError None;
                     Called (EditImage base64Data mimeType (prompt es));
                     SetResultsWith
                       (fun currentResults =>
                          <[index es := updatedFile]> currentResults);
                     SetEditingState None], Returned)).
  { unfold handleApplyEdit. rewrite Hes. unfold applyEditRun.
    rewrite (applyEditBody_request w _ es originalFile parts0 base64Data
               mimeType Hprompt Hfile Hsplit Hmime).
    rewrite Hremote.
    pose proof (dataURLToBlob_trace w newDataUrl) as Htrace.
    fold newDataUrl in Hblob.
    cbn [bind emit await app].
    fold newDataUrl.
    destruct (dataURLToBlob w newDataUrl) as [t r].
    cbn [fst snd] in Htrace, Hblob. subst t r. reflexivity. }
  subst after. rewrite Hrun. cbn [fst snd replay fold_left apply_event st_results
                                    st_editingState st_error].
  pose proof (lookup_lt_Some _ _ _ Hfile) as Hlt.
  split; [reflexivity|]. split; [reflexivity|].
  split; [apply length_insert|].
  split; [apply list_lookup_insert_eq, Hlt|].
  split; [intros j Hj; apply list_lookup_insert_ne; congruence|].
  split; [|split; reflexivity].
  intros stem ext Hname Hne Hext. cbn [updatedFile name].
  rewrite Hname. apply replace_extension_edited_spec; assumption.
Qed.

Lemma apply_edit_success_witness :
  let s := Demo.editing_page_2 "grayscale" in
  let after := replay (fst (handleApplyEdit Demo.world s)) s in
  snd (handleApplyEdit Demo.world s) = Returned
  /\ map name (st_results after)
     = ["doc_page_1.jpeg"; "doc_page_2_edited.jpeg"; "doc_page_3.jpeg"]
  /\ map compressedSize (st_results after) = [10; 14; 4]
  /\ st_results after !! 0%nat = st_results s !! 0%nat
  /\ st_results after !! 2%nat = st_results s !! 2%nat
  /\ st_editingState after = None.
Proof.
  destruct (apply_edit_success Demo.world (Demo.editing_page_2 "grayscale")
              {| index := 1; prompt := "grayscale"; isLoading := false |}
              {| name := "doc_page_2.jpeg";
                 dataUrl := "data:image/jpeg;base64,/9j/4AAQ";
                 previewUrl := Some "data:image/jpeg;base64,/9j/4AAQ";
                 originalSize := 16667;
                 compressedSize := 6 |}
              "data:image/jpeg;base64" "/9j/4AAQ" "image/jpeg"
              "R0lGODlhAQABAAAAACw="
              {| blob_bytes :=
                   map byte_of_ascii
                     (list_ascii_of_string
                        match Demo.base64_decode "R0lGODlhAQABAAAAACw=" with
                        | inr bstr => bstr
                        | inl _ => ""
                        end);
                 blob_type := "image/jpeg" |}
              eq_refl ltac:(discriminate) eq_refl eq_refl eq_refl eq_refl
              eq_refl)
    as (Hret & Hres & _ & _ & Hother & _ & Hclosed & _).
  split; [exact Hret|].
  split; [rewrite Hres; reflexivity|].
  split; [rewrite Hres; reflexivity|].
  split; [apply Hother; discriminate|].
  split; [apply Hother; discriminate|].
  exact Hclosed.
Defined.

(** The artifacts of the image loop have an extension the edit step
    finds: editing page [i] renames it to [<base>_page_<i>_edited.<ext>]. *)
Lemma pageName_edited (file : File) (options : CompressionOptions) (i : nat) :
  JS.replace_extension_edited (pageName file options i)
  = originalBaseName file ++ "_page_" ++ JS.show i ++ "_edited."
    ++ format_text (format options).
Proof.
  unfold pageName.
  rewrite <- !append_assoc.
  rewrite (append_assoc _ "." (format_text (format options))).
  rewrite replace_extension_edited_spec.
  - rewrite !append_assoc. reflexivity.
  - destruct (format options); discriminate.
  - destruct (format options); reflexivity.
Qed.

(** * Further properties *)

(** ** Data URLs *)

Lemma split_comma_plain (s : string) :
  forall_chars not_comma s = true -> JS.split_comma s = [s].
Proof.
  induction s as [|c s IH]; [reflexivity|].
  cbn [forall_chars JS.split_comma]. rewrite andb_true_iff.
  intros [Hc Hs]. unfold not_comma in Hc.
  destruct (Ascii.eqb c ","%char); [discriminate Hc|].
  rewrite (IH Hs). reflexivity.
Qed.

Lemma split_comma_app (a b : string) :
  forall_chars not_comma a = true ->
  JS.split_comma (a ++ "," ++ b) = a :: JS.split_comma b.
Proof.
  intros Ha. change ("," ++ b) with (String ","%char b).
  induction a as [|c a IH]; [reflexivity|].
  cbn [forall_chars] in Ha. apply andb_true_iff in Ha as [Hc Ha].
  unfold not_comma in Hc.
  cbn [append JS.split_comma].
  destruct (Ascii.eqb c ","%char); [discriminate Hc|].
  rewrite (IH Ha). reflexivity.
Qed.

Lemma split_comma_segments (s : string) :
  Forall (fun seg => forall_chars not_comma seg = true) (JS.split_comma s).
Proof.
  induction s as [|c s IH]; [repeat constructor|].
  cbn [JS.split_comma].
  destruct (Ascii.eqb c ","%char) eqn:Hc; [constructor; [reflexivity|exact IH]|].
  destruct (JS.split_comma s) as [|seg segs].
  - repeat constructor. cbn. unfold not_comma. rewrite Hc. reflexivity.
  - inversion IH as [|? ? Hseg Hsegs]; subst. constructor; [|exact Hsegs].
    cbn. unfold not_comma at 1. rewrite Hc. exact Hseg.
Qed.

Lemma upto_semicolon_app (m rest : string) :
  forall_chars mime_char m = true ->
  JS.upto_semicolon (m ++ ";" ++ rest) = Some m.
Proof.
  intros Hm. change (";" ++ rest) with (String ";"%char rest).
  induction m as [|c m IH]; [reflexivity|].
  cbn [forall_chars] in Hm. apply andb_true_iff in Hm as [Hc Hm].
  unfold mime_char in Hc. rewrite !andb_true_iff, !negb_true_iff in Hc.
  destruct Hc as [[_ Hsemi] Hlt].
  cbn [append JS.upto_semicolon]. rewrite Hsemi, Hlt, (IH Hm). reflexivity.
Qed.

Lemma upto_semicolon_chars (P : ascii -> bool) (s g : string) :
  forall_chars P s = true ->
  JS.upto_semicolon s = Some g ->
  forall_chars P g = true
  /\ forall_chars (fun c => negb (Ascii.eqb c ";"%char)
                            && negb (JS.is_line_terminator c)) g = true.
Proof.
  revert g. induction s as [|c s IH]; intros g Hs Hg; [discriminate Hg|].
  cbn [forall_chars] in Hs. apply andb_true_iff in Hs as [Hc Hs].
  cbn [JS.upto_semicolon] in Hg.
  destruct (Ascii.eqb c ";"%char) eqn:Hsemi;
    [injection Hg as <-; split; reflexivity|].
  destruct (JS.is_line_terminator c) eqn:Hlt; [discriminate Hg|].
  destruct (JS.upto_semicolon s) as [g'|]; [|discriminate Hg].
  injection Hg as <-. destruct (IH g' Hs eq_refl) as [H1 H2].
  cbn [forall_chars]. rewrite Hc, H1, Hsemi, Hlt, H2. split; reflexivity.
Qed.

Lemma match_mime_chars (s g : string) :
  forall_chars not_comma s = true ->
  JS.match_mime s = Some g ->
  forall_chars mime_char g = true.
Proof.
  induction s as [|c s IH]; intros Hs Hg; [discriminate Hg|].
  cbn [forall_chars] in Hs. apply andb_true_iff in Hs as [Hc Hs].
  cbn [JS.match_mime] in Hg.
  assert (Hhere : forall g', JS.upto_semicolon s = Some g' ->
                             forall_chars mime_char g' = true).
  { intros g' Hg'.
    destruct (upto_semicolon_chars not_comma s g' Hs Hg') as [H1 H2].
    clear - H1 H2. induction g' as [|x g' IHg]; [reflexivity|].
    cbn [forall_chars] in *.
    apply andb_true_iff in H1 as [Hx H1]. apply andb_true_iff in H2 as [Hy H2].
    apply andb_true_iff in Hy as [Hy1 Hy2].
    unfold mime_char at 1. rewrite Hx, Hy1, Hy2, (IHg H1 H2). reflexivity. }
  destruct (Ascii.eqb c ":"%char); [|exact (IH Hs Hg)].
  destruct (JS.upto_semicolon s) as [g'|] eqn:Hup; [|exact (IH Hs Hg)].
  injection Hg as <-. apply Hhere. reflexivity.
Qed.

Lemma mime_chars_not_comma (m : string) :
  forall_chars mime_char m = true -> forall_chars not_comma m = true.
Proof.
  apply forall_chars_weaken. intros c. unfold mime_char.
  rewrite !andb_true_iff. tauto.
Qed.

Lemma data_url_header (mime : string) :
  forall_chars mime_char mime = true ->
  forall_chars not_comma ("data:" ++ mime ++ ";base64") = true
  /\ JS.match_mime ("data:" ++ mime ++ ";base64") = Some mime.
Proof.
  intros Hm. split.
  - rewrite !forall_chars_app, (mime_chars_not_comma mime Hm). reflexivity.
  - change (JS.match_mime ("data:" ++ mime ++ ";base64"))
      with (match JS.upto_semicolon (mime ++ ";" ++ "base64") with
            | Some g => Some g
            | None => JS.match_mime (mime ++ ";" ++ "base64")
            end).
    rewrite (upto_semicolon_app mime "base64" Hm). reflexivity.
Qed.

Lemma length_list_ascii_of_string (s : string) :
  length (list_ascii_of_string s) = String.length s.
Proof. induction s as [|c s IH]; cbn; [|rewrite IH]; reflexivity. Qed.

Lemma data_url_split (mime payload : string) :
  forall_chars mime_char mime = true ->
  JS.split_comma ("data:" ++ mime ++ ";base64," ++ payload)
  = ("data:" ++ mime ++ ";base64") :: JS.split_comma payload.
Proof.
  intros Hm.
  replace ("data:" ++ mime ++ ";base64," ++ payload)
    with (("data:" ++ mime ++ ";base64") ++ "," ++ payload).
  - apply split_comma_app, data_url_header, Hm.
  - rewrite !append_assoc. reflexivity.
Qed.

Lemma split_comma_nonempty (s : string) : JS.split_comma s <> [].
Proof.
  destruct s as [|c s]; [discriminate|]. cbn [JS.split_comma].
  destruct (Ascii.eqb c ","%char); [discriminate|].
  destruct (JS.split_comma s); discriminate.
Qed.

Lemma dataURLToBlob_data_url_run (w : World) (mime payload : string) :
  forall_chars mime_char mime = true ->
  dataURLToBlob w ("data:" ++ mime ++ ";base64," ++ payload)
  = ([], match atob w (hd "" (JS.split_comma payload)) with
         | inr bstr =>
             inr {| blob_bytes := map byte_of_ascii (list_ascii_of_string bstr);
                    blob_type := JS.blob_type_of mime |}
         | inl e => inl e
         end).
Proof.
  intros Hm. unfold dataURLToBlob.
  rewrite (data_url_split mime payload Hm).
  pose proof (split_comma_nonempty payload) as Hne.
  destruct (JS.split_comma payload) as [|arr1 rest]; [congruence|].
  rewrite (proj2 (data_url_header mime Hm)). cbn [hd].
  destruct (atob w arr1); reflexivity.
Qed.

Lemma to_lowercase_idempotent (s : string) :
  JS.to_lowercase (JS.to_lowercase s) = JS.to_lowercase s.
Proof.
  induction s as [|c s IH]; [reflexivity|].
  cbn [JS.to_lowercase]. rewrite IH. f_equal.
  destruct c as [[] [] [] [] [] [] [] []]; reflexivity.
Qed.

(** X1. [dataURLToBlob] on a base64 data URL of a MIME text free of
    commas, semicolons and line terminators: the blob has the type the
    [Blob] constructor makes of that text (its ASCII lower case, or the
    empty type when it holds a code unit outside U+0020 .. U+007E), and
    its bytes are what [atob] makes of the payload up to its first comma;
    an [atob] failure is the failure of the conversion. *)
Theorem dataURLToBlob_of_data_url (w : World) (mime payload : string) :
  forall_chars mime_char mime = true ->
  let dataUrl := "data:" ++ mime ++ ";base64," ++ payload in
  let encoded := hd "" (JS.split_comma payload) in
  dataURLToBlob w dataUrl
  = ([], match atob w encoded with
         | inr bstr =>
             inr {| blob_bytes := map byte_of_ascii (list_ascii_of_string bstr);
                    blob_type := JS.blob_type_of mime |}
         | inl e => inl e
         end)
  /\ forall blob,
       snd (dataURLToBlob w dataUrl) = inr blob ->
       blob_type blob
       = (if JS.all_printable mime then JS.to_lowercase mime else "")
       /\ JS.to_lowercase (blob_type blob) = blob_type blob
       /\ exists bstr,
            atob w encoded = inr bstr
            /\ blob_size blob = N.of_nat (String.length bstr).
Proof.
  intros Hm dataUrl encoded.
  pose proof (dataURLToBlob_data_url_run w mime payload Hm) as Hrun.
  fold dataUrl encoded in Hrun.
  split; [exact Hrun|].
  intros blob. rewrite Hrun. cbn [snd].
  destruct (atob w encoded) as [e|bstr]; [discriminate|].
  intros Hblob. injection Hblob as <-. cbn [blob_type].
  split; [reflexivity|]. split.
  - unfold JS.blob_type_of. destruct (JS.all_printable mime);
      [apply to_lowercase_idempotent|reflexivity].
  - exists bstr. split; [reflexivity|].
    unfold blob_size. cbn [blob_bytes].
    rewrite length_map, length_list_ascii_of_string. reflexivity.
Qed.

Lemma dataURLToBlob_of_data_url_witness :
  dataURLToBlob Demo.world "data:IMAGE/PNG;base64,iVBORw0KGgo="
  = ([], inr {| blob_bytes :=
                  map byte_of_ascii
                    (list_ascii_of_string
                       (String (ascii_of_nat 137)
                          ("PNG" ++ String (ascii_of_nat 13)
                                      (String (ascii_of_nat 10)
                                         (String (ascii_of_nat 26)
                                            (String (ascii_of_nat 10) ""))))));
                blob_type := "image/png" |})
  /\ forall blob,
       snd (dataURLToBlob Demo.world "data:IMAGE/PNG;base64,iVBORw0KGgo=")
       = inr blob ->
       blob_type blob = "image/png"
       /\ JS.to_lowercase (blob_type blob) = blob_type blob
       /\ exists bstr,
            Demo.base64_decode "iVBORw0KGgo=" = inr bstr
            /\ blob_size blob = N.of_nat (String.length bstr).
Proof.
  apply (dataURLToBlob_of_data_url Demo.world "IMAGE/PNG" "iVBORw0KGgo=").
  reflexivity.
Defined.

(** X2. [dataURLToBlob] rejects every string without a comma with
    'Invalid data URL', whatever else it holds. *)
Theorem dataURLToBlob_without_comma (w : World) (dataUrl : string) :
  forall_chars not_comma dataUrl = true ->
  dataURLToBlob w dataUrl = ([], inl (Error "Invalid data URL")).
Proof.
  intros H. unfold dataURLToBlob. rewrite (split_comma_plain dataUrl H).
  reflexivity.
Qed.

Lemma dataURLToBlob_without_comma_witness :
  dataURLToBlob Demo.world "blob:http://localhost/3f0c"
  = ([], inl (Error "Invalid data URL")).
Proof.
  apply (dataURLToBlob_without_comma Demo.world "blob:http://localhost/3f0c").
  reflexivity.
Defined.

(** ** More on the edit step *)

(** The trace of an apply-edit that goes through. *)
Lemma handleApplyEdit_success (w : World) (s : AppState) (es : EditingState)
    (originalFile : ProcessedFile)
    (parts0 base64Data mimeType newBase64Data : string) (newBlob : Blob) :
  st_editingState s = Some es ->
  prompt es <> "" ->
  st_results s !! index es = Some originalFile ->
  JS.split_comma (dataUrl originalFile) = [parts0; base64Data] ->
  JS.match_mime parts0 = Some mimeType ->
  editImageWithText w base64Data mimeType (prompt es) = inr newBase64Data ->
  snd (dataURLToBlob w ("data:" ++ mimeType ++ ";base64," ++ newBase64Data))
  = inr newBlob ->
  handleApplyEdit w s
  = ([SetEditingState (Some (with_isLoading es true));
      SetError None;
      Called (EditImage base64Data mimeType (prompt es));
      SetResultsWith
        (fun currentResults =>
           <[index es :=
               {| name := JS.replace_extension_edited (name originalFile);
                  dataUrl := "data:" ++ mimeType ++ ";base64," ++ newBase64Data;
                  previewUrl :=
                    Some ("data:" ++ mimeType ++ ";base64," ++ newBase64Data);
                  originalSize := originalSize originalFile;
                  compressedSize := blob_size newBlob |}]> currentResults);
      SetEditingState None], Returned).
Proof.
  intros Hes Hprompt Hfile Hsplit Hmime Hremote Hblob.
  unfold handleApplyEdit. rewrite Hes. unfold applyEditRun.
  rewrite (applyEditBody_request w _ es originalFile parts0 base64Data
             mimeType Hprompt Hfile Hsplit Hmime).
  rewrite Hremote.
  pose proof (dataURLToBlob_trace w
                ("data:" ++ mimeType ++ ";base64," ++ newBase64Data)) as Htrace.
  cbn [bind emit await app].
  destruct (dataURLToBlob w _) as [t r].
  cbn [fst snd] in Htrace, Hblob. subst t r. reflexivity.
Qed.

(** The MIME type and the payload the edit step reads off an artifact. *)
Lemma edit_source_mime (originalFile : ProcessedFile)
    (parts0 base64Data mimeType : string) :
  JS.split_comma (dataUrl originalFile) = [parts0; base64Data] ->
  JS.match_mime parts0 = Some mimeType ->
  forall_chars mime_char mimeType = true.
Proof.
  intros Hsplit Hmime.
  pose proof (split_comma_segments (dataUrl originalFile)) as Hsegs.
  rewrite Hsplit in Hsegs. inversion Hsegs as [|? ? Hparts0 _]; subst.
  exact (match_mime_chars parts0 mimeType Hparts0 Hmime).
Qed.

(** X3. An edited artifact can be edited again: when the payload the
    service returned holds no comma, the new blob has the type the [Blob]
    constructor makes of the MIME text of the original artifact, and a
    second apply-edit on the same artifact sends that payload with that
    MIME text, as it was captured, and the new instruction. *)
Theorem edit_again_request (w w2 : World) (s : AppState) (es : EditingState)
    (originalFile : ProcessedFile)
    (parts0 base64Data mimeType newBase64Data instruction : string)
    (newBlob : Blob) :
  st_editingState s = Some es ->
  prompt es <> "" ->
  st_results s !! index es = Some originalFile ->
  JS.split_comma (dataUrl originalFile) = [parts0; base64Data] ->
  JS.match_mime parts0 = Some mimeType ->
  editImageWithText w base64Data mimeType (prompt es) = inr newBase64Data ->
  snd (dataURLToBlob w ("data:" ++ mimeType ++ ";base64," ++ newBase64Data))
  = inr newBlob ->
  forall_chars not_comma newBase64Data = true ->
  instruction <> "" ->
  let edited := replay (fst (handleApplyEdit w s)) s in
  let reopened :=
    commit (typePrompt {| index := index es; prompt := ""; isLoading := false |}
              instruction)
      (commit (openEdit (index es)) edited) in
  blob_type newBlob = JS.blob_type_of mimeType
  /\ hd_error (requests (fst (handleApplyEdit w2 reopened)))
     = Some (EditImage newBase64Data mimeType instruction).
Proof.
  intros Hes Hprompt Hfile Hsplit Hmime Hremote Hblob Hpayload Hinstr
    edited reopened.
  pose proof (edit_source_mime _ _ _ _ Hsplit Hmime) as Hm.
  split.
  { rewrite (dataURLToBlob_data_url_run w mimeType newBase64Data Hm) in Hblob.
    cbn [snd] in Hblob.
    destruct (atob w _); [discriminate Hblob|].
    injection Hblob as <-. reflexivity. }
  subst reopened edited.
  rewrite (handleApplyEdit_success w s es originalFile parts0 base64Data
             mimeType newBase64Data newBlob) by assumption.
  cbn [fst replay fold_left apply_event commit openEdit typePrompt apply_update
         st_results st_editingState index prompt isLoading].
  unfold handleApplyEdit. cbn [st_editingState st_results].
  rewrite fst_complete. unfold applyEditRun.
  rewrite (applyEditBody_request w2 _ _
             {| name := JS.replace_extension_edited (name originalFile);
                dataUrl := "data:" ++ mimeType ++ ";base64," ++ newBase64Data;
                previewUrl :=
                  Some ("data:" ++ mimeType ++ ";base64," ++ newBase64Data);
                originalSize := originalSize originalFile;
                compressedSize := blob_size newBlob |}
             ("data:" ++ mimeType ++ ";base64") newBase64Data mimeType).
  - rewrite !fst_bind. cbn [emit fst snd app].
    rewrite fst_try_catch, !fst_bind. cbn [emit fst snd app requests hd_error].
    reflexivity.
  - exact Hinstr.
  - cbn [index]. apply list_lookup_insert_eq.
    eapply lookup_lt_Some, Hfile.
  - cbn [dataUrl]. rewrite (data_url_split mimeType newBase64Data Hm).
    rewrite (split_comma_plain newBase64Data Hpayload). reflexivity.
  - apply data_url_header, Hm.
Qed.

Lemma edit_again_request_witness :
  let s := Demo.editing_page_2 "grayscale" in
  let edited := replay (fst (handleApplyEdit Demo.world s)) s in
  let reopened :=
    commit (typePrompt {| index := 1; prompt := ""; isLoading := false |}
              "sepia")
      (commit (openEdit 1) edited) in
  blob_type
    {| blob_bytes :=
         map byte_of_ascii
           (list_ascii_of_string
              match Demo.base64_decode "R0lGODlhAQABAAAAACw=" with
              | inr bstr => bstr
              | inl _ => ""
              end);
       blob_type := "image/jpeg" |} = JS.blob_type_of "image/jpeg"
  /\ hd_error (requests (fst (handleApplyEdit Demo.offline reopened)))
     = Some (EditImage "R0lGODlhAQABAAAAACw=" "image/jpeg" "sepia").
Proof.
  apply (edit_again_request Demo.world Demo.offline
           (Demo.editing_page_2 "grayscale")
           {| index := 1; prompt := "grayscale"; isLoading := false |}
           {| name := "doc_page_2.jpeg";
              dataUrl := "data:image/jpeg;base64,/9j/4AAQ";
              previewUrl := Some "data:image/jpeg;base64,/9j/4AAQ";
              originalSize := 16667;
              compressedSize := 6 |}
           "data:image/jpeg;base64" "/9j/4AAQ" "image/jpeg"
           "R0lGODlhAQABAAAAACw=" "sepia");
    solve [reflexivity | discriminate].
Defined.

(** The two ways an apply-edit on an open session ends. *)
Lemma handleApplyEdit_cases (w : World) (s : AppState) (es : EditingState) :
  st_editingState s = Some es ->
  (exists request updatedFile,
     handleApplyEdit w s
     = ([SetEditingState (Some (with_isLoading es true)); SetError None;
         Called request;
         SetResultsWith (fun currentResults =>
                           <[index es := updatedFile]> currentResults);
         SetEditingState None], Returned)
     /\ (index es < length (st_results s))%nat)
  \/ (exists called msg,
        handleApplyEdit w s
        = (([SetEditingState (Some (with_isLoading es true)); SetError None]
            ++ map Called called
            ++ [SetError (Some msg);
                SetEditingState (Some (with_isLoading es false))])%list,
           Returned)
        /\ (length called <= 1)%nat).
Proof.
  intros Hes. unfold handleApplyEdit. rewrite Hes.
  unfold applyEditRun, applyEditBody.
  destruct (String.eqb (prompt es) "");
    [right; exists [], "Please enter an edit description."; split;
     [reflexivity | cbn; lia]|].
  destruct (st_results s !! index es) as [originalFile|] eqn:Hfile;
    [|right; eexists [], _; split; [reflexivity | cbn; lia]].
  pose proof (lookup_lt_Some _ _ _ Hfile) as Hlt.
  destruct (JS.split_comma (dataUrl originalFile))
    as [|parts0 [|base64Data [|extra parts]]];
    try (right; eexists [], _; split; [reflexivity | cbn; lia]).
  destruct (JS.match_mime parts0) as [mimeType|];
    [|right; eexists [], _; split; [reflexivity | cbn; lia]].
  destruct (editImageWithText w base64Data mimeType (prompt es))
    as [e|newBase64Data];
    [right; eexists [_], _; split; [reflexivity | cbn; lia]|].
  pose proof (dataURLToBlob_trace w
                ("data:" ++ mimeType ++ ";base64," ++ newBase64Data)) as Htrace.
  cbn [bind emit await app try_catch].
  destruct (dataURLToBlob w _) as [t [e|newBlob]]; cbn [fst] in Htrace; subst t.
  - right. eexists [_], _. split; [reflexivity | cbn; lia].
  - left. eexists _, _. split; [reflexivity | exact Hlt].
Qed.

Lemma replay_called (called : list Request) (s : AppState) :
  replay (map Called called) s = s.
Proof. induction called as [|c l IH]; [reflexivity|exact IH]. Qed.

Lemma requests_called (called : list Request) :
  requests (map Called called) = called.
Proof.
  induction called as [|c l IH]; cbn; [|rewrite IH]; reflexivity.
Qed.

(** X4. An apply-edit on an open session asks the service at most once
    and changes neither the file, the options, the status nor the
    progress message. When the handler returns, which it does whenever
    what was thrown is an [Error] with a message to read, the only thrown
    values [JsError] holds, it is all or nothing: either it ends with no
    error, the session closed and a results list of the same length, or
    it ends with an error message, the results untouched and the session
    still open with its in-flight flag cleared. *)
Theorem apply_edit_all_or_nothing (w : World) (s : AppState)
    (es : EditingState) :
  st_editingState s = Some es ->
  let after := replay (fst (handleApplyEdit w s)) s in
  (length (requests (fst (handleApplyEdit w s))) <= 1)%nat
  /\ st_file after = st_file s
  /\ st_options after = st_options s
  /\ st_status after = st_status s
  /\ st_statusMessage after = st_statusMessage s
  /\ (snd (handleApplyEdit w s) = Returned ->
      (st_error after = None
       /\ st_editingState after = None
       /\ length (st_results after) = length (st_results s))
      \/ (exists msg,
            st_error after = Some msg
            /\ st_results after = st_results s
            /\ st_editingState after
               = Some {| index := index es; prompt := prompt es;
                         isLoading := false |})).
Proof.
  intros Hes after. subst after.
  destruct (handleApplyEdit_cases w s es Hes)
    as [(request & updatedFile & -> & Hlt) | (called & msg & -> & Hlen)].
  - cbn [fst snd]. repeat split; [cbn; lia|].
    intros _. left. repeat split. cbn. apply length_insert.
  - cbn [fst snd].
    rewrite !replay_app, replay_called, !requests_app, requests_called.
    split; [cbn; rewrite app_nil_r; exact Hlen|].
    repeat split. intros _. right. exists msg. repeat split.
Qed.

Lemma apply_edit_all_or_nothing_witness :
  let s := Demo.editing_page_2 "grayscale" in
  let after := replay (fst (handleApplyEdit Demo.offline s)) s in
  (length (requests (fst (handleApplyEdit Demo.offline s))) <= 1)%nat
  /\ st_file after = st_file s
  /\ st_options after = st_options s
  /\ st_status after = st_status s
  /\ st_statusMessage after = st_statusMessage s
  /\ (snd (handleApplyEdit Demo.offline s) = Returned ->
      (st_error after = None
       /\ st_editingState after = None
       /\ length (st_results after) = length (st_results s))
      \/ (exists msg,
            st_error after = Some msg
            /\ st_results after = st_results s
            /\ st_editingState after
               = Some {| index := 1; prompt := "grayscale";
                         isLoading := false |})).
Proof.
  apply (apply_edit_all_or_nothing Demo.offline
           (Demo.editing_page_2 "grayscale")
           {| index := 1; prompt := "grayscale"; isLoading := false |}).
  reflexivity.
Defined.

(** ** More on a compression run *)

Lemma replay_run_start_quiet (quiet : Trace) (s : AppState) :
  forallb silent quiet = true ->
  st_file (replay (run_start ++ quiet)%list s) = st_file s
  /\ st_options (replay (run_start ++ quiet)%list s) = st_options s
  /\ st_status (replay (run_start ++ quiet)%list s) = processing
  /\ st_results (replay (run_start ++ quiet)%list s) = []
  /\ st_error (replay (run_start ++ quiet)%list s) = None
  /\ st_editingState (replay (run_start ++ quiet)%list s) = None.
Proof.
  intros Hq. rewrite replay_app.
  destruct (replay_silent quiet (replay run_start s) Hq)
    as (-> & -> & -> & -> & -> & ->).
  repeat split.
Qed.

Lemma replay_run_succeeded (quiet : Trace) (final : list ProcessedFile)
    (s : AppState) :
  forallb silent quiet = true ->
  let after :=
    replay (run_start ++ quiet ++ [SetResults final; SetStatus success])%list
      s in
  st_file after = st_file s
  /\ st_options after = st_options s
  /\ st_status after = success
  /\ st_results after = final
  /\ st_error after = None
  /\ st_editingState after = None.
Proof.
  intros Hq after. subst after. rewrite app_assoc, replay_app.
  destruct (replay_run_start_quiet quiet s Hq) as (Hf & Ho & _ & _ & He & Hes).
  cbn [replay fold_left apply_event st_file st_options st_status st_results
         st_error st_editingState] in *.
  unfold replay in *. rewrite Hf, Ho, He, Hes. repeat split.
Qed.

Lemma compress_frame_fields (w : World) (s : AppState) (file : File) :
  st_file s = Some file ->
  st_file (replay (fst (handleCompress w s)) s) = Some file
  /\ st_options (replay (fst (handleCompress w s)) s) = st_options s
  /\ st_editingState (replay (fst (handleCompress w s)) s) = None.
Proof.
  intros Hfile.
  destruct (handleCompress_shape w s file Hfile)
    as [quiet e Hq|msg|quiet final Hq]; cbn [fst].
  - destruct (replay_run_start_quiet quiet s Hq) as (-> & -> & _ & _ & _ & ->).
    repeat split. exact Hfile.
  - repeat split. exact Hfile.
  - destruct (replay_run_succeeded quiet final s Hq)
      as (-> & -> & _ & _ & _ & ->).
    repeat split. exact Hfile.
Qed.

(** X5. Whatever its outcome, a compression run on a selected file leaves
    the file and the options as they were, closes any open edit session
    and leaves the idle status. *)
Theorem compress_frame (w : World) (s : AppState) (file : File) :
  st_file s = Some file ->
  let after := replay (fst (handleCompress w s)) s in
  st_file after = Some file
  /\ st_options after = st_options s
  /\ st_editingState after = None
  /\ st_status after <> idle.
Proof.
  intros Hfile after. subst after.
  destruct (compress_frame_fields w s file Hfile) as (Hf & Ho & He).
  repeat split; try assumption.
  destruct (handleCompress_shape w s file Hfile)
    as [quiet e Hq|msg|quiet final Hq]; cbn [fst].
  - destruct (replay_run_start_quiet quiet s Hq) as (_ & _ & -> & _).
    discriminate.
  - discriminate.
  - destruct (replay_run_succeeded quiet final s Hq) as (_ & _ & -> & _).
    discriminate.
Qed.

Lemma compress_frame_witness :
  let s := Demo.editing_page_2 "grayscale" in
  let after := replay (fst (handleCompress Demo.corrupt s)) s in
  st_file after = Some Demo.doc_pdf
  /\ st_options after = st_options s
  /\ st_editingState after = None
  /\ st_status after <> idle.
Proof.
  apply (compress_frame Demo.corrupt (Demo.editing_page_2 "grayscale")
           Demo.doc_pdf).
  reflexivity.
Defined.

(** A run whose file is read ends rejected or successful. *)
Lemma handleCompress_loaded (w : World) (s : AppState) (file : File)
    (typedarray : list Byte.byte) :
  st_file s = Some file ->
  readAsArrayBuffer w file = Loaded (Some typedarray) ->
  (exists quiet e,
     forallb silent quiet = true
     /\ handleCompress w s = ((run_start ++ quiet)%list, Unhandled e))
  \/ (exists quiet final,
        forallb silent quiet = true
        /\ handleCompress w s
           = ((run_start ++ quiet
               ++ [SetResults final; SetStatus success])%list, Returned)).
Proof.
  intros Hfile Hread.
  pose proof (handleCompress_shape w s file Hfile) as Hshape.
  assert (Hnot : forall msg,
             handleCompress w s
             <> ((run_start ++ [SetError (Some msg); SetStatus error])%list,
                 Returned)).
  { intros msg Heq.
    assert (Hstatus : st_status (replay (fst (handleCompress w s)) s) = error)
      by (rewrite Heq; reflexivity).
    revert Hstatus. clear Heq Hshape. unfold handleCompress. rewrite Hfile.
    destruct (getDocument w typedarray) as [e|pdf_doc] eqn:Hdoc.
    { unfold compressRun, startReader, readerCallback, onload.
      rewrite Hread, Hdoc. cbn. discriminate. }
    destruct (format (st_options s)) eqn:Hfmt.
    1, 2: rewrite (compressRun_image w file (st_options s) typedarray pdf_doc)
            by (assumption || congruence);
          pose proof (convertPages_silent w file (st_options s) pdf_doc
                        (seq 1 (numPages pdf_doc)) []) as Hsilent;
          destruct (snd (convertPages _ _ _ _ _ _)) as [e|out];
          cbn [complete fst];
          [destruct (replay_run_start_quiet _ s Hsilent) as (_ & _ & H & _)
          |destruct (replay_run_succeeded _ out s Hsilent) as (_ & _ & H & _)];
          unfold run_start in H; rewrite H; discriminate.
    rewrite fst_complete.
    unfold compressRun, startReader, readerCallback, onload.
    rewrite Hread, Hdoc, Hfmt. unfold summaryBranch. eff.
    rewrite extractText_trace.
    destruct (snd (extractText _ _ _)) as [e|fullText]; eff;
      [cbn; discriminate|].
    destruct (summarizePdfText w fullText) as [e|summarizedText]; eff;
      [cbn; discriminate|].
    destruct (jsPDF_output w summarizedText) as [e|blob]; eff;
      [cbn; discriminate|].
    unfold generatePdfPreview. eff.
    destruct (getDocument w (blob_bytes blob)) as [e|preview_doc]; eff;
      [cbn; discriminate|].
    destruct (getPage preview_doc 1) as [e|page]; eff; [cbn; discriminate|].
    destruct (getContext2d page); eff; [|cbn; discriminate].
    unfold await_render.
    destruct (render page); eff; cbn; discriminate. }
  inversion Hshape as [quiet e Hq Heq|msg Heq|quiet final Hq Heq].
  - left. exists quiet, e. auto.
  - exfalso. apply (Hnot msg). symmetry. exact Heq.
  - right. exists quiet, final. auto.
Qed.

(** X6. The only failures a compression run reports are those of reading
    the file: the run ends in the error status exactly when the reader
    does not deliver the bytes, and then it has returned, published
    nothing and set the message of that failure. *)
Theorem compress_reports_read_failures_only (w : World) (s : AppState)
    (file : File) :
  st_file s = Some file ->
  let after := replay (fst (handleCompress w s)) s in
  match readAsArrayBuffer w file with
  | Loaded (Some _) => st_status after <> error
  | outcome =>
      snd (handleCompress w s) = Returned
      /\ st_status after = error
      /\ st_results after = []
      /\ st_error after
         = Some match outcome with
                | ReadThrows e =>
                    JS.or_else (message e)
                      "An unknown error occurred during compression."
                | Loaded _ => "Failed to read file."
                | ReadFailed => "Error reading file."
                end
  end.
Proof.
  intros Hfile after. subst after.
  destruct (readAsArrayBuffer w file) as [e|[typedarray|]|] eqn:Hread.
  - unfold handleCompress, compressRun, startReader, readerCallback.
    rewrite Hfile, Hread. repeat split.
  - destruct (handleCompress_loaded w s file typedarray Hfile Hread)
      as [(quiet & e & Hq & ->) | (quiet & final & Hq & ->)]; cbn [fst].
    + destruct (replay_run_start_quiet quiet s Hq) as (_ & _ & -> & _).
      discriminate.
    + destruct (replay_run_succeeded quiet final s Hq) as (_ & _ & -> & _).
      discriminate.
  - unfold handleCompress, compressRun, startReader, readerCallback, onload.
    rewrite Hfile, Hread. repeat split.
  - unfold handleCompress, compressRun, startReader, readerCallback, onerror.
    rewrite Hfile, Hread. repeat split.
Qed.

Lemma compress_reports_read_failures_only_witness :
  let s := Demo.selected Demo.doc_pdf Demo.jpeg_high in
  let after := replay (fst (handleCompress Demo.unreadable s)) s in
  snd (handleCompress Demo.unreadable s) = Returned
  /\ st_status after = error
  /\ st_results after = []
  /\ st_error after = Some "Error reading file.".
Proof.
  apply (compress_reports_read_failures_only Demo.unreadable
           (Demo.selected Demo.doc_pdf Demo.jpeg_high) Demo.doc_pdf).
  reflexivity.
Defined.

(** ** More on the image loop *)

Lemma convertPages_self_described (w : World) (file : File)
    (options : CompressionOptions) (pdf_doc : PDFDocument)
    (pages : list nat) :
  forall processed out : list ProcessedFile,
  Forall (self_described w) processed ->
  snd (convertPages w file options pdf_doc pages processed) = inr out ->
  Forall (self_described w) out.
Proof.
  induction pages as [|i pages IH]; intros processed out Hp H.
  - cbn in H. injection H as <-. exact Hp.
  - cbn [convertPages] in H. rewrite snd_bind in H. cbn [emit snd] in H.
    rewrite snd_bind in H. cbn [await snd] in H.
    destruct (getPage pdf_doc i) as [e|page]; [discriminate H|].
    destruct (getContext2d page); [|exact (IH _ _ Hp H)].
    rewrite snd_bind in H.
    destruct (snd (await_render page)); [discriminate H|].
    rewrite snd_bind in H. cbn [emit snd] in H.
    rewrite snd_bind in H.
    destruct (snd (dataURLToBlob _ _)) as [e|blob] eqn:Hblob;
      [discriminate H|].
    apply (IH _ _) in H; [exact H|].
    apply Forall_app. split; [exact Hp|].
    constructor; [|constructor].
    split; [reflexivity|]. exists blob. split; [exact Hblob|reflexivity].
Qed.

Lemma convertPages_messages (w : World) (file : File)
    (options : CompressionOptions) (pdf_doc : PDFDocument)
    (pages : list nat) :
  forall processed : list ProcessedFile,
  exists visited rest,
    pages = (visited ++ rest)%list
    /\ status_messages
         (fst (convertPages w file options pdf_doc pages processed))
       = map (fun i => convertingMessage i (numPages pdf_doc)) visited
    /\ (forall out,
          snd (convertPages w file options pdf_doc pages processed) = inr out ->
          rest = []).
Proof.
  induction pages as [|i pages IH]; intros processed.
  - exists [], []. repeat split.
  - cbn [convertPages]. rewrite fst_bind, snd_bind. cbn [emit fst snd].
    rewrite fst_bind, snd_bind. cbn [await fst snd app status_messages].
    destruct (getPage pdf_doc i) as [e|page].
    { exists [i], pages. repeat split. discriminate. }
    destruct (getContext2d page).
    + rewrite fst_bind, snd_bind, await_render_trace. cbn [app].
      destruct (snd (await_render page)).
      { exists [i], pages. repeat split. discriminate. }
      rewrite fst_bind, snd_bind. cbn [emit fst snd app status_messages].
      rewrite fst_bind, snd_bind, dataURLToBlob_trace. cbn [app].
      destruct (snd (dataURLToBlob _ _)) as [e|blob].
      { exists [i], pages. repeat split. discriminate. }
      match goal with
      | |- context [convertPages w file options pdf_doc pages ?p] =>
          destruct (IH p) as (visited & rest & -> & Hm & Hrest)
      end.
      exists (i :: visited), rest. cbn [map]. rewrite Hm.
      repeat split. exact Hrest.
    + destruct (IH processed) as (visited & rest & -> & Hm & Hrest).
      exists (i :: visited), rest. cbn [map]. rewrite Hm.
      repeat split. exact Hrest.
Qed.

Lemma status_messages_app (t1 t2 : Trace) :
  status_messages (t1 ++ t2)%list
  = (status_messages t1 ++ status_messages t2)%list.
Proof.
  induction t1 as [|e t1 IH]; [reflexivity|].
  destruct e; cbn; rewrite ?IH; reflexivity.
Qed.

Lemma seq_prefix (visited rest : list nat) :
  forall start len,
  seq start len = (visited ++ rest)%list ->
  visited = seq start (length visited)
  /\ (length visited <= len)%nat
  /\ (rest = [] -> length visited = len).
Proof.
  induction visited as [|v visited IH]; intros start len H.
  - cbn in *. repeat split; [lia|]. intros ->. destruct len; [reflexivity|].
    discriminate H.
  - destruct len as [|len]; [discriminate H|].
    cbn in H. injection H as <- H.
    destruct (IH _ _ H) as (Hv & Hlen & Hrest).
    cbn [length seq]. rewrite <- Hv. repeat split; [lia|].
    intros Hr. rewrite (Hrest Hr). reflexivity.
Qed.

(** X7. In image mode every published artifact is its own preview and
    carries as compressed size the byte length of the blob its own data
    URL decodes to. *)
Theorem image_artifacts_self_described (w : World) (s : AppState)
    (file : File) :
  st_file s = Some file ->
  format (st_options s) <> pdf ->
  Forall (self_described w) (st_results (replay (fst (handleCompress w s)) s)).
Proof.
  intros Hfile Hfmt.
  destruct (readAsArrayBuffer w file) as [e|[typedarray|]|] eqn:Hread;
    try (unfold handleCompress, compressRun, startReader, readerCallback,
           onload, onerror;
         rewrite Hfile, Hread; constructor).
  destruct (getDocument w typedarray) as [e|pdf_doc] eqn:Hdoc;
    [unfold handleCompress, compressRun, startReader, readerCallback, onload;
     rewrite Hfile, Hread, Hdoc; constructor|].
  unfold handleCompress. rewrite Hfile.
  rewrite (compressRun_image w file (st_options s) typedarray pdf_doc)
    by assumption.
  pose proof (convertPages_silent w file (st_options s) pdf_doc
                (seq 1 (numPages pdf_doc)) []) as Hsilent.
  destruct (snd (convertPages _ _ _ _ _ _)) as [e|out] eqn:Hout;
    cbn [complete fst].
  - destruct (replay_run_start_quiet _ s Hsilent) as (_ & _ & _ & H & _).
    unfold run_start in H. rewrite H. constructor.
  - destruct (replay_run_succeeded _ out s Hsilent) as (_ & _ & _ & H & _).
    unfold run_start in H. rewrite H.
    eapply convertPages_self_described; [constructor|exact Hout].
Qed.

Lemma image_artifacts_self_described_witness :
  Forall (self_described Demo.world) (st_results Demo.converted).
Proof.
  apply (image_artifacts_self_described Demo.world
           (Demo.selected Demo.doc_pdf Demo.jpeg_high) Demo.doc_pdf);
    [reflexivity | discriminate].
Defined.

(** X8. In image mode the progress messages of a run whose file is read
    and decoded are "Converting page i of N..." for i = 1, 2, ... in page
    order, one for every page visited, pages without a 2D context
    included; a run that ends in the success status has announced all N
    pages. *)
Theorem image_run_progress_messages (w : World) (s : AppState) (file : File)
    (typedarray : list Byte.byte) (pdf_doc : PDFDocument) :
  st_file s = Some file ->
  format (st_options s) <> pdf ->
  readAsArrayBuffer w file = Loaded (Some typedarray) ->
  getDocument w typedarray = inr pdf_doc ->
  exists n,
    (n <= numPages pdf_doc)%nat
    /\ status_messages (fst (handleCompress w s))
       = map (fun i => convertingMessage i (numPages pdf_doc)) (seq 1 n)
    /\ (st_status (replay (fst (handleCompress w s)) s) = success ->
        n = numPages pdf_doc).
Proof.
  intros Hfile Hfmt Hread Hdoc.
  unfold handleCompress. rewrite Hfile.
  rewrite (compressRun_image w file (st_options s) typedarray pdf_doc)
    by assumption.
  pose proof (convertPages_silent w file (st_options s) pdf_doc
                (seq 1 (numPages pdf_doc)) []) as Hsilent.
  destruct (convertPages_messages w file (st_options s) pdf_doc
              (seq 1 (numPages pdf_doc)) [])
    as (visited & rest & Hseq & Hm & Hrest).
  destruct (seq_prefix visited rest _ _ Hseq) as (Hv & Hlen & Hall).
  exists (length visited). split; [exact Hlen|].
  destruct (snd (convertPages _ _ _ _ _ _)) as [e|out] eqn:Hout;
    cbn [complete fst].
  - split.
    + rewrite status_messages_app, Hm, <- Hv. reflexivity.
    + destruct (replay_run_start_quiet _ s Hsilent) as (_ & _ & H & _).
      unfold run_start in H. rewrite H. discriminate.
  - split.
    + rewrite !status_messages_app, Hm, <- Hv. cbn. rewrite app_nil_r.
      reflexivity.
    + intros _. apply Hall, (Hrest out). reflexivity.
Qed.

Lemma image_run_progress_messages_witness :
  exists n,
    (n <= 2)%nat
    /\ status_messages
         (fst (handleCompress Demo.lost_context
                 (Demo.selected Demo.doc_pdf Demo.jpeg_high)))
       = map (fun i => convertingMessage i 2) (seq 1 n)
    /\ (st_status
          (replay
             (fst (handleCompress Demo.lost_context
                     (Demo.selected Demo.doc_pdf Demo.jpeg_high)))
             (Demo.selected Demo.doc_pdf Demo.jpeg_high)) = success ->
        n = 2%nat).
Proof.
  apply (image_run_progress_messages Demo.lost_context
           (Demo.selected Demo.doc_pdf Demo.jpeg_high) Demo.doc_pdf
           Demo.source_bytes (Demo.document Demo.two_pages_one_context));
    solve [reflexivity | discriminate].
Defined.

(** X9. A summary whose preview canvas gives no 2D context is lost: the
    text has been sent to the summarization service and the PDF written,
    but the run rejects with the preview's error, publishes nothing and
    stays in the processing status. (The image loop, in contrast, skips a
    page without a context.) *)
Theorem summary_run_preview_without_context (w : World) (s : AppState)
    (file : File) (typedarray : list Byte.byte)
    (pdf_doc preview_doc : PDFDocument) (texts : list string)
    (summarizedText : string) (compressedBlob : Blob) (page : Page) :
  st_file s = Some file ->
  format (st_options s) = pdf ->
  readAsArrayBuffer w file = Loaded (Some typedarray) ->
  getDocument w typedarray = inr pdf_doc ->
  map (pageText pdf_doc) (seq 1 (numPages pdf_doc)) = map Some texts ->
  summarizePdfText w (loop_fullText texts) = inr summarizedText ->
  jsPDF_output w summarizedText = inr compressedBlob ->
  getDocument w (blob_bytes compressedBlob) = inr preview_doc ->
  getPage preview_doc 1 = inr page ->
  getContext2d page = false ->
  snd (handleCompress w s)
  = Unhandled (Error "Could not get canvas context for preview")
  /\ requests (fst (handleCompress w s)) = [Summarize (loop_fullText texts)]
  /\ st_results (replay (fst (handleCompress w s)) s) = []
  /\ st_status (replay (fst (handleCompress w s)) s) = processing
  /\ st_error (replay (fst (handleCompress w s)) s) = None.
Proof.
  intros Hfile Hfmt Hread Hdoc Htexts Hsum Hpdf Hprev Hpage Hctx.
  pose proof (extractText_result pdf_doc _ texts "" Htexts) as Hr.
  cbn [append] in Hr.
  unfold handleCompress. rewrite Hfile, complete_pair.
  unfold compressRun, startReader, readerCallback, onload.
  rewrite Hread, Hdoc, Hfmt. unfold summaryBranch, generatePdfPreview. eff.
  rewrite extractText_trace, Hr. eff. rewrite Hsum. eff. rewrite Hpdf. eff.
  rewrite Hprev. eff. rewrite Hpage. eff. rewrite Hctx. eff.
  repeat split.
Qed.

Lemma summary_run_preview_without_context_witness :
  let s := Demo.selected Demo.doc_pdf Demo.pdf_medium in
  let w := Demo.preview_without_context in
  snd (handleCompress w s)
  = Unhandled (Error "Could not get canvas context for preview")
  /\ requests (fst (handleCompress w s))
     = [Summarize (loop_fullText ["Hello world"; "Second page"; ""])]
  /\ st_results (replay (fst (handleCompress w s)) s) = []
  /\ st_status (replay (fst (handleCompress w s)) s) = processing
  /\ st_error (replay (fst (handleCompress w s)) s) = None.
Proof.
  apply (summary_run_preview_without_context Demo.preview_without_context
           (Demo.selected Demo.doc_pdf Demo.pdf_medium) Demo.doc_pdf
           Demo.source_bytes (Demo.document Demo.three_pages)
           (Demo.document [Demo.page_without_context ["short"; "text"]])
           ["Hello world"; "Second page"; ""] "short text"
           {| blob_bytes := Demo.summary_bytes;
              blob_type := "application/pdf" |}
           (Demo.page_without_context ["short"; "text"]));
    reflexivity.
Defined.

(** ** More on the size formatter *)

Lemma show_hundredths_whole (n : N) : show_hundredths (100 * n) = JS.showN n.
Proof.
  unfold show_hundredths.
  replace ((100 * n) mod 100) with 0
    by (symmetry; rewrite N.mul_comm; apply N.Div0.mod_mul).
  replace (100 * n / 100) with n
    by (symmetry; rewrite N.mul_comm; apply N.div_mul; discriminate).
  reflexivity.
Qed.

Lemma k_pow_pos (i : N) : 0 < k ^ i.
Proof. apply N.neq_0_lt_0, N.pow_nonzero. discriminate. Qed.


(** X10. A byte count from 1 to 1023 is shown exactly, as its decimal
    digits followed by " Bytes" (also "1 Bytes"). *)
Theorem formatFileSize_below_1024 (b : N) :
  1 <= b < 1024 -> formatFileSize b = JS.showN b ++ " Bytes".
Proof.
  intros [Hlo Hhi]. unfold formatFileSize.
  destruct (N.eqb_spec b 0) as [->|_]; [lia|].
  assert (Hi : unit_index b = 0).
  { unfold unit_index. apply N.div_small.
    apply N.log2_lt_pow2; [lia|]. exact Hhi. }
  rewrite Hi. cbn zeta.
  replace (toFixed2 b 0) with (100 * b).
  - rewrite show_hundredths_whole. reflexivity.
  - unfold toFixed2. change (k ^ 0) with 1.
    apply N.div_unique with (r := 1); lia.
Qed.

Lemma formatFileSize_below_1024_witness :
  1 <= 1023 < 1024 /\ formatFileSize 1023 = "1023 Bytes".
Proof.
  split; [lia|]. apply (formatFileSize_below_1024 1023). lia.
Defined.


(** X12. Below 1024^4, where a unit name is shown, the number shown for
    a positive byte count lies between 1 and 1024, both included: in
    hundredths, between 100 and 102400. The upper end is reached: one byte
    below 1024^2, 1024^3 and 1024^4 is shown as "1024" of the unit below
    (1073741823 bytes are "1024 MB", not "1 GB"). *)
Theorem formatFileSize_number_range (b i : N) :
  (1 <= b < k ^ 4 ->
   formatFileSize b
   = show_hundredths (toFixed2 b (unit_index b)) ++ " "
     ++ sizes_at (unit_index b)
   /\ unit_index b < 4
   /\ 100 <= toFixed2 b (unit_index b) <= 102400)
  /\ (i <= 2 ->
      formatFileSize (k ^ (i + 2) - 1) = "1024 " ++ sizes_at (i + 1)
      /\ k ^ (i + 2) - 1 < k ^ 4).
Proof.
  split.
  - intros [Hb Htop]. split; [|split].
    + unfold formatFileSize.
      destruct (N.eqb_spec b 0) as [->|_]; [lia|reflexivity].
    + apply unit_index_lt_4, Htop.
    + destruct (unit_index_spec b Hb) as [Hlo Hhi].
      pose proof (k_pow_pos (unit_index b)) as Hpos.
      rewrite N.add_1_r, N.pow_succ_r' in Hhi. unfold k at 1 in Hhi.
      unfold toFixed2. split.
      * apply N.div_le_lower_bound; lia.
      * apply N.lt_succ_r. apply N.Div0.div_lt_upper_bound; lia.
  - intros Hi2.
    pose proof (k_pow_pos (i + 1)) as Hpos.
    assert (Hbig : 1024 <= k ^ (i + 1)).
    { rewrite N.add_1_r, N.pow_succ_r'. unfold k at 1.
      pose proof (k_pow_pos i). lia. }
    assert (Hnext : k ^ (i + 2) = 1024 * k ^ (i + 1)).
    { replace (i + 2) with (N.succ (i + 1)) by lia.
      rewrite N.pow_succ_r'. reflexivity. }
    assert (Hi : unit_index (k ^ (i + 2) - 1) = i + 1).
    { unfold unit_index, k. change 1024 with (2 ^ 10).
      rewrite <- N.pow_mul_r, <- N.pred_sub, N.log2_pred_pow2 by lia.
      replace (N.pred (10 * (i + 2))) with (9 + (i + 1) * 10) by lia.
      rewrite N.div_add by lia. reflexivity. }
    split.
    + unfold formatFileSize.
      destruct (N.eqb_spec (k ^ (i + 2) - 1) 0) as [H0|_]; [lia|].
      rewrite Hi. cbn zeta.
      replace (toFixed2 (k ^ (i + 2) - 1) (i + 1)) with 102400; [reflexivity|].
      unfold toFixed2. rewrite Hnext.
      apply N.div_unique with (r := k ^ (i + 1) - 200); lia.
    + assert (Hle : k ^ (i + 2) <= k ^ 4)
        by (apply N.pow_le_mono_r; [discriminate | lia]).
      pose proof (k_pow_pos (i + 2)). lia.
Qed.

Lemma formatFileSize_number_range_witness :
  1 <= 1500 < k ^ 4
  /\ (formatFileSize 1500 = "1.46 KB"
      /\ unit_index 1500 < 4
      /\ 100 <= toFixed2 1500 1 <= 102400)
  /\ 1 <= 2
  /\ formatFileSize 1073741823 = "1024 MB"
  /\ 1073741823 < k ^ 4.
Proof.
  destruct (formatFileSize_number_range 1500 1) as [Hrange Htop].
  assert (H1500 : 1 <= 1500 < k ^ 4) by (split; [lia | reflexivity]).
  assert (H12 : 1 <= 2) by lia.
  split; [exact H1500|]. split; [exact (Hrange H1500)|].
  split; [exact H12 | exact (Htop H12)].
Defined.

(** ** The states the user can reach *)

Lemma resultsShown_success (s : AppState) :
  resultsShown s = true -> st_status s = success.
Proof. unfold resultsShown. destruct (st_status s); congruence. Qed.

Lemma editRow_Some (s : AppState) (es : EditingState) :
  editRow s = Some es ->
  st_editingState s = Some es /\ st_status s = success.
Proof.
  unfold editRow. destruct (st_editingState s) as [es'|]; [|discriminate].
  destruct (resultsShown s) eqn:Hshown; [|discriminate].
  destruct (Nat.ltb _ _); [|discriminate].
  cbn. intros H. injection H as ->.
  split; [reflexivity|apply resultsShown_success, Hshown].
Qed.

Lemma invariant_initial : invariant initialState.
Proof.
  repeat split; cbn; try discriminate; try reflexivity.
Qed.

(** Closes the clauses of [invariant] once the fields of the new state
    are computed. *)
Ltac invariant_clauses Hedit :=
  unfold invariant; cbn; repeat split; intros; cbn in *;
  try discriminate; try congruence; auto;
  try solve [match goal with
             | Hr : ?P -> _ /\ _, H : ?P |- _ =>
                 destruct (Hr H); assumption
             end];
  try match goal with
      | H : Some _ = Some _ |- _ => injection H as <-; cbn; eauto
      | H : st_editingState _ = Some ?es |- _ =>
          destruct (Hedit es H) as [? ?]; eauto
      end.

Lemma invariant_step (s : AppState) (a : Action) :
  invariant s -> offered s a = true -> invariant (perform s a).
Proof.
  intros (Hfile & Hres & Herr & Hproc & Hedit) Hoff.
  destruct a as [acceptedFiles| |f|l|w|i|value|w|]; cbn [offered perform] in *.
  - (* Drop *)
    destruct (st_file s) eqn:Hf; [discriminate Hoff|].
    specialize (Hfile eq_refl).
    destruct (Hres ltac:(congruence)) as [Hr He].
    unfold onDrop. destruct acceptedFiles as [|selectedFile rest];
      [cbn; invariant_clauses Hedit|].
    destruct (String.eqb (file_type selectedFile) "application/pdf");
      cbn; rewrite ?Hf, ?Hfile, ?Hr, ?He; invariant_clauses Hedit.
  - (* ChangeFile *)
    cbn. invariant_clauses Hedit.
  - (* PickFormat *)
    cbn. invariant_clauses Hedit.
  - (* PickLevel *)
    cbn. invariant_clauses Hedit.
  - (* Compress *)
    destruct (st_file s) as [file|] eqn:Hf; [|discriminate Hoff].
    destruct (handleCompress_shape w s file Hf)
      as [quiet e Hq|msg|quiet final Hq]; cbn [fst].
    + destruct (replay_run_start_quiet quiet s Hq)
        as (H1 & _ & H3 & H4 & H5 & H6).
      unfold invariant. rewrite H1, H3, H4, H5, H6, Hf.
      invariant_clauses Hedit.
    + cbn. rewrite Hf. invariant_clauses Hedit.
    + destruct (replay_run_succeeded quiet final s Hq)
        as (H1 & _ & H3 & H4 & H5 & H6).
      unfold invariant. rewrite H1, H3, H4, H5, H6, Hf.
      invariant_clauses Hedit.
  - (* OpenEdit *)
    rewrite !andb_true_iff in Hoff. destruct Hoff as [[Hshown Himg] Hnone].
    apply resultsShown_success in Hshown.
    destruct (st_results s !! i) as [res|] eqn:Hlook; [|discriminate Himg].
    invariant_clauses Hedit.
  - (* TypePrompt *)
    destruct (editRow s) as [es|] eqn:Hrow; [|discriminate Hoff].
    apply editRow_Some in Hrow as [Hes Hst].
    rewrite Hes. destruct (Hedit es Hes) as [Hload Himg].
    invariant_clauses Hedit.
  - (* Apply *)
    destruct (editRow s) as [es|] eqn:Hrow; [|discriminate Hoff].
    apply editRow_Some in Hrow as [Hes Hst].
    destruct (Hedit es Hes) as [Hload [res [Hlook Himg]]].
    destruct (handleApplyEdit_cases w s es Hes)
      as [(request & updatedFile & -> & Hlt) | (called & msg & -> & Hlen)];
      cbn [fst].
    + invariant_clauses Hedit.
    + rewrite !replay_app, replay_called. invariant_clauses Hedit.
  - (* Cancel *)
    destruct (editRow s) as [es|] eqn:Hrow; [|discriminate Hoff].
    apply editRow_Some in Hrow as [Hes Hst].
    invariant_clauses Hedit.
Qed.

Lemma reachable_invariant (s : AppState) : reachable s -> invariant s.
Proof.
  induction 1 as [|s a _ IH Hoff];
    [apply invariant_initial | exact (invariant_step s a IH Hoff)].
Qed.

(** X13. The Apply button guards the handler. Whenever it is rendered and
    enabled, an edit session is open on a shown results list, is not in
    flight, has a non-empty instruction and points at an existing
    artifact; so the handler of that render neither raises the
    empty-instruction error nor reads a missing [results[index]]: it
    either sends the payload and the MIME text of that artifact with the
    instruction to the service first, or asks nothing and reports one of
    the two data URL errors. *)
Theorem offered_apply_edit_passes_validation (w : World) (s : AppState) :
  offered s (Apply w) = true ->
  exists es originalFile,
    st_editingState s = Some es
    /\ st_status s = success
    /\ isLoading es = false
    /\ prompt es <> ""
    /\ st_results s !! index es = Some originalFile
    /\ ((exists parts0 base64Data mimeType,
           JS.split_comma (dataUrl originalFile) = [parts0; base64Data]
           /\ JS.match_mime parts0 = Some mimeType
           /\ hd_error (requests (fst (handleApplyEdit w s)))
              = Some (EditImage base64Data mimeType (prompt es)))
        \/ (exists msg,
              (msg = "Invalid Data URL"
               \/ msg = "Could not determine MIME type")
              /\ handleApplyEdit w s
                 = ([SetEditingState (Some (with_isLoading es true));
                     SetError None; SetError (Some msg);
                     SetEditingState (Some (with_isLoading es false))],
                    Returned))).
Proof.
  cbn [offered]. intros Hoff.
  destruct (editRow s) as [es|] eqn:Hrow; [|discriminate Hoff].
  apply negb_true_iff, orb_false_iff in Hoff as [Hload Hprompt].
  pose proof Hrow as Hrow'. apply editRow_Some in Hrow' as [Hes Hst].
  unfold editRow in Hrow. rewrite Hes in Hrow.
  destruct (resultsShown s && Nat.ltb (index es) (length (st_results s)))
    eqn:Hguard; [|discriminate Hrow].
  apply andb_true_iff in Hguard as [_ Hlt]. apply Nat.ltb_lt in Hlt.
  destruct (lookup_lt_is_Some_2 (st_results s) (index es) Hlt)
    as [originalFile Hfile].
  exists es, originalFile.
  split; [exact Hes|]. split; [exact Hst|]. split; [exact Hload|].
  split; [apply String.eqb_neq, Hprompt|]. split; [exact Hfile|].
  unfold handleApplyEdit. rewrite Hes.
  destruct (JS.split_comma (dataUrl originalFile))
    as [|parts0 [|base64Data [|extra parts]]] eqn:Hsplit;
    try (right; exists "Invalid Data URL"; split; [left; reflexivity|];
         unfold applyEditRun, applyEditBody;
         rewrite Hprompt, Hfile, Hsplit; reflexivity).
  destruct (JS.match_mime parts0) as [mimeType|] eqn:Hmime.
  - left. exists parts0, base64Data, mimeType.
    split; [reflexivity|]. split; [exact Hmime|].
    rewrite fst_complete. unfold applyEditRun.
    rewrite (applyEditBody_request w (st_results s) es originalFile parts0
               base64Data mimeType (proj1 (String.eqb_neq _ _) Hprompt)
               Hfile Hsplit Hmime).
    rewrite !fst_bind. cbn [emit fst snd app].
    rewrite fst_try_catch, !fst_bind. cbn [emit fst snd app requests hd_error].
    reflexivity.
  - right. exists "Could not determine MIME type". split; [right; reflexivity|].
    unfold applyEditRun, applyEditBody.
    rewrite Hprompt, Hfile, Hsplit, Hmime. reflexivity.
Qed.

Lemma offered_apply_edit_passes_validation_witness :
  exists es originalFile,
    st_editingState (Demo.editing_page_2 "grayscale") = Some es
    /\ st_status (Demo.editing_page_2 "grayscale") = success
    /\ isLoading es = false
    /\ prompt es <> ""
    /\ st_results (Demo.editing_page_2 "grayscale") !! index es
       = Some originalFile
    /\ ((exists parts0 base64Data mimeType,
           JS.split_comma (dataUrl originalFile) = [parts0; base64Data]
           /\ JS.match_mime parts0 = Some mimeType
           /\ hd_error
                (requests
                   (fst (handleApplyEdit Demo.world
                           (Demo.editing_page_2 "grayscale"))))
              = Some (EditImage base64Data mimeType (prompt es)))
        \/ (exists msg,
              (msg = "Invalid Data URL"
               \/ msg = "Could not determine MIME type")
              /\ handleApplyEdit Demo.world (Demo.editing_page_2 "grayscale")
                 = ([SetEditingState (Some (with_isLoading es true));
                     SetError None; SetError (Some msg);
                     SetEditingState (Some (with_isLoading es false))],
                    Returned))).
Proof.
  apply (offered_apply_edit_passes_validation Demo.world
           (Demo.editing_page_2 "grayscale")).
  reflexivity.
Defined.

(** X14. The status table is not kept by the application. "Change file"
    stays enabled during a compression run; clicked while the file is
    being read, it resets the state, and a run that then succeeds still
    publishes: the application ends in the success status with the
    artifacts of the run and no file selected, outside the table that
    [invariant] states. *)
Theorem change_file_during_run_still_publishes (w : World) (s : AppState)
    (file : File) :
  st_file s = Some file ->
  st_status (replay (fst (handleCompress w s)) s) = success ->
  let started := replay run_start s in
  let after := change_file_during_run w s in
  offered started ChangeFile = true
  /\ st_file after = None
  /\ st_status after = success
  /\ st_results after = st_results (replay (fst (handleCompress w s)) s)
  /\ st_error after = None
  /\ st_editingState after = None
  /\ ~ invariant after.
Proof.
  intros Hfile Hok started after. subst started after.
  unfold change_file_during_run.
  destruct (handleCompress_shape w s file Hfile)
    as [quiet e Hq|msg|quiet final Hq]; cbn [fst] in *.
  - destruct (replay_run_start_quiet quiet s Hq) as (_ & _ & Hst & _).
    rewrite Hst in Hok. discriminate Hok.
  - discriminate Hok.
  - destruct (replay_run_succeeded quiet final s Hq)
      as (_ & _ & _ & -> & _ & _).
    rewrite firstn_app, firstn_all, Nat.sub_diag, firstn_0, app_nil_r.
    rewrite skipn_app, skipn_all, Nat.sub_diag, skipn_0. cbn [app].
    rewrite replay_app.
    destruct (replay_silent quiet (commit handleReset (replay run_start s)) Hq)
      as (Hf & Ho & Hs & Hr & He & Hes).
    assert (Hend : forall s0,
               st_file (replay [SetResults final; SetStatus success] s0)
               = st_file s0
               /\ st_status (replay [SetResults final; SetStatus success] s0)
                  = success
               /\ st_results (replay [SetResults final; SetStatus success] s0)
                  = final
               /\ st_error (replay [SetResults final; SetStatus success] s0)
                  = st_error s0
               /\ st_editingState
                    (replay [SetResults final; SetStatus success] s0)
                  = st_editingState s0)
      by (intros s0; repeat split).
    destruct (Hend (replay quiet (commit handleReset (replay run_start s))))
      as (H1 & H2 & H3 & H4 & H5).
    rewrite H1, H2, H3, H4, H5, Hf, He, Hes.
    split; [cbn; rewrite Hfile; reflexivity|].
    repeat split.
    intros (Hidle & _). rewrite H1, H2, Hf in Hidle.
    specialize (Hidle eq_refl). discriminate Hidle.
Qed.

Lemma change_file_during_run_still_publishes_witness :
  let s := Demo.selected Demo.doc_pdf Demo.jpeg_high in
  let started := replay run_start s in
  let after := change_file_during_run Demo.world s in
  offered started ChangeFile = true
  /\ st_file after = None
  /\ st_status after = success
  /\ st_results after = st_results (replay (fst (handleCompress Demo.world s)) s)
  /\ st_error after = None
  /\ st_editingState after = None
  /\ ~ invariant after.
Proof.
  apply (change_file_during_run_still_publishes Demo.world
           (Demo.selected Demo.doc_pdf Demo.jpeg_high) Demo.doc_pdf);
    reflexivity.
Defined.

(** X15. In a reachable state in the processing status (where a rejected
    run leaves the application) the user cannot compress again: the
    compress button is disabled, "Change file" is offered, and every
    other action still offered keeps the processing status. *)
Theorem reachable_processing_is_stuck (s : AppState) :
  reachable s ->
  st_status s = processing ->
  (forall w, offered s (Compress w) = false)
  /\ offered s ChangeFile = true
  /\ forall a,
       offered s a = true ->
       a = ChangeFile \/ st_status (perform s a) = processing.
Proof.
  intros Hreach Hst.
  destruct (reachable_invariant s Hreach) as (Hfile & _).
  assert (Hshown : resultsShown s = false)
    by (unfold resultsShown; rewrite Hst; reflexivity).
  assert (Hrow : editRow s = None).
  { unfold editRow. rewrite Hshown. destruct (st_editingState s); reflexivity. }
  destruct (st_file s) as [file|] eqn:Hf;
    [|specialize (Hfile eq_refl); congruence].
  split; [intros w; cbn; rewrite Hf, Hst; reflexivity|].
  split; [cbn; rewrite Hf; reflexivity|].
  intros a Hoff.
  destruct a as [acceptedFiles| |f|l|w|i|value|w|];
    cbn [offered] in Hoff; rewrite ?Hf, ?Hst, ?Hshown, ?Hrow in Hoff;
    try discriminate Hoff;
    [left; reflexivity | right; exact Hst | right; exact Hst].
Qed.

Lemma reachable_corrupt :
  reachable (Demo.compressed Demo.corrupt
               (Demo.selected Demo.doc_pdf {| format := jpeg; level := medium |})).
Proof.
  change (reachable
            (perform (perform initialState (Drop [Demo.doc_pdf]))
               (Compress Demo.corrupt))).
  repeat (apply reachable_step; [|reflexivity]).
  apply reachable_initial.
Qed.

Lemma reachable_processing_is_stuck_witness :
  let s := Demo.compressed Demo.corrupt
             (Demo.selected Demo.doc_pdf {| format := jpeg; level := medium |}) in
  (forall w, offered s (Compress w) = false)
  /\ offered s ChangeFile = true
  /\ forall a,
       offered s a = true ->
       a = ChangeFile \/ st_status (perform s a) = processing.
Proof.
  apply (reachable_processing_is_stuck _ reachable_corrupt). reflexivity.
Defined.

(** ** Which artifacts can be edited *)

Lemma length_append (s t : string) :
  String.length (s ++ t) = (String.length s + String.length t)%nat.
Proof. induction s as [|c s IH]; cbn; [|rewrite IH]; reflexivity. Qed.

Lemma endsWith_app_same (p s : string) : endsWith p (s ++ p) = true.
Proof.
  induction s as [|c s IH].
  - cbn [append]. destruct p; cbn; rewrite ?Ascii.eqb_refl, ?String.eqb_refl;
      reflexivity.
  - cbn [append endsWith]. rewrite IH. apply orb_true_r.
Qed.

Lemma endsWith_suffix (p s : string) :
  endsWith p s = true -> exists stem, s = stem ++ p.
Proof.
  induction s as [|c s IH]; cbn [endsWith]; rewrite orb_true_iff.
  - intros [H|H]; [|discriminate H].
    apply String.eqb_eq in H as ->. exists "". reflexivity.
  - intros [H|H].
    + apply String.eqb_eq in H as ->. exists "". reflexivity.
    + destruct (IH H) as [stem ->]. exists (String c stem). reflexivity.
Qed.

Lemma endsWith_app_long (p s t : string) :
  (String.length p <= String.length t)%nat ->
  endsWith p (s ++ t) = endsWith p t.
Proof.
  intros Hlen. induction s as [|c s IH]; [reflexivity|].
  cbn [append endsWith]. rewrite IH.
  destruct (String.eqb_spec p (String c (s ++ t))) as [->|_]; [|reflexivity].
  cbn [String.length] in Hlen. rewrite length_append in Hlen. lia.
Qed.

Lemma isImage_pageName (file : File) (options : CompressionOptions) (i : nat)
    (pf : ProcessedFile) :
  format options <> pdf ->
  name pf = pageName file options i ->
  isImage pf = true.
Proof.
  intros Hfmt Hname. unfold isImage. rewrite Hname. unfold pageName.
  rewrite <- !append_assoc.
  rewrite (append_assoc _ "." (format_text (format options))).
  destruct (format options); [| |congruence]; cbn [format_text append].
  - rewrite (endsWith_app_same ".jpeg"). reflexivity.
  - rewrite (endsWith_app_same ".png"). apply orb_true_r.
Qed.

Lemma map_eq_Forall {A B C} (f : A -> C) (g : B -> C) (l : list A) :
  forall l' : list B,
  map f l = map g l' -> Forall (fun x => exists y, f x = g y) l.
Proof.
  induction l as [|x l IH]; intros [|y l'] H; try discriminate H;
    constructor.
  - injection H as Hx _. eauto.
  - injection H as _ Hl. eauto.
Qed.

(** X16. After an image-mode run every published artifact is an image in
    the eyes of the view, and when the run ends in the success status the
    edit control of every one of them is offered. *)
Theorem image_run_artifacts_editable (w : World) (s : AppState)
    (file : File) :
  st_file s = Some file ->
  format (st_options s) <> pdf ->
  let after := replay (fst (handleCompress w s)) s in
  Forall (fun res => isImage res = true) (st_results after)
  /\ (st_status after = success ->
      forall i, (i < length (st_results after))%nat ->
                offered after (OpenEdit i) = true).
Proof.
  intros Hfile Hfmt after.
  assert (Himages : Forall (fun res => isImage res = true) (st_results after)).
  { subst after.
    destruct (readAsArrayBuffer w file) as [e|[typedarray|]|] eqn:Hread;
      try (unfold handleCompress, compressRun, startReader, readerCallback,
             onload, onerror;
           rewrite Hfile, Hread; constructor).
    destruct (getDocument w typedarray) as [e|pdf_doc] eqn:Hdoc;
      [unfold handleCompress, compressRun, startReader, readerCallback, onload;
       rewrite Hfile, Hread, Hdoc; constructor|].
    unfold handleCompress. rewrite Hfile.
    rewrite (compressRun_image w file (st_options s) typedarray pdf_doc)
      by assumption.
    pose proof (convertPages_silent w file (st_options s) pdf_doc
                  (seq 1 (numPages pdf_doc)) []) as Hsilent.
    destruct (snd (convertPages _ _ _ _ _ _)) as [e|out] eqn:Hout;
      cbn [complete fst].
    - destruct (replay_run_start_quiet _ s Hsilent) as (_ & _ & _ & H & _).
      unfold run_start in H. rewrite H. constructor.
    - destruct (replay_run_succeeded _ out s Hsilent) as (_ & _ & _ & H & _).
      unfold run_start in H. rewrite H.
      destruct (convertPages_result _ _ _ _ _ _ _ Hout)
        as (added & Hadd & Hnames & _).
      cbn [app] in Hadd. subst out.
      eapply List.Forall_impl; [|exact (map_eq_Forall _ _ _ _ Hnames)].
      intros pf [i Hi]. exact (isImage_pageName file _ i pf Hfmt Hi). }
  split; [exact Himages|].
  intros Hst i Hi.
  destruct (compress_frame_fields w s file Hfile) as (_ & _ & Hnone).
  fold after in Hnone.
  cbn [offered]. unfold resultsShown. rewrite Hst, Hnone.
  destruct (lookup_lt_is_Some_2 (st_results after) i Hi) as [res Hres].
  rewrite Hres.
  rewrite List.Forall_forall in Himages.
  rewrite (Himages res) by (eapply list_elem_of_In, list_elem_of_lookup_2, Hres).
  destruct (st_results after); [cbn in Hi; lia|reflexivity].
Qed.

Lemma image_run_artifacts_editable_witness :
  let after := Demo.converted in
  Forall (fun res => isImage res = true) (st_results after)
  /\ (st_status after = success ->
      forall i, (i < length (st_results after))%nat ->
                offered after (OpenEdit i) = true).
Proof.
  apply (image_run_artifacts_editable Demo.world
           (Demo.selected Demo.doc_pdf Demo.jpeg_high) Demo.doc_pdf);
    [reflexivity | discriminate].
Defined.

(** The results of a summary-mode run: nothing, or artifacts named after
    the summary. *)
Lemma summary_run_results_named (w : World) (s : AppState) (file : File) :
  st_file s = Some file ->
  format (st_options s) = pdf ->
  Forall (fun res => name res = originalBaseName file ++ "_summary.pdf")
    (st_results (replay (fst (handleCompress w s)) s)).
Proof.
  intros Hfile Hfmt.
  unfold handleCompress. rewrite Hfile, fst_complete.
  unfold compressRun, startReader, readerCallback, onload, onerror.
  destruct (readAsArrayBuffer w file) as [e|[typedarray|]|]; eff;
    try (cbn; constructor).
  destruct (getDocument w typedarray) as [e|pdf_doc]; eff;
    [cbn; constructor|].
  rewrite Hfmt. unfold summaryBranch. eff. rewrite extractText_trace.
  destruct (snd (extractText _ _ _)) as [e|fullText]; eff;
    [cbn; constructor|].
  destruct (summarizePdfText w fullText) as [e|summarizedText]; eff;
    [cbn; constructor|].
  destruct (jsPDF_output w summarizedText) as [e|blob]; eff;
    [cbn; constructor|].
  unfold generatePdfPreview. eff.
  destruct (getDocument w (blob_bytes blob)) as [e|preview_doc]; eff;
    [cbn; constructor|].
  destruct (getPage preview_doc 1) as [e|page]; eff; [cbn; constructor|].
  destruct (getContext2d page); eff; [|cbn; constructor].
  unfold await_render.
  destruct (render page); eff; cbn; repeat constructor.
Qed.

(** X17. After a summary-mode run the edit control is offered for no
    artifact: the summary PDF is not an image in the eyes of the view. *)
Theorem summary_artifact_not_editable (w : World) (s : AppState)
    (file : File) (i : nat) :
  st_file s = Some file ->
  format (st_options s) = pdf ->
  offered (replay (fst (handleCompress w s)) s) (OpenEdit i) = false.
Proof.
  intros Hfile Hfmt.
  pose proof (summary_run_results_named w s file Hfile Hfmt) as Hnamed.
  cbn [offered].
  destruct (st_results _ !! i) as [res|] eqn:Hres;
    [|rewrite andb_false_r; reflexivity].
  rewrite List.Forall_forall in Hnamed.
  assert (Hname : name res = originalBaseName file ++ "_summary.pdf")
    by (apply Hnamed; eapply list_elem_of_In, list_elem_of_lookup_2, Hres).
  unfold isImage. rewrite Hname.
  rewrite !endsWith_app_long by (cbn; lia).
  cbn. rewrite andb_false_r. reflexivity.
Qed.

Lemma summary_artifact_not_editable_witness :
  st_results Demo.summarized <> []
  /\ offered Demo.summarized (OpenEdit 0) = false.
Proof.
  split; [discriminate|].
  apply (summary_artifact_not_editable Demo.world
           (Demo.selected Demo.doc_pdf Demo.pdf_medium) Demo.doc_pdf 0);
    reflexivity.
Defined.

Lemma isImage_edited (pf updated : ProcessedFile) :
  isImage pf = true ->
  name updated = JS.replace_extension_edited (name pf) ->
  isImage updated = true.
Proof.
  unfold isImage. rewrite orb_true_iff. intros [H|H] ->;
    apply endsWith_suffix in H as [stem ->].
  - change (stem ++ ".jpeg") with (stem ++ "." ++ "jpeg").
    rewrite replace_extension_edited_spec by (reflexivity || discriminate).
    replace (stem ++ "_edited." ++ "jpeg") with ((stem ++ "_edited") ++ ".jpeg")
      by (rewrite append_assoc; reflexivity).
    rewrite endsWith_app_same. reflexivity.
  - change (stem ++ ".png") with (stem ++ "." ++ "png").
    rewrite replace_extension_edited_spec by (reflexivity || discriminate).
    replace (stem ++ "_edited." ++ "png") with ((stem ++ "_edited") ++ ".png")
      by (rewrite append_assoc; reflexivity).
    rewrite endsWith_app_same. apply orb_true_r.
Qed.

(** X18. An image stays an image when edited: after a successful
    apply-edit on an artifact the view shows as an image, the renamed
    artifact is an image again and its edit control is offered anew. *)
Theorem edited_image_stays_editable (w : World) (s : AppState)
    (es : EditingState) (originalFile : ProcessedFile)
    (parts0 base64Data mimeType newBase64Data : string) (newBlob : Blob) :
  st_editingState s = Some es ->
  prompt es <> "" ->
  st_results s !! index es = Some originalFile ->
  JS.split_comma (dataUrl originalFile) = [parts0; base64Data] ->
  JS.match_mime parts0 = Some mimeType ->
  editImageWithText w base64Data mimeType (prompt es) = inr newBase64Data ->
  snd (dataURLToBlob w ("data:" ++ mimeType ++ ";base64," ++ newBase64Data))
  = inr newBlob ->
  isImage originalFile = true ->
  st_status s = success ->
  let after := replay (fst (handleApplyEdit w s)) s in
  (exists updated,
     st_results after !! index es = Some updated /\ isImage updated = true)
  /\ offered after (OpenEdit (index es)) = true.
Proof.
  intros Hes Hprompt Hfile Hsplit Hmime Hremote Hblob Himg Hst after.
  subst after.
  rewrite (handleApplyEdit_success w s es originalFile parts0 base64Data
             mimeType newBase64Data newBlob) by assumption.
  pose proof (lookup_lt_Some _ _ _ Hfile) as Hlt.
  cbn [fst replay fold_left apply_event st_results st_status st_editingState
         offered].
  set (updated := {| name := JS.replace_extension_edited (name originalFile);
                     dataUrl := _; previewUrl := _; originalSize := _;
                     compressedSize := _ |}).
  assert (Hup : isImage updated = true)
    by (apply (isImage_edited originalFile); [exact Himg|reflexivity]).
  rewrite (list_lookup_insert_eq (st_results s) (index es) updated Hlt).
  split; [eauto|].
  unfold resultsShown. cbn [st_status st_results]. rewrite Hst, Hup.
  rewrite length_insert.
  destruct (st_results s); [cbn in Hlt; lia|reflexivity].
Qed.

Lemma edited_image_stays_editable_witness :
  let s := Demo.editing_page_2 "grayscale" in
  let after := replay (fst (handleApplyEdit Demo.world s)) s in
  (exists updated,
     st_results after !! 1%nat = Some updated /\ isImage updated = true)
  /\ offered after (OpenEdit 1) = true.
Proof.
  apply (edited_image_stays_editable Demo.world
           (Demo.editing_page_2 "grayscale")
           {| index := 1; prompt := "grayscale"; isLoading := false |}
           {| name := "doc_page_2.jpeg";
              dataUrl := "data:image/jpeg;base64,/9j/4AAQ";
              previewUrl := Some "data:image/jpeg;base64,/9j/4AAQ";
              originalSize := 16667;
              compressedSize := 6 |}
           "data:image/jpeg;base64" "/9j/4AAQ" "image/jpeg"
           "R0lGODlhAQABAAAAACw="
           {| blob_bytes :=
                map byte_of_ascii
                  (list_ascii_of_string
                     match Demo.base64_decode "R0lGODlhAQABAAAAACw=" with
                     | inr bstr => bstr
                     | inl _ => ""
                     end);
              blob_type := "image/jpeg" |});
    solve [reflexivity | discriminate].
Defined.

(** ** The total of the compressed sizes *)

Lemma fold_sum_init (l : list ProcessedFile) (a : N) :
  fold_left (fun sum r => sum + compressedSize r) l a
  = a + fold_left (fun sum r => sum + compressedSize r) l 0.
Proof.
  revert a. induction l as [|x l IH]; intros a; cbn [fold_left]; [lia|].
  rewrite (IH (a + compressedSize x)), (IH (0 + compressedSize x)). lia.
Qed.

Lemma fold_sum_insert (l : list ProcessedFile) :
  forall (i : nat) (old new : ProcessedFile),
  l !! i = Some old ->
  fold_left (fun sum r => sum + compressedSize r) (<[i := new]> l) 0
  + compressedSize old
  = fold_left (fun sum r => sum + compressedSize r) l 0 + compressedSize new.
Proof.
  induction l as [|x l IH]; intros i old new Hlook; [discriminate Hlook|].
  destruct i as [|i]; cbn in Hlook |- *.
  - injection Hlook as ->.
    rewrite !(fold_sum_init _ (_ + _)). lia.
  - rewrite !(fold_sum_init _ (_ + _)).
    specialize (IH i old new Hlook).
    rewrite <- !N.add_assoc. f_equal. f_equal. exact IH.
Qed.

(** X19. A successful apply-edit changes the total compressed size shown
    by the view by exactly the difference between the byte length of the
    new blob and the compressed size of the replaced artifact; the total
    original size is unchanged. *)
Theorem apply_edit_total_compressed (w : World) (s : AppState)
    (es : EditingState) (originalFile : ProcessedFile)
    (parts0 base64Data mimeType newBase64Data : string) (newBlob : Blob) :
  st_editingState s = Some es ->
  prompt es <> "" ->
  st_results s !! index es = Some originalFile ->
  JS.split_comma (dataUrl originalFile) = [parts0; base64Data] ->
  JS.match_mime parts0 = Some mimeType ->
  editImageWithText w base64Data mimeType (prompt es) = inr newBase64Data ->
  snd (dataURLToBlob w ("data:" ++ mimeType ++ ";base64," ++ newBase64Data))
  = inr newBlob ->
  let after := replay (fst (handleApplyEdit w s)) s in
  totalCompressedSize after + compressedSize originalFile
  = totalCompressedSize s + N.of_nat (length (blob_bytes newBlob))
  /\ totalOriginalSize after = totalOriginalSize s.
Proof.
  intros Hes Hprompt Hfile Hsplit Hmime Hremote Hblob after. subst after.
  rewrite (handleApplyEdit_success w s es originalFile parts0 base64Data
             mimeType newBase64Data newBlob) by assumption.
  unfold totalCompressedSize, totalOriginalSize.
  cbn [fst replay fold_left apply_event st_results st_file].
  split; [|reflexivity].
  rewrite (fold_sum_insert (st_results s) (index es) originalFile _ Hfile).
  reflexivity.
Qed.

Lemma apply_edit_total_compressed_witness :
  let s := Demo.editing_page_2 "grayscale" in
  let after := replay (fst (handleApplyEdit Demo.world s)) s in
  totalCompressedSize after + 6 = totalCompressedSize s + 14
  /\ totalOriginalSize after = totalOriginalSize s.
Proof.
  apply (apply_edit_total_compressed Demo.world
           (Demo.editing_page_2 "grayscale")
           {| index := 1; prompt := "grayscale"; isLoading := false |}
           {| name := "doc_page_2.jpeg";
              dataUrl := "data:image/jpeg;base64,/9j/4AAQ";
              previewUrl := Some "data:image/jpeg;base64,/9j/4AAQ";
              originalSize := 16667;
              compressedSize := 6 |}
           "data:image/jpeg;base64" "/9j/4AAQ" "image/jpeg"
           "R0lGODlhAQABAAAAACw="
           {| blob_bytes :=
                map byte_of_ascii
                  (list_ascii_of_string
                     match Demo.base64_decode "R0lGODlhAQABAAAAACw=" with
                     | inr bstr => bstr
                     | inl _ => ""
                     end);
              blob_type := "image/jpeg" |});
    solve [reflexivity | discriminate].
Defined.

(** ** Artifact names *)

Lemma show_inj (i j : nat) : JS.show i = JS.show j -> i = j.
Proof.
  unfold JS.show, JS.showN. intros H.
  apply (f_equal NilEmpty.uint_of_string) in H.
  rewrite !NilEmpty.usu in H. injection H as H.
  apply (f_equal N.of_uint) in H. rewrite !Unsigned.of_to in H. lia.
Qed.

Lemma append_inj_l (a b c : string) : a ++ b = a ++ c -> b = c.
Proof.
  induction a as [|x a IH]; cbn; [auto|].
  intros H. injection H as H. auto.
Qed.

Lemma append_inj_r (c : string) :
  forall a b : string, a ++ c = b ++ c -> a = b.
Proof.
  intros a b H.
  assert (Hlen : String.length a = String.length b).
  { apply (f_equal String.length) in H. rewrite !length_append in H. lia. }
  revert b H Hlen.
  induction a as [|x a IH]; intros [|y b] H Hlen; try discriminate Hlen;
    [reflexivity|].
  cbn in H, Hlen. injection H as -> H. f_equal. apply IH; [exact H|lia].
Qed.

Lemma pageName_inj (file : File) (options : CompressionOptions) (i j : nat) :
  pageName file options i = pageName file options j -> i = j.
Proof.
  unfold pageName. intros H.
  apply append_inj_l, append_inj_l, append_inj_r in H.
  apply show_inj, H.
Qed.

(** X20. The artifacts published by an image-mode run have pairwise
    distinct names (the view uses the name as the key of a row). *)
Theorem image_run_names_distinct (w : World) (s : AppState) (file : File) :
  st_file s = Some file ->
  format (st_options s) <> pdf ->
  List.NoDup (map name (st_results (replay (fst (handleCompress w s)) s))).
Proof.
  intros Hfile Hfmt.
  destruct (readAsArrayBuffer w file) as [e|[typedarray|]|] eqn:Hread;
    try (unfold handleCompress, compressRun, startReader, readerCallback,
           onload, onerror;
         rewrite Hfile, Hread; constructor).
  destruct (getDocument w typedarray) as [e|pdf_doc] eqn:Hdoc;
    [unfold handleCompress, compressRun, startReader, readerCallback, onload;
     rewrite Hfile, Hread, Hdoc; constructor|].
  unfold handleCompress. rewrite Hfile.
  rewrite (compressRun_image w file (st_options s) typedarray pdf_doc)
    by assumption.
  pose proof (convertPages_silent w file (st_options s) pdf_doc
                (seq 1 (numPages pdf_doc)) []) as Hsilent.
  destruct (snd (convertPages _ _ _ _ _ _)) as [e|out] eqn:Hout;
    cbn [complete fst].
  - destruct (replay_run_start_quiet _ s Hsilent) as (_ & _ & _ & H & _).
    unfold run_start in H. rewrite H. constructor.
  - destruct (replay_run_succeeded _ out s Hsilent) as (_ & _ & _ & H & _).
    unfold run_start in H. rewrite H.
    destruct (convertPages_result _ _ _ _ _ _ _ Hout)
      as (added & Hadd & Hnames & _).
    cbn [app] in Hadd. subst out. rewrite Hnames.
    apply List.NoDup_map_NoDup_ForallPairs.
    + intros i j _ _. apply pageName_inj.
    + apply List.NoDup_filter, List.seq_NoDup.
Qed.

Lemma image_run_names_distinct_witness :
  List.NoDup (map name (st_results Demo.converted)).
Proof.
  apply (image_run_names_distinct Demo.world
           (Demo.selected Demo.doc_pdf Demo.jpeg_high) Demo.doc_pdf);
    [reflexivity | discriminate].
Defined.

(** ** More on failure, publication and renaming *)

(** X21. Any rejection inside the reader callback (decode, page fetch,
    render, encode, summarization, PDF writing, preview) is unhandled:
    the run is left in the processing status with no error message and
    with empty results. *)
Theorem rejected_run_left_processing (w : World) (s : AppState)
    (file : File) (e : JsError) :
  st_file s = Some file ->
  snd (handleCompress w s) = Unhandled e ->
  st_status (replay (fst (handleCompress w s)) s) = processing
  /\ st_error (replay (fst (handleCompress w s)) s) = None
  /\ st_results (replay (fst (handleCompress w s)) s) = [].
Proof. apply handleCompress_rejection_not_reported. Qed.

Lemma rejected_run_left_processing_witness :
  let s := Demo.selected Demo.doc_pdf Demo.jpeg_high in
  let w := Demo.world_of [Demo.page ["Hello"] "not*base64"]
             (fun _ _ _ => inr "") in
  st_status (replay (fst (handleCompress w s)) s) = processing
  /\ st_error (replay (fst (handleCompress w s)) s) = None
  /\ st_results (replay (fst (handleCompress w s)) s) = [].
Proof.
  apply (rejected_run_left_processing
           (Demo.world_of [Demo.page ["Hello"] "not*base64"]
              (fun _ _ _ => inr ""))
           (Demo.selected Demo.doc_pdf Demo.jpeg_high) Demo.doc_pdf
           (Error "The string to be decoded is not correctly encoded."));
    reflexivity.
Defined.

(** X22. During a run on a selected file [setResults] is called with the
    empty list at the start and at most once more; the second call is
    made only by a run that returns in the success status, with the
    final list. The results are never assigned page by page. *)
Theorem results_assigned_at_most_twice (w : World) (s : AppState)
    (file : File) :
  st_file s = Some file ->
  results_assignments (fst (handleCompress w s)) (st_results s) = [[]]
  \/ exists final,
       results_assignments (fst (handleCompress w s)) (st_results s)
       = [[]; final]
       /\ snd (handleCompress w s) = Returned
       /\ st_status (replay (fst (handleCompress w s)) s) = success
       /\ st_results (replay (fst (handleCompress w s)) s) = final.
Proof. apply handleCompress_results_assignments. Qed.

Lemma results_assigned_at_most_twice_witness :
  let s := Demo.converted in
  results_assignments (fst (handleCompress Demo.world s)) (st_results s) = [[]]
  \/ exists final,
       results_assignments (fst (handleCompress Demo.world s)) (st_results s)
       = [[]; final]
       /\ snd (handleCompress Demo.world s) = Returned
       /\ st_status (replay (fst (handleCompress Demo.world s)) s) = success
       /\ st_results (replay (fst (handleCompress Demo.world s)) s) = final.
Proof.
  apply (results_assigned_at_most_twice Demo.world Demo.converted
           Demo.doc_pdf).
  reflexivity.
Defined.

(** X23. Every image-mode run that ends in the success status has read
    and decoded the file and published exactly one artifact for each page
    whose canvas gave a 2D context, in page order; the pages without a
    context are skipped. *)
Theorem successful_image_run_skips_pages_without_context (w : World)
    (s : AppState) (file : File) :
  st_file s = Some file ->
  format (st_options s) <> pdf ->
  st_status (replay (fst (handleCompress w s)) s) = success ->
  exists typedarray pdf_doc,
    readAsArrayBuffer w file = Loaded (Some typedarray)
    /\ getDocument w typedarray = inr pdf_doc
    /\ map name (st_results (replay (fst (handleCompress w s)) s))
       = map (pageName file (st_options s))
           (List.filter (has_context pdf_doc) (seq 1 (numPages pdf_doc))).
Proof. apply image_run_success_names. Qed.

Lemma successful_image_run_skips_pages_without_context_witness :
  let s := Demo.selected Demo.doc_pdf Demo.jpeg_high in
  exists typedarray pdf_doc,
    readAsArrayBuffer Demo.lost_context Demo.doc_pdf = Loaded (Some typedarray)
    /\ getDocument Demo.lost_context typedarray = inr pdf_doc
    /\ map name (st_results (replay (fst (handleCompress Demo.lost_context s)) s))
       = map (pageName Demo.doc_pdf Demo.jpeg_high)
           (List.filter (has_context pdf_doc) (seq 1 (numPages pdf_doc))).
Proof.
  apply (successful_image_run_skips_pages_without_context Demo.lost_context
           (Demo.selected Demo.doc_pdf Demo.jpeg_high) Demo.doc_pdf);
    [reflexivity | discriminate | reflexivity].
Defined.

(** X24. The updater passed to [setResults] by an apply-edit is reached
    only when a session is open and its index lies inside the results
    array the handler closes over, the one [results[index]] was read
    from. *)
Theorem results_updater_index_in_range (w : World) (s : AppState)
    (f : list ProcessedFile -> list ProcessedFile) :
  In (SetResultsWith f) (fst (handleApplyEdit w s)) ->
  exists es, st_editingState s = Some es
             /\ (index es < length (st_results s))%nat.
Proof. apply applyEdit_update_in_range. Qed.

Lemma results_updater_index_in_range_witness :
  exists es,
    st_editingState (Demo.editing_page_2 "grayscale") = Some es
    /\ (index es < length (st_results (Demo.editing_page_2 "grayscale")))%nat.
Proof.
  apply (results_updater_index_in_range Demo.world
           (Demo.editing_page_2 "grayscale")
           (fun currentResults =>
              <[1%nat :=
                  {| name := "doc_page_2_edited.jpeg";
                     dataUrl := "data:image/jpeg;base64,R0lGODlhAQABAAAAACw=";
                     previewUrl :=
                       Some "data:image/jpeg;base64,R0lGODlhAQABAAAAACw=";
                     originalSize := 16667;
                     compressedSize := 14 |}]> currentResults)).
  do 3 right. left. reflexivity.
Defined.

(** X25. Editing the artifact of page [i] of an image run renames
    [<base>_page_<i>.<ext>] to [<base>_page_<i>_edited.<ext>], whatever
    the base name holds. *)
Theorem page_artifact_renamed_by_edit (file : File)
    (options : CompressionOptions) (i : nat) :
  JS.replace_extension_edited
    (originalBaseName file ++ "_page_" ++ JS.show i ++ "."
     ++ format_text (format options))
  = originalBaseName file ++ "_page_" ++ JS.show i ++ "_edited."
    ++ format_text (format options).
Proof. apply pageName_edited. Qed.
